(** * FitAura adaptive training engine: a shallow embedding

    Sources embedded here:
    - [models.js]           the records [Exercise], [Workout], [Feedback],
                            [ExercisePerformance], [User];
    - [autoregulator.js]    [Autoregulator.adjustLoad], [Autoregulator.adjustVolume];
    - [transparency.js]     [TransparencyService.explainAdjustment];
    - [training_engine.js]  [TrainingEngine.calculateReadiness],
                            [isExerciseRisky], [getSafeSubstitution],
                            [generateDailyWorkout];
    - [models.js]           the constructors and their defaults (module [Models]);
    - [server.js]           the handler of POST /api/workout/generate
                            (module [Server]);
    - [transparency.js]     the text of each template (module [Text]);
    - [autoregulator.js], [training_engine.js]
                            once more for objects with missing properties
                            (module [Partial]).

    Conventions of the embedding.
    - A JavaScript number that carries a load, an RPE or a feedback reading
      is an exact rational ([Q]); the factors 0.95, 1.025, 0.7 and the plate
      step 2.5 are the rationals written in the source.  Set and rep counts
      and the readiness score are integers ([Z]).  Module [Double] repeats
      the weight arithmetic on IEEE 754 doubles, the numbers JavaScript
      computes with, and [DoubleProps] checks that the weights named in the
      properties below come out the same there.
    - A property that may be absent from an object ([undefined]) is an
      [option]; a comparison with [undefined] is [false], as in JavaScript.
    - A thrown [TypeError] is the [Throw] outcome.  The records [Exercise]
      and [Workout] are complete objects: every exercise has a name and every
      workout a list of exercises, so that the only read of the engine that
      can fail on them is [dailyFeedback.painFlags.length].  Module [Partial]
      embeds the engine for objects that may lack them, with the
      [TypeError]s of [exercise.name.includes] and
      [adjustedWorkout.exercises.forEach]; [PartialProps.agrees] relates the
      two embeddings.
    - The engine is embedded twice: as functions on values (module
      [TrainingEngine]) and, statement by statement, as a program over a
      store of objects with references (module [Store]), where the deep
      clone, the array writes and the field writes of the source are real
      updates.  The two are related by [StoreProps.generateDailyWorkout_refines]. *)

From Stdlib Require Import ZArith QArith Qround String Ascii List Bool Lia Lqa.
From Stdlib Require Floats.
From stdpp Require Import base list.

Open Scope string_scope.
Open Scope list_scope.
Open Scope Z_scope.

(** ** JavaScript string primitives *)

Module JS.

(** [s.includes(sub)] *)
Fixpoint includes (s sub : string) : bool :=
  if String.prefix sub s then true
  else match s with
       | EmptyString => false
       | String _ rest => includes rest sub
       end.

(** Lower-casing of one ASCII letter; other characters are kept. *)
Definition lowerChar (c : ascii) : ascii :=
  let n := nat_of_ascii c in
  if ((65 <=? n)%nat && (n <=? 90)%nat)%bool then ascii_of_nat (n + 32) else c.

(** A byte of a UTF-8 sequence. *)
Definition isByte (c : ascii) (n : nat) : bool := (nat_of_ascii c =? n)%nat.

(** [s.toLowerCase()], on the UTF-8 bytes of the string.  ASCII letters are
    lower-cased.  Outside ASCII, the two characters whose lower case holds an
    ASCII letter are replaced as JavaScript replaces them: U+0130 (bytes
    196 176) by "i" followed by U+0307 (bytes 204 135), and U+212A KELVIN
    SIGN (bytes 226 132 170) by "k".  Any other character outside ASCII is
    kept; JavaScript may put another character outside ASCII in its place,
    which the program cannot observe: it only searches the result for the
    ASCII keys of [riskMap]. *)
Fixpoint toLowerCase (s : string) : string :=
  match s with
  | EmptyString => EmptyString
  | String a t =>
      match t with
      | EmptyString => String (lowerChar a) EmptyString
      | String b u =>
          if (isByte a 196 && isByte b 176)%bool then
            String "i"%char
              (String (ascii_of_nat 204) (String (ascii_of_nat 135) (toLowerCase u)))
          else
            match u with
            | EmptyString => String (lowerChar a) (toLowerCase t)
            | String c rest =>
                if (isByte a 226 && isByte b 132 && isByte c 170)%bool then
                  String "k"%char (toLowerCase rest)
                else String (lowerChar a) (toLowerCase t)
            end
      end
  end.

(** [Math.round]: the nearest integer, a tie going up. *)
Definition Math_round (x : Q) : Z := Qfloor (x + 0.5).

(** [Math.floor] *)
Definition Math_floor (x : Q) : Z := Qfloor x.

(** [a < b] on numbers *)
Definition lt (a b : Q) : bool := negb (Qle_bool b a).

(** Comparisons of a property that may be [undefined] with a number or a
    string literal: [undefined <= n], [undefined >= n], [undefined === n]
    and [undefined === 'text'] are all [false]. *)
Definition le_num (v : option Q) (n : Q) : bool :=
  match v with Some x => Qle_bool x n | None => false end.

Definition ge_num (v : option Q) (n : Q) : bool :=
  match v with Some x => Qle_bool n x | None => false end.

Definition eq_num (v : option Q) (n : Q) : bool :=
  match v with Some x => Qeq_bool x n | None => false end.

Definition eq_str (v : option string) (s : string) : bool :=
  match v with Some x => String.eqb x s | None => false end.

(** Outcome of a call: a value, or a thrown [TypeError]. *)
Inductive result (A : Type) : Type :=
| Ok (a : A)
| Throw (message : string).
Arguments Ok {A} a.
Arguments Throw {A} message.

End JS.

(** ** models.js *)

Record User := mkUser {
  user_id : string;
  user_name : string;
  trainingMaxes : list (string * Q);
  injuryHistory : list string
}.

(** An exercise object.  The substitutes built by [getSafeSubstitution] have
    no [type], [muscleGroups] or [rpeTarget] property. *)
Record Exercise := mkExercise {
  id : string;
  name : string;
  type : option string;
  muscleGroups : option (list string);
  weight : Q;
  sets : Z;
  reps : Z;
  rpeTarget : option Q
}.

Record Workout := mkWorkout {
  workout_id : string;
  userId : string;
  workout_name : string;
  exercises : list Exercise;
  date : string
}.

Record Feedback := mkFeedback {
  sleepQuality : option Q;
  soreness : option Q;
  stressLevel : option string;
  painFlags : option (list string)
}.

Record ExercisePerformance := mkExercisePerformance {
  exerciseId : string;
  perf_weight : Q;
  completedReps : Q;
  completedSets : Q;
  rpe : Q
}.

Definition set_weight (w : Q) (ex : Exercise) : Exercise :=
  mkExercise (id ex) (name ex) (type ex) (muscleGroups ex) w (sets ex) (reps ex)
             (rpeTarget ex).

Definition set_sets (n : Z) (ex : Exercise) : Exercise :=
  mkExercise (id ex) (name ex) (type ex) (muscleGroups ex) (weight ex) n (reps ex)
             (rpeTarget ex).

Definition set_exercises (exs : list Exercise) (w : Workout) : Workout :=
  mkWorkout (workout_id w) (userId w) (workout_name w) exs (date w).

(** The adjustment kinds, which the source writes as string constants. *)
Inductive AdjustmentType :=
| LOAD_INCREASE | LOAD_DECREASE | VOLUME_REDUCTION | DELOAD
| INJURY_SUBSTITUTION | MAINTENANCE.

Definition AdjustmentType_eqb (a b : AdjustmentType) : bool :=
  match a, b with
  | LOAD_INCREASE, LOAD_INCREASE | LOAD_DECREASE, LOAD_DECREASE
  | VOLUME_REDUCTION, VOLUME_REDUCTION | DELOAD, DELOAD
  | INJURY_SUBSTITUTION, INJURY_SUBSTITUTION | MAINTENANCE, MAINTENANCE => true
  | _, _ => false
  end.

(** ** autoregulator.js *)

Module Autoregulator.

Record LoadAdjustment := mkLoadAdjustment {
  newWeight : Q;
  adjustmentType : AdjustmentType
}.

(** [static adjustLoad(currentWeight, rpe, targetRpe = 8, missedReps = false)];
    an argument that is [undefined] takes its default. *)
Definition adjustLoad (currentWeight rpe : Q) (targetRpe : option Q)
    (missedReps : option bool) : LoadAdjustment :=
  let targetRpe := default 8%Q targetRpe in
  let missedReps := default false missedReps in
  if missedReps then
    mkLoadAdjustment (currentWeight * 0.95) LOAD_DECREASE
  else if Qle_bool rpe (targetRpe - 1) then
    mkLoadAdjustment (currentWeight * 1.025) LOAD_INCREASE
  else if Qle_bool 9.5 rpe then
    mkLoadAdjustment (currentWeight * 0.95) LOAD_DECREASE
  else
    mkLoadAdjustment currentWeight MAINTENANCE.

Record VolumeAdjustment := mkVolumeAdjustment {
  workout : Workout;
  volume_type : AdjustmentType
}.

(** [JSON.parse(JSON.stringify(w))] on a value: a workout record is its own
    serialisation, so the copy has the same content.  (In [Store] the copy
    is a fresh object graph.) *)
Definition JSON_clone (w : Workout) : Workout := w.

(** [ex.sets = Math.max(1, Math.floor(ex.sets * 0.5))] *)
Definition deloadSets (ex : Exercise) : Exercise :=
  set_sets (Z.max 1 (JS.Math_floor (inject_Z (sets ex) * 0.5))) ex.

(** [if (ex.sets > 1) ex.sets -= 1] *)
Definition reduceSets (ex : Exercise) : Exercise :=
  if 1 <? sets ex then set_sets (sets ex - 1) ex else ex.

(** [static adjustVolume(plannedWorkout, readinessScore)] *)
Definition adjustVolume (plannedWorkout : Workout) (readinessScore : Z)
    : VolumeAdjustment :=
  let adjustedWorkout := JSON_clone plannedWorkout in
  if readinessScore <? 40 then
    mkVolumeAdjustment
      (set_exercises (map deloadSets (exercises adjustedWorkout)) adjustedWorkout)
      DELOAD
  else if readinessScore <? 60 then
    mkVolumeAdjustment
      (set_exercises (map reduceSets (exercises adjustedWorkout)) adjustedWorkout)
      VOLUME_REDUCTION
  else
    mkVolumeAdjustment adjustedWorkout MAINTENANCE.

End Autoregulator.

(** ** transparency.js *)

Module TransparencyService.

(** The context object handed to [explainAdjustment]; a property the caller
    did not set is [None]. *)
Record Context := mkContext {
  painLocation : option string;
  originalExercise : option string;
  newExercise : option string;
  sleepHours : option Q;
  setsRemoved : option string;
  lastRpe : option Q;
  increaseAmount : option Q
}.

Definition emptyContext : Context :=
  mkContext None None None None None None None.

(** The templates of the source, keyed by the adjustment kind. *)
Inductive Template :=
| GoMode | Reset | EnergySaver | DeloadWeek | InjuryPrevention | SteadyState.

(** An explanation is a template instantiated with the context; the
    rendering of the numbers into text is not modelled. *)
Record Explanation := mkExplanation {
  template : Template;
  context : Context
}.

Definition explainAdjustment (adjustmentType : AdjustmentType) (ctx : Context)
    : Explanation :=
  match adjustmentType with
  | LOAD_INCREASE => mkExplanation GoMode ctx
  | LOAD_DECREASE => mkExplanation Reset ctx
  | VOLUME_REDUCTION => mkExplanation EnergySaver ctx
  | DELOAD => mkExplanation DeloadWeek ctx
  | INJURY_SUBSTITUTION => mkExplanation InjuryPrevention ctx
  | MAINTENANCE => mkExplanation SteadyState ctx
  end.

End TransparencyService.

(** ** training_engine.js *)

Module TrainingEngine.

Import JS Autoregulator TransparencyService.

(** The engine object; its constructor sets [baselineReadiness] to 80. *)
Record Engine := mkEngine { baselineReadiness : Z }.

Definition constructor : Engine := mkEngine 80.

(** [calculateReadiness(feedback)] *)
Definition calculateReadiness (this : Engine) (feedback : Feedback) : Z :=
  let score := baselineReadiness this in
  let score :=
    if le_num (sleepQuality feedback) 4 then score - 20
    else if le_num (sleepQuality feedback) 6 then score - 10
    else if ge_num (sleepQuality feedback) 8 then score + 5
    else score in
  let score := if ge_num (soreness feedback) 4 then score - 10 else score in
  let score := if eq_num (soreness feedback) 5 then score - 20 else score in
  let score := if eq_str (stressLevel feedback) "High" then score - 15 else score in
  Z.max 0 (Z.min 100 score).

Definition riskMap : list (string * list string) :=
  [ ("knee", ["Squat"; "Lunge"; "Leg Press"]);
    ("shoulder", ["Bench Press"; "Overhead Press"; "Dip"]);
    ("back", ["Deadlift"; "Row"; "Good Morning"]) ].

(** [isExerciseRisky(exercise, painArea)]: the loop over the entries of
    [riskMap] with the flag [foundRisk]. *)
Definition isExerciseRisky (exercise : Exercise) (painArea : string) : bool :=
  fold_left
    (fun (foundRisk : bool) (entry : string * list string) =>
       let '(key, riskyList) := entry in
       if includes (toLowerCase painArea) key then
         if existsb (fun riskyName => includes (name exercise) riskyName) riskyList
         then true else foundRisk
       else foundRisk)
    riskMap false.

(** [getSafeSubstitution(exercise, painArea)] *)
Definition getSafeSubstitution (exercise : Exercise) (painArea : string) : Exercise :=
  if includes painArea "knee" then
    mkExercise (id exercise ++ "_sub")%string "Glute Bridge" None None 0 3 15 None
  else if includes painArea "shoulder" then
    mkExercise (id exercise ++ "_sub")%string "Push-up (Neutral Grip)" None None 0 3 12 None
  else if includes painArea "back" then
    mkExercise (id exercise ++ "_sub")%string "Chest Supported Row" None None
               (weight exercise * 0.7) 3 10 None
  else
    mkExercise "rest" ("Rest (" ++ painArea ++ " pain)")%string None None 0 0 0 None.

(** The working state of [generateDailyWorkout]: the exercise array of
    [adjustedWorkout] and the [explanations] pushed so far. *)
Definition Working : Type := list Exercise * list Explanation.

(** One visit of the inner [forEach((ex, index) => ...)] of the safety check;
    [ex] is the element the array holds at [index] when it is visited. *)
Definition substituteAt (painArea : string) (st : Working) (index : nat) : Working :=
  match fst st !! index with
  | Some ex =>
      if isExerciseRisky ex painArea then
        let sub := getSafeSubstitution ex painArea in
        (<[index := sub]> (fst st),
         snd st ++ [explainAdjustment INJURY_SUBSTITUTION
                      (mkContext (Some painArea) (Some (name ex)) (Some (name sub))
                                 None None None None)])
      else st
  | None => st
  end.

(** The inner loop: every index of the array, in order. *)
Definition substituteForPainArea (st : Working) (painArea : string) : Working :=
  fold_left (substituteAt painArea) (seq 0 (length (fst st))) st.

(** The outer loop: [dailyFeedback.painFlags.forEach(painArea => ...)]. *)
Definition safetyCheck (flags : list string) (st : Working) : Working :=
  if (0 <? length flags)%nat then fold_left substituteForPainArea flags st else st.

(** The body of the load-progression loop for one [currentEx]: the exercise
    as it is left, and the explanations it pushes.  The arithmetic is exact:
    where the scaled weight is a tie of the rounding (51.25 for a record of 50
    on LOAD_INCREASE) [Math_round] takes the upper step, while the binary64
    product of JavaScript falls short of the tie and the lower step is
    returned; [RoundingProps.rounded_on_doubles] lists these record weights,
    and the theorems on returned weights
    ([RoundingProps.adjusted_weight_rounded], [LoadExtra.rounded_step]) are
    stated so as to hold of either step. *)
Definition progressLoad (lastPerformances : list ExercisePerformance)
    (currentEx : Exercise) : Exercise * list Explanation :=
  match find (fun p => String.eqb (exerciseId p) (id currentEx)) lastPerformances with
  | Some lastPerf =>
      let adjustment :=
        adjustLoad (perf_weight lastPerf) (rpe lastPerf) (rpeTarget currentEx)
                   (Some (lt (completedReps lastPerf) (inject_Z (reps currentEx)))) in
      if negb (AdjustmentType_eqb (adjustmentType adjustment) MAINTENANCE) then
        let currentEx :=
          set_weight (inject_Z (Math_round (newWeight adjustment / 2.5)) * 2.5)
                     currentEx in
        (currentEx,
         [explainAdjustment (adjustmentType adjustment)
            (mkContext None None None None None (Some (rpe lastPerf))
                       (Some (weight currentEx - perf_weight lastPerf)%Q))])
      else
        (set_weight (perf_weight lastPerf) currentEx, [])
  | None => (currentEx, [])
  end.

(** [adjustedWorkout.exercises.forEach(currentEx => ...)] of step 3. *)
Fixpoint loadProgression (lastPerformances : list ExercisePerformance)
    (exs : list Exercise) : Working :=
  match exs with
  | [] => ([], [])
  | currentEx :: rest =>
      let '(ex', pushed) := progressLoad lastPerformances currentEx in
      let '(rest', pushed') := loadProgression lastPerformances rest in
      (ex' :: rest', pushed ++ pushed')
  end.

Record Decision := mkDecision {
  readinessScore : Z;
  decision_workout : Workout;
  explanations : list Explanation
}.

(** [generateDailyWorkout(userProfile, plannedWorkout, dailyFeedback,
    lastPerformances = [])].  Reading [.length] of a missing [painFlags]
    throws. *)
Definition generateDailyWorkout (this : Engine) (userProfile : User)
    (plannedWorkout : Workout) (dailyFeedback : Feedback)
    (lastPerformances : list ExercisePerformance) : result Decision :=
  let explanations : list Explanation := [] in
  let adjustedWorkout := JSON_clone plannedWorkout in
  (* 1. Safety Check: Pain/Injury *)
  match painFlags dailyFeedback with
  | None => Throw "Cannot read properties of undefined (reading 'length')"
  | Some flags =>
      let '(exs, explanations) :=
        safetyCheck flags (exercises adjustedWorkout, explanations) in
      let adjustedWorkout := set_exercises exs adjustedWorkout in
      (* 2. Readiness Check & Volume Adjustment *)
      let readiness := calculateReadiness this dailyFeedback in
      let volumeAdjustmentResult := adjustVolume adjustedWorkout readiness in
      let '(adjustedWorkout, explanations) :=
        if negb (AdjustmentType_eqb (volume_type volumeAdjustmentResult) MAINTENANCE)
        then
          (workout volumeAdjustmentResult,
           explanations ++
             [explainAdjustment (volume_type volumeAdjustmentResult)
                (mkContext None None None (sleepQuality dailyFeedback)
                   (Some (if AdjustmentType_eqb (volume_type volumeAdjustmentResult)
                               DELOAD then "50%" else "20%"))
                   None None)])
        else (adjustedWorkout, explanations) in
      (* 3. Load Progression based on Last Performance *)
      let '(adjustedWorkout, explanations) :=
        if 40 <=? readiness then
          let '(exs, pushed) :=
            loadProgression lastPerformances (exercises adjustedWorkout) in
          (set_exercises exs adjustedWorkout, explanations ++ pushed)
        else (adjustedWorkout, explanations) in
      Ok (mkDecision readiness adjustedWorkout explanations)
  end.

(** *** The scenarios of [test_scenarios.js] *)

Definition user : User := mkUser "u1" "Test User" [] [].

Definition plannedWorkout : Workout :=
  mkWorkout "w1" "u1" "Full Body A"
    [ mkExercise "sq" "Barbell Squat" (Some "compound") (Some ["quads"]) 100 3 5 (Some 8%Q);
      mkExercise "bp" "Bench Press" (Some "compound") (Some ["chest"]) 80 3 5 (Some 8%Q);
      mkExercise "row" "Barbell Row" (Some "compound") (Some ["back"]) 60 3 10 (Some 8%Q) ]
    "2024-01-01T00:00:00.000Z".

Definition feedbackA : Feedback := mkFeedback (Some 8%Q) (Some 2%Q) (Some "Low") (Some []).

Definition historyA : list ExercisePerformance :=
  [ mkExercisePerformance "sq" 100 5 3 7;
    mkExercisePerformance "bp" 80 5 3 8;
    mkExercisePerformance "row" 60 10 3 9 ].

Definition feedbackB : Feedback := mkFeedback (Some 5%Q) (Some 3%Q) (Some "High") (Some []).

Definition feedbackC : Feedback :=
  mkFeedback (Some 7%Q) (Some 2%Q) (Some "Low") (Some ["left_knee"]).

End TrainingEngine.


(** ** The engine over a store of objects

    The same source, this time with JavaScript's object identity: a workout
    object refers to its exercise array, the array refers to its exercise
    objects, [JSON.parse(JSON.stringify(...))] builds a fresh graph, and the
    assignments [arr[index] = sub], [ex.sets = ...] and
    [currentEx.weight = ...] update objects in place.  The feedback, the
    user and the performance records are only read, and stay values. *)

Module Store.

Import JS TransparencyService.

(** A reference is an index into the store; objects are allocated at its end. *)
Abbreviation loc := nat.

Record WorkoutObject := mkWorkoutObject {
  o_id : string;
  o_userId : string;
  o_name : string;
  o_exercises : loc;
  o_date : string
}.

Inductive object :=
| ExerciseObject (ex : Exercise)
| ArrayObject (elements : list loc)
| WorkoutObj (w : WorkoutObject).

Abbreviation store := (list object).

(** A computation reads and updates the store and returns or throws; the
    store it leaves is kept in both cases. *)
Definition M (A : Type) : Type := store -> result A * store.

Definition ret {A} (a : A) : M A := fun s => (Ok a, s).

Definition throw {A} (message : string) : M A := fun s => (Throw message, s).

Definition bind {A B} (m : M A) (k : A -> M B) : M B :=
  fun s =>
    match m s with
    | (Ok a, s') => k a s'
    | (Throw message, s') => (Throw message, s')
    end.

Notation "x <- m ;; k" := (bind m (fun x => k))
  (at level 100, m at next level, right associativity).

Definition alloc (o : object) : M loc := fun s => (Ok (length s), s ++ [o]).

Definition deref (l : loc) : M object :=
  fun s =>
    match s !! l with
    | Some o => (Ok o, s)
    | None => (Throw "Cannot read properties of undefined", s)
    end.

Definition assign (l : loc) (o : object) : M unit :=
  fun s => (Ok tt, <[l := o]> s).

Definition getExercise (l : loc) : M Exercise :=
  o <- deref l ;;
  match o with
  | ExerciseObject ex => ret ex
  | _ => throw "not an exercise"
  end.

Definition getArray (l : loc) : M (list loc) :=
  o <- deref l ;;
  match o with
  | ArrayObject elements => ret elements
  | _ => throw "not an array"
  end.

Definition getWorkout (l : loc) : M WorkoutObject :=
  o <- deref l ;;
  match o with
  | WorkoutObj w => ret w
  | _ => throw "not a workout"
  end.

(** A loop over a list, threading the loop's local state. *)
Fixpoint forEach {A S} (body : A -> S -> M S) (xs : list A) (acc : S) : M S :=
  match xs with
  | [] => ret acc
  | x :: rest => acc' <- body x acc ;; forEach body rest acc'
  end.

(** [arr.forEach((element, index) => ...)]: the length is read once, the
    element at each index when the index is visited. *)
Definition forEachElement {S} (arr : loc) (body : loc -> nat -> S -> M S) (acc : S)
    : M S :=
  elements <- getArray arr ;;
  forEach
    (fun index acc =>
       current <- getArray arr ;;
       match current !! index with
       | Some element => body element index acc
       | None => ret acc
       end)
    (seq 0 (length elements)) acc.

(** [JSON.stringify(workout)]: the workout as a value, read through the
    references. *)
Fixpoint getExercises (ls : list loc) : M (list Exercise) :=
  match ls with
  | [] => ret []
  | l :: rest =>
      ex <- getExercise l ;;
      exs <- getExercises rest ;;
      ret (ex :: exs)
  end.

Definition JSON_stringify (w : loc) : M Workout :=
  o <- getWorkout w ;;
  elements <- getArray (o_exercises o) ;;
  exs <- getExercises elements ;;
  ret (mkWorkout (o_id o) (o_userId o) (o_name o) exs (o_date o)).

(** [JSON.parse(text)]: a fresh object for every exercise, a fresh array
    and a fresh workout object. *)
Fixpoint allocExercises (exs : list Exercise) : M (list loc) :=
  match exs with
  | [] => ret []
  | ex :: rest =>
      l <- alloc (ExerciseObject ex) ;;
      ls <- allocExercises rest ;;
      ret (l :: ls)
  end.

Definition JSON_parse (w : Workout) : M loc :=
  elements <- allocExercises (exercises w) ;;
  arr <- alloc (ArrayObject elements) ;;
  alloc (WorkoutObj (mkWorkoutObject (workout_id w) (userId w) (workout_name w) arr
                                     (date w))).

Definition JSON_clone (w : loc) : M loc :=
  text <- JSON_stringify w ;;
  JSON_parse text.

(** [ex.sets = Math.max(1, Math.floor(ex.sets * 0.5))] on the object [l]. *)
Definition deloadSets (l : loc) : M unit :=
  ex <- getExercise l ;;
  assign l (ExerciseObject (set_sets (Z.max 1 (Math_floor (inject_Z (sets ex) * 0.5))) ex)).

(** [if (ex.sets > 1) ex.sets -= 1] on the object [l]. *)
Definition reduceSets (l : loc) : M unit :=
  ex <- getExercise l ;;
  if 1 <? sets ex then assign l (ExerciseObject (set_sets (sets ex - 1) ex))
  else ret tt.

(** [Autoregulator.adjustVolume(plannedWorkout, readinessScore)] *)
Definition adjustVolume (plannedWorkout : loc) (readinessScore : Z)
    : M (loc * AdjustmentType) :=
  adjustedWorkout <- JSON_clone plannedWorkout ;;
  if readinessScore <? 40 then
    o <- getWorkout adjustedWorkout ;;
    _ <- forEachElement (o_exercises o) (fun ex _ acc => deloadSets ex) tt ;;
    ret (adjustedWorkout, DELOAD)
  else if readinessScore <? 60 then
    o <- getWorkout adjustedWorkout ;;
    _ <- forEachElement (o_exercises o) (fun ex _ acc => reduceSets ex) tt ;;
    ret (adjustedWorkout, VOLUME_REDUCTION)
  else
    ret (adjustedWorkout, MAINTENANCE).

(** [isExerciseRisky(exercise, painArea)] reads the name of the object. *)
Definition isExerciseRisky (exercise : loc) (painArea : string) : M bool :=
  ex <- getExercise exercise ;;
  ret (TrainingEngine.isExerciseRisky ex painArea).

(** [getSafeSubstitution(exercise, painArea)] returns a new object. *)
Definition getSafeSubstitution (exercise : loc) (painArea : string) : M loc :=
  ex <- getExercise exercise ;;
  alloc (ExerciseObject (TrainingEngine.getSafeSubstitution ex painArea)).

(** The callback of the inner loop of the safety check. *)
Definition substituteAt (adjustedWorkout : loc) (painArea : string)
    (ex : loc) (index : nat) (explanations : list Explanation)
    : M (list Explanation) :=
  risky <- isExerciseRisky ex painArea ;;
  if risky then
    sub <- getSafeSubstitution ex painArea ;;
    original <- getExercise ex ;;
    substitute <- getExercise sub ;;
    let explanations :=
      explanations ++
        [explainAdjustment INJURY_SUBSTITUTION
           (mkContext (Some painArea) (Some (name original)) (Some (name substitute))
                      None None None None)] in
    (* adjustedWorkout.exercises[index] = sub *)
    o <- getWorkout adjustedWorkout ;;
    elements <- getArray (o_exercises o) ;;
    _ <- assign (o_exercises o) (ArrayObject (<[index := sub]> elements)) ;;
    ret explanations
  else ret explanations.

Definition safetyCheck (adjustedWorkout : loc) (flags : list string)
    (explanations : list Explanation) : M (list Explanation) :=
  if (0 <? length flags)%nat then
    forEach
      (fun painArea explanations =>
         o <- getWorkout adjustedWorkout ;;
         forEachElement (o_exercises o) (substituteAt adjustedWorkout painArea)
                        explanations)
      flags explanations
  else ret explanations.

(** The callback of the load-progression loop. *)
Definition progressLoad (lastPerformances : list ExercisePerformance)
    (currentEx : loc) (explanations : list Explanation) : M (list Explanation) :=
  current <- getExercise currentEx ;;
  match find (fun p => String.eqb (exerciseId p) (id current)) lastPerformances with
  | Some lastPerf =>
      let adjustment :=
        Autoregulator.adjustLoad (perf_weight lastPerf) (rpe lastPerf)
          (rpeTarget current)
          (Some (lt (completedReps lastPerf) (inject_Z (reps current)))) in
      if negb (AdjustmentType_eqb (Autoregulator.adjustmentType adjustment) MAINTENANCE)
      then
        _ <- assign currentEx
               (ExerciseObject
                  (set_weight
                     (inject_Z (Math_round (Autoregulator.newWeight adjustment / 2.5)) * 2.5)
                     current)) ;;
        updated <- getExercise currentEx ;;
        ret (explanations ++
               [explainAdjustment (Autoregulator.adjustmentType adjustment)
                  (mkContext None None None None None (Some (rpe lastPerf))
                             (Some (weight updated - perf_weight lastPerf)%Q))])
      else
        _ <- assign currentEx (ExerciseObject (set_weight (perf_weight lastPerf) current)) ;;
        ret explanations
  | None => ret explanations
  end.

Record Decision := mkDecision {
  readinessScore : Z;
  workout : loc;
  explanations : list Explanation
}.

(** [generateDailyWorkout(userProfile, plannedWorkout, dailyFeedback,
    lastPerformances)] *)
Definition generateDailyWorkout (this : TrainingEngine.Engine) (userProfile : User)
    (plannedWorkout : loc) (dailyFeedback : Feedback)
    (lastPerformances : list ExercisePerformance) : M Decision :=
  let explanations : list Explanation := [] in
  adjustedWorkout <- JSON_clone plannedWorkout ;;
  (* 1. Safety Check: Pain/Injury *)
  match painFlags dailyFeedback with
  | None => throw "Cannot read properties of undefined (reading 'length')"
  | Some flags =>
      explanations <- safetyCheck adjustedWorkout flags explanations ;;
      (* 2. Readiness Check & Volume Adjustment *)
      let readiness := TrainingEngine.calculateReadiness this dailyFeedback in
      volumeAdjustmentResult <- adjustVolume adjustedWorkout readiness ;;
      let '(adjustedWorkout, explanations) :=
        if negb (AdjustmentType_eqb (snd volumeAdjustmentResult) MAINTENANCE) then
          (fst volumeAdjustmentResult,
           explanations ++
             [explainAdjustment (snd volumeAdjustmentResult)
                (mkContext None None None (sleepQuality dailyFeedback)
                   (Some (if AdjustmentType_eqb (snd volumeAdjustmentResult) DELOAD
                          then "50%" else "20%"))
                   None None)])
        else (adjustedWorkout, explanations) in
      (* 3. Load Progression based on Last Performance *)
      explanations <-
        (if 40 <=? readiness then
           o <- getWorkout adjustedWorkout ;;
           forEachElement (o_exercises o)
             (fun currentEx _ explanations =>
                progressLoad lastPerformances currentEx explanations)
             explanations
         else ret explanations) ;;
      ret (mkDecision readiness adjustedWorkout explanations)
  end.

(** The store of the test script: the three exercise objects, the array
    and the planned workout, which is at reference 4. *)
Definition testStore : store :=
  map ExerciseObject (exercises TrainingEngine.plannedWorkout)
  ++ [ArrayObject [0; 1; 2]%nat;
      WorkoutObj (mkWorkoutObject "w1" "u1" "Full Body A" 3%nat
                                  "2024-01-01T00:00:00.000Z")].

End Store.

(** ** The pipeline seen slot by slot

    Every stage of [generateDailyWorkout] treats the slots of the exercise
    array independently.  These functions give the effect of each stage on
    one slot; [PipelineProps.generateDailyWorkout_slots] proves that the
    engine computes exactly their composition on every slot. *)

Module Slot.

Import JS Autoregulator TransparencyService TrainingEngine.

(** One pain flag on one slot. *)
Definition substitute (painArea : string) (ex : Exercise) : Exercise :=
  if isExerciseRisky ex painArea then getSafeSubstitution ex painArea else ex.

(** The explanation one pain flag pushes for one slot, if it replaces it. *)
Definition explainSubstitute (painArea : string) (pushed : list Explanation)
    (ex : Exercise) : list Explanation :=
  if isExerciseRisky ex painArea then
    pushed ++
      [explainAdjustment INJURY_SUBSTITUTION
         (mkContext (Some painArea) (Some (name ex))
                    (Some (name (getSafeSubstitution ex painArea)))
                    None None None None)]
  else pushed.

(** The safety check on one slot: the flags in the order supplied. *)
Definition safety (flags : list string) (ex : Exercise) : Exercise :=
  fold_left (fun ex painArea => substitute painArea ex) flags ex.

(** The volume adjustment on one slot. *)
Definition volume (readiness : Z) (ex : Exercise) : Exercise :=
  if readiness <? 40 then deloadSets ex
  else if readiness <? 60 then reduceSets ex
  else ex.

(** The load progression on one slot. *)
Definition load (readiness : Z) (lastPerformances : list ExercisePerformance)
    (ex : Exercise) : Exercise :=
  if 40 <=? readiness then fst (progressLoad lastPerformances ex) else ex.

Definition adjust (readiness : Z) (flags : list string)
    (lastPerformances : list ExercisePerformance) (ex : Exercise) : Exercise :=
  load readiness lastPerformances (volume readiness (safety flags ex)).

(** The substitutes for knee and back pain, as [getSafeSubstitution] builds
    them from the exercise they replace. *)
Definition gluteBridge (original : Exercise) : Exercise :=
  mkExercise (id original ++ "_sub")%string "Glute Bridge" None None 0 3 15 None.

Definition chestSupportedRow (original : Exercise) : Exercise :=
  mkExercise (id original ++ "_sub")%string "Chest Supported Row" None None
             (weight original * 0.7) 3 10 None.

(** [w] is an integer multiple of the 2.5 plate step. *)
Definition multipleOfStep (w : Q) : Prop := exists n : Z, (w == inject_Z n * 2.5)%Q.

(** The slot of a returned decision, [None] when the call threw. *)
Definition returned (r : result Decision) (index : nat) : option Exercise :=
  match r with
  | Ok d => exercises (decision_workout d) !! index
  | Throw _ => None
  end.

(** The exercises and the explanations of a returned decision, empty when
    the call threw. *)
Definition returnedExercises (r : result Decision) : list Exercise :=
  match r with
  | Ok d => exercises (decision_workout d)
  | Throw _ => []
  end.

Definition returnedExplanations (r : result Decision) : list Explanation :=
  match r with
  | Ok d => explanations d
  | Throw _ => []
  end.

(** The first performance record keyed by [exerciseId], as
    [lastPerformances.find] returns it. *)
Definition lookupPerformance (lastPerformances : list ExercisePerformance)
    (exerciseId' : string) : option ExercisePerformance :=
  find (fun p => String.eqb (exerciseId p) exerciseId') lastPerformances.

End Slot.

(** ** Invariants of the engine over the store *)

Module StoreView.

Import JS Store.

Local Open Scope nat_scope.

(** [m] only reads: it leaves the store as it found it, and what it
    returns from a store it returns from every extension of it. *)
Definition reads {A} (m : M A) : Prop :=
  forall s, snd (m s) = s
    /\ forall a t, fst (m s) = Ok a -> fst (m (s ++ t)) = Ok a.

(** The exercise objects [elements] lie at or above [mark], are pairwise
    distinct, and hold the values [exs]. *)
Definition owned (mark : nat) (s : store) (elements : list loc)
    (exs : list Exercise) : Prop :=
  NoDup elements
  /\ Forall2 (fun l ex => mark <= l /\ s !! l = Some (ExerciseObject ex)) elements exs.

(** [represents mark s w arr v]: in store [s] the workout object [w], its
    array [arr] and the exercise objects of the array lie at or above
    [mark], the array holds no object twice, and read as a value the
    workout is [v]. *)
Definition represents (mark : nat) (s : store) (w arr : loc) (v : Workout) : Prop :=
  mark <= w /\ mark <= arr
  /\ s !! w = Some (WorkoutObj (mkWorkoutObject (workout_id v) (userId v)
                                  (workout_name v) arr (date v)))
  /\ exists elements,
       s !! arr = Some (ArrayObject elements) /\ owned mark s elements (exercises v).

(** The invariant of a call started in store [s0]: nothing of [s0] has
    changed, and the working copy is a value. *)
Definition working (s0 s : store) (w arr : loc) (v : Workout) : Prop :=
  s0 `prefix_of` s /\ represents (length s0) s w arr v.

(** A loop body that, visiting slot [index], leaves [f ex] in the slot and
    turns the loop state [acc] into [g acc ex], keeping the invariant. *)
Definition slot_body {S} (s0 : store) (w arr : loc)
    (body : loc -> nat -> S -> M S) (f : Exercise -> Exercise)
    (g : S -> Exercise -> S) : Prop :=
  forall s v elements index l ex acc,
    working s0 s w arr v ->
    s !! arr = Some (ArrayObject elements) ->
    elements !! index = Some l ->
    exercises v !! index = Some ex ->
    exists s',
      body l index acc s = (Ok (g acc ex), s')
      /\ working s0 s' w arr (set_exercises (<[index := f ex]> (exercises v)) v).

End StoreView.

(** ** The weight arithmetic on doubles

    JavaScript numbers are IEEE 754 binary64 values.  These are the three
    computations on weights in the source, on the kernel's binary64
    floats. *)

Module Double.

Import PrimFloat.

#[local] Set Warnings "-inexact-float".

(** The exact value of a finite double. *)
Definition toQ (x : float) : option Q :=
  match FloatOps.Prim2SF x with
  | SpecFloat.S754_zero _ => Some 0%Q
  | SpecFloat.S754_finite negative m e =>
      let magnitude := (inject_Z (Zpos m) * 2 ^ e)%Q in
      Some (if negative then (- magnitude)%Q else magnitude)
  | _ => None
  end.

(** The double of an integer below 2 ^ 63 in magnitude. *)
Definition ofZ (n : Z) : float :=
  match n with
  | Z0 => 0%float
  | Zpos p => of_uint63 (Uint63.of_Z (Zpos p))
  | Zneg p => opp (of_uint63 (Uint63.of_Z (Zpos p)))
  end.

(** [Math.round(x)]: the integer nearest to the exact value of [x], a tie
    going up; an infinity or NaN is returned as it is. *)
Definition Math_round (x : float) : float :=
  match toQ x with
  | Some q => ofZ (Qfloor (q + 0.5))
  | None => x
  end.

(** [currentWeight * factor] of [adjustLoad], [exercise.weight * 0.7] of
    [getSafeSubstitution]. *)
Definition scale (w factor : float) : float := (w * factor)%float.

(** [Math.round(newWeight / 2.5) * 2.5] of [generateDailyWorkout]. *)
Definition roundToStep (newWeight : float) : float :=
  (Math_round (newWeight / 2.5) * 2.5)%float.

End Double.

(** ** transparency.js: the text of an explanation

    The templates of [TransparencyService.explainAdjustment], keyed by the
    adjustment kind as the string the source switches on.  A number placed
    in a template is printed by JavaScript; the two printers the source
    relies on, the default one and [toFixed(1)], are parameters here. *)

Module Text.

Import TransparencyService.

(** The symbols the templates start with, as their UTF-8 bytes. *)
Definition utf8 (bytes : list nat) : string :=
  fold_right (fun b s => String (ascii_of_nat b) s) EmptyString bytes.
Definition rocket : string := Eval cbv in utf8 [240; 159; 154; 128]%nat.
Definition chartDown : string := Eval cbv in utf8 [240; 159; 147; 137]%nat.
Definition battery : string := Eval cbv in utf8 [240; 159; 148; 139]%nat.
Definition stopSign : string := Eval cbv in utf8 [240; 159; 155; 145]%nat.
Definition bandage : string := Eval cbv in utf8 [240; 159; 169; 185]%nat.
Definition checkMark : string := Eval cbv in utf8 [226; 156; 133]%nat.

(** The name of a kind, as the engine and the autoregulator write it. *)
Definition kindName (kind : AdjustmentType) : string :=
  match kind with
  | LOAD_INCREASE => "LOAD_INCREASE"
  | LOAD_DECREASE => "LOAD_DECREASE"
  | VOLUME_REDUCTION => "VOLUME_REDUCTION"
  | DELOAD => "DELOAD"
  | INJURY_SUBSTITUTION => "INJURY_SUBSTITUTION"
  | MAINTENANCE => "MAINTENANCE"
  end.

(** The kind a string names, if any: the [case] labels of the switch. *)
Definition kindOf (adjustmentType : string) : option AdjustmentType :=
  if String.eqb adjustmentType "LOAD_INCREASE" then Some LOAD_INCREASE
  else if String.eqb adjustmentType "LOAD_DECREASE" then Some LOAD_DECREASE
  else if String.eqb adjustmentType "VOLUME_REDUCTION" then Some VOLUME_REDUCTION
  else if String.eqb adjustmentType "DELOAD" then Some DELOAD
  else if String.eqb adjustmentType "INJURY_SUBSTITUTION" then Some INJURY_SUBSTITUTION
  else if String.eqb adjustmentType "MAINTENANCE" then Some MAINTENANCE
  else None.

Section Rendering.

(** [`${n}`] and [n.toFixed(1)] for a number [n]. *)
Variable numberToString : Q -> string.
Variable toFixed1 : Q -> string.

(** A property of the context inside a template; a missing one prints as
    "undefined".  The engine hands over [increaseAmount] printed by
    [toFixed(1)]; the context of this development holds the number, and
    [showFixed] prints it. *)
Definition showNumber (v : option Q) : string :=
  match v with Some n => numberToString n | None => "undefined" end.

Definition showFixed (v : option Q) : string :=
  match v with Some n => toFixed1 n | None => "undefined" end.

Definition showString (v : option string) : string := default "undefined" v.

(** [static explainAdjustment(adjustmentType, context)] *)
Definition explainAdjustment (adjustmentType : string) (context : Context) : string :=
  (match kindOf adjustmentType with
   | Some LOAD_INCREASE =>
       rocket
       ++ " **Go Mode**: You crushed the last session (RPE "
       ++ showNumber (lastRpe context)
       ++ "). We're adding "
       ++ showFixed (increaseAmount context)
       ++ "kg to keep you in the growth zone. Expect this to feel like "
       ++ "an RPE 8."
   | Some LOAD_DECREASE =>
       chartDown
       ++ " **Reset**: Last session was a grind (RPE "
       ++ showNumber (lastRpe context)
       ++ "). We're dropping the weight by 5% to help you master the "
       ++ "form and build confidence. Perfect technique first!"
   | Some VOLUME_REDUCTION =>
       battery
       ++ " **Energy Saver**: Short sleep ("
       ++ showNumber (sleepHours context)
       ++ "h) or high stress means recovery is expensive today. We cut "
       ++ showString (setsRemoved context)
       ++ " sets to prevent overtraining. You'll stimulate muscle "
       ++ "without digging a hole."
   | Some DELOAD =>
       stopSign
       ++ " **Deload Week**: You've been pushing hard. Your recovery "
       ++ "markers are trending down. We're dropping intensity by 40% "
       ++ "this week to let your nervous system rebound. You'll come "
       ++ "back stronger next week."
   | Some INJURY_SUBSTITUTION =>
       bandage
       ++ " **Injury Prevention**: You flagged "
       ++ showString (painLocation context)
       ++ " discomfort. We've swapped "
       ++ showString (originalExercise context)
       ++ " for "
       ++ showString (newExercise context)
       ++ " today to train the muscles without aggravating the joint. "
       ++ "If pain persists > 24hrs, please rest."
   | Some MAINTENANCE =>
       checkMark
       ++ " **Steady State**: Sticking to the plan. Consistency is key "
       ++ "right now. Focus on perfect reps."
   | None => "Adjusting your plan based on recent performance."
   end)%string.

(** The text the engine pushes for an explanation of the value model: the
    template that [TransparencyService.explainAdjustment] chose, filled in. *)
Definition kindOfTemplate (t : Template) : AdjustmentType :=
  match t with
  | GoMode => LOAD_INCREASE
  | Reset => LOAD_DECREASE
  | EnergySaver => VOLUME_REDUCTION
  | DeloadWeek => DELOAD
  | InjuryPrevention => INJURY_SUBSTITUTION
  | SteadyState => MAINTENANCE
  end.

Definition text (e : Explanation) : string :=
  explainAdjustment (kindName (kindOfTemplate (template e))) (context e).

End Rendering.

End Text.

(** ** Readings of the inputs

    The conditions on the feedback, the pain flags and the exercises that
    the properties of the engine are stated with. *)

Module Reading.

Import JS Autoregulator TransparencyService TrainingEngine.

(** A character that lower-casing keeps and that starts no sequence it
    replaces: an ASCII character other than a capital letter. *)
Definition plainChar (c : ascii) : bool :=
  ((nat_of_ascii c <? 128)%nat
   && negb ((65 <=? nat_of_ascii c)%nat && (nat_of_ascii c <=? 90)%nat))%bool.

Fixpoint plain (s : string) : bool :=
  match s with
  | EmptyString => true
  | String c rest => (plainChar c && plain rest)%bool
  end.

(** The three adverse signals the readiness score looks at. *)
Definition poorSleep (feedback : Feedback) : bool := le_num (sleepQuality feedback) 6.
Definition sore (feedback : Feedback) : bool := ge_num (soreness feedback) 4.
Definition stressed (feedback : Feedback) : bool := eq_str (stressLevel feedback) "High".

(** A pain flag that, lower-cased, contains a key of [riskMap]. *)
Definition recognised (painArea : string) : bool :=
  existsb (fun entry : string * list string =>
             includes (toLowerCase painArea) (fst entry))
          riskMap.

(** The names of all the risk lists of [riskMap], and the exercises whose
    name contains one of them. *)
Definition riskyNames : list string := concat (map snd riskMap).

Definition listed (ex : Exercise) : bool :=
  existsb (fun riskyName => includes (name ex) riskyName) riskyNames.

(** The explanation that the volume stage of [generateDailyWorkout] pushes. *)
Definition volumeExplanations (readiness : Z) (dailyFeedback : Feedback)
    : list Explanation :=
  if readiness <? 40 then
    [explainAdjustment DELOAD
       (mkContext None None None (sleepQuality dailyFeedback) (Some "50%") None None)]
  else if readiness <? 60 then
    [explainAdjustment VOLUME_REDUCTION
       (mkContext None None None (sleepQuality dailyFeedback) (Some "20%") None None)]
  else [].

(** The explanations that the load stage pushes for the exercises [exs]. *)
Definition loadExplanations (readiness : Z)
    (lastPerformances : list ExercisePerformance) (exs : list Exercise)
    : list Explanation :=
  if 40 <=? readiness then snd (loadProgression lastPerformances exs) else [].

(** The explanation of one substitution. *)
Definition injuryExplanation (painArea : string) (ex : Exercise) : Explanation :=
  explainAdjustment INJURY_SUBSTITUTION
    (mkContext (Some painArea) (Some (name ex))
               (Some (name (getSafeSubstitution ex painArea))) None None None None).

End Reading.

(** ** The engine on objects with missing properties

    The records above give every exercise a name and every workout a list
    of exercises, as the constructors of [models.js] are meant to be used.
    A caller of the engine can pass objects that lack them.  The engine
    validates nothing, so such a call runs until it reads a property of
    [undefined] ([exercise.name.includes], [adjustedWorkout.exercises.forEach],
    [dailyFeedback.painFlags.length]), where it throws a [TypeError].

    This module embeds [autoregulator.js] and [training_engine.js] once more,
    statement by statement, for exercises whose [name] may be missing and
    workouts whose [exercises] may be missing ([None]: the property is absent
    or [null]; both throw alike when a property of them is read).
    [PartialProps.agrees] relates it to [TrainingEngine] on complete
    objects. *)

Module Partial.

Import JS Autoregulator TransparencyService.

Record Exercise := mkExercise {
  id : string;
  name : option string;
  type : option string;
  muscleGroups : option (list string);
  weight : Q;
  sets : Z;
  reps : Z;
  rpeTarget : option Q
}.

Record Workout := mkWorkout {
  workout_id : string;
  userId : string;
  workout_name : string;
  exercises : option (list Exercise);
  date : string
}.

Definition set_weight (w : Q) (ex : Exercise) : Exercise :=
  mkExercise (id ex) (name ex) (type ex) (muscleGroups ex) w (sets ex) (reps ex)
             (rpeTarget ex).

Definition set_sets (n : Z) (ex : Exercise) : Exercise :=
  mkExercise (id ex) (name ex) (type ex) (muscleGroups ex) (weight ex) n (reps ex)
             (rpeTarget ex).

Definition set_exercises (exs : list Exercise) (w : Workout) : Workout :=
  mkWorkout (workout_id w) (userId w) (workout_name w) (Some exs) (date w).

(** Sequencing of calls that may throw. *)
Definition bind {A B} (r : result A) (k : A -> result B) : result B :=
  match r with
  | Ok a => k a
  | Throw message => Throw message
  end.

Notation "x <- r ;; k" := (bind r (fun x => k))
  (at level 100, r at next level, right associativity).

(** [xs.forEach(x => ...)] with the variables the callback updates. *)
Fixpoint forEach {A S} (body : S -> A -> result S) (xs : list A) (state : S)
    : result S :=
  match xs with
  | [] => Ok state
  | x :: rest => state' <- body state x ;; forEach body rest state'
  end.

(** [workout.exercises.forEach]: reading [forEach] of a missing array throws. *)
Definition getExercises (w : Workout) : result (list Exercise) :=
  match exercises w with
  | Some exs => Ok exs
  | None => Throw "Cannot read properties of undefined (reading 'forEach')"
  end.

(** *** autoregulator.js *)

Record VolumeAdjustment := mkVolumeAdjustment {
  workout : Workout;
  volume_type : AdjustmentType
}.

(** [JSON.parse(JSON.stringify(w))] on a value; a missing property is
    missing in the copy. *)
Definition JSON_clone (w : Workout) : Workout := w.

Definition deloadSets (ex : Exercise) : Exercise :=
  set_sets (Z.max 1 (JS.Math_floor (inject_Z (sets ex) * 0.5))) ex.

Definition reduceSets (ex : Exercise) : Exercise :=
  if 1 <? sets ex then set_sets (sets ex - 1) ex else ex.

(** [static adjustVolume(plannedWorkout, readinessScore)] *)
Definition adjustVolume (plannedWorkout : Workout) (readinessScore : Z)
    : result VolumeAdjustment :=
  let adjustedWorkout := JSON_clone plannedWorkout in
  if readinessScore <? 40 then
    exs <- getExercises adjustedWorkout ;;
    Ok (mkVolumeAdjustment (set_exercises (map deloadSets exs) adjustedWorkout) DELOAD)
  else if readinessScore <? 60 then
    exs <- getExercises adjustedWorkout ;;
    Ok (mkVolumeAdjustment (set_exercises (map reduceSets exs) adjustedWorkout)
                           VOLUME_REDUCTION)
  else
    Ok (mkVolumeAdjustment adjustedWorkout MAINTENANCE).

(** *** training_engine.js *)

(** [riskyList.some(riskyName => exercise.name.includes(riskyName))]: the
    callback runs for the first element of a list that is not empty, and
    throws there when the exercise has no name. *)
Fixpoint Array_some (exerciseName : option string) (riskyList : list string)
    : result bool :=
  match riskyList with
  | [] => Ok false
  | riskyName :: rest =>
      match exerciseName with
      | None => Throw "Cannot read properties of undefined (reading 'includes')"
      | Some text =>
          if includes text riskyName then Ok true else Array_some exerciseName rest
      end
  end.

(** [isExerciseRisky(exercise, painArea)] *)
Definition isExerciseRisky (exercise : Exercise) (painArea : string) : result bool :=
  forEach
    (fun (foundRisk : bool) (entry : string * list string) =>
       let '(key, riskyList) := entry in
       if includes (toLowerCase painArea) key then
         found <- Array_some (name exercise) riskyList ;;
         Ok (if found then true else foundRisk)
       else Ok foundRisk)
    TrainingEngine.riskMap false.

(** [getSafeSubstitution(exercise, painArea)] *)
Definition getSafeSubstitution (exercise : Exercise) (painArea : string) : Exercise :=
  if includes painArea "knee" then
    mkExercise (id exercise ++ "_sub")%string (Some "Glute Bridge") None None 0 3 15 None
  else if includes painArea "shoulder" then
    mkExercise (id exercise ++ "_sub")%string (Some "Push-up (Neutral Grip)") None None
               0 3 12 None
  else if includes painArea "back" then
    mkExercise (id exercise ++ "_sub")%string (Some "Chest Supported Row") None None
               (weight exercise * 0.7) 3 10 None
  else
    mkExercise "rest" (Some ("Rest (" ++ painArea ++ " pain)")%string) None None
               0 0 0 None.

Definition Working : Type := list Exercise * list Explanation.

(** One visit of the inner [forEach((ex, index) => ...)] of the safety check. *)
Definition substituteAt (painArea : string) (st : Working) (index : nat)
    : result Working :=
  match fst st !! index with
  | Some ex =>
      risky <- isExerciseRisky ex painArea ;;
      if risky then
        let sub := getSafeSubstitution ex painArea in
        Ok (<[index := sub]> (fst st),
            snd st ++ [explainAdjustment INJURY_SUBSTITUTION
                         (mkContext (Some painArea) (name ex) (name sub)
                                    None None None None)])
      else Ok st
  | None => Ok st
  end.

(** The inner loop: every index of the array, in order. *)
Definition substituteForPainArea (st : Working) (painArea : string) : result Working :=
  forEach (substituteAt painArea) (seq 0 (length (fst st))) st.

(** The callback of the outer loop, [painArea => { adjustedWorkout.exercises
    .forEach(...) }]: each call reads [adjustedWorkout.exercises]. *)
Definition pass (state : Workout * list Explanation) (painArea : string)
    : result (Workout * list Explanation) :=
  exs <- getExercises (fst state) ;;
  st <- substituteForPainArea (exs, snd state) painArea ;;
  Ok (set_exercises (fst st) (fst state), snd st).

(** The outer loop: [dailyFeedback.painFlags.forEach(painArea => ...)]. *)
Definition safetyCheck (flags : list string) (adjustedWorkout : Workout)
    (explanations : list Explanation) : result (Workout * list Explanation) :=
  if (0 <? length flags)%nat then forEach pass flags (adjustedWorkout, explanations)
  else Ok (adjustedWorkout, explanations).

(** The body of the load-progression loop for one [currentEx]. *)
Definition progressLoad (lastPerformances : list ExercisePerformance)
    (currentEx : Exercise) : Exercise * list Explanation :=
  match find (fun p => String.eqb (exerciseId p) (id currentEx)) lastPerformances with
  | Some lastPerf =>
      let adjustment :=
        adjustLoad (perf_weight lastPerf) (rpe lastPerf) (rpeTarget currentEx)
                   (Some (lt (completedReps lastPerf) (inject_Z (reps currentEx)))) in
      if negb (AdjustmentType_eqb (adjustmentType adjustment) MAINTENANCE) then
        let currentEx :=
          set_weight (inject_Z (Math_round (newWeight adjustment / 2.5)) * 2.5)
                     currentEx in
        (currentEx,
         [explainAdjustment (adjustmentType adjustment)
            (mkContext None None None None None (Some (rpe lastPerf))
                       (Some (weight currentEx - perf_weight lastPerf)%Q))])
      else
        (set_weight (perf_weight lastPerf) currentEx, [])
  | None => (currentEx, [])
  end.

Fixpoint loadProgression (lastPerformances : list ExercisePerformance)
    (exs : list Exercise) : Working :=
  match exs with
  | [] => ([], [])
  | currentEx :: rest =>
      let '(ex', pushed) := progressLoad lastPerformances currentEx in
      let '(rest', pushed') := loadProgression lastPerformances rest in
      (ex' :: rest', pushed ++ pushed')
  end.

Record Decision := mkDecision {
  readinessScore : Z;
  decision_workout : Workout;
  explanations : list Explanation
}.

(** [generateDailyWorkout(userProfile, plannedWorkout, dailyFeedback,
    lastPerformances = [])] *)
Definition generateDailyWorkout (this : TrainingEngine.Engine) (userProfile : User)
    (plannedWorkout : Workout) (dailyFeedback : Feedback)
    (lastPerformances : list ExercisePerformance) : result Decision :=
  let explanations : list Explanation := [] in
  let adjustedWorkout := JSON_clone plannedWorkout in
  (* 1. Safety Check: Pain/Injury *)
  match painFlags dailyFeedback with
  | None => Throw "Cannot read properties of undefined (reading 'length')"
  | Some flags =>
      checked <- safetyCheck flags adjustedWorkout explanations ;;
      let '(adjustedWorkout, explanations) := checked in
      (* 2. Readiness Check & Volume Adjustment *)
      let readiness := TrainingEngine.calculateReadiness this dailyFeedback in
      volumeAdjustmentResult <- adjustVolume adjustedWorkout readiness ;;
      let '(adjustedWorkout, explanations) :=
        if negb (AdjustmentType_eqb (volume_type volumeAdjustmentResult) MAINTENANCE)
        then
          (workout volumeAdjustmentResult,
           explanations ++
             [explainAdjustment (volume_type volumeAdjustmentResult)
                (mkContext None None None (sleepQuality dailyFeedback)
                   (Some (if AdjustmentType_eqb (volume_type volumeAdjustmentResult)
                               DELOAD then "50%" else "20%"))
                   None None)])
        else (adjustedWorkout, explanations) in
      (* 3. Load Progression based on Last Performance *)
      progressed <-
        (if 40 <=? readiness then
           exs <- getExercises adjustedWorkout ;;
           let '(exs', pushed) := loadProgression lastPerformances exs in
           Ok (set_exercises exs' adjustedWorkout, explanations ++ pushed)
         else Ok (adjustedWorkout, explanations)) ;;
      Ok (mkDecision readiness (fst progressed) (snd progressed))
  end.

(** *** The inner loop of the safety check as a recursion

    What the inner loop does to the exercises not yet visited, given the
    explanations pushed so far; [PartialProps.substituteAt_loop] proves that
    the loop over the indices computes it. *)
Fixpoint substituteAll (painArea : string) (todo : list Exercise)
    (pushed : list Explanation) : result Working :=
  match todo with
  | [] => Ok ([], pushed)
  | ex :: rest =>
      risky <- isExerciseRisky ex painArea ;;
      let sub := getSafeSubstitution ex painArea in
      let pushed' :=
        if risky then
          pushed ++ [explainAdjustment INJURY_SUBSTITUTION
                       (mkContext (Some painArea) (name ex) (name sub)
                                  None None None None)]
        else pushed in
      st <- substituteAll painArea rest pushed' ;;
      Ok ((if risky then sub else ex) :: fst st, snd st)
  end.

End Partial.

(** *** Complete objects as objects with missing properties *)

Module Complete.

(** The exercise, the workout and the decision of the records above, seen
    as objects that happen to have every property. *)
Definition exercise (ex : Exercise) : Partial.Exercise :=
  Partial.mkExercise (id ex) (Some (name ex)) (type ex) (muscleGroups ex) (weight ex)
                     (sets ex) (reps ex) (rpeTarget ex).

Definition workout (w : Workout) : Partial.Workout :=
  Partial.mkWorkout (workout_id w) (userId w) (workout_name w)
                    (Some (map exercise (exercises w))) (date w).

Definition decision (d : TrainingEngine.Decision) : Partial.Decision :=
  Partial.mkDecision (TrainingEngine.readinessScore d)
                     (workout (TrainingEngine.decision_workout d))
                     (TrainingEngine.explanations d).

Definition outcome (r : JS.result TrainingEngine.Decision)
    : JS.result Partial.Decision :=
  match r with
  | JS.Ok d => JS.Ok (decision d)
  | JS.Throw message => JS.Throw message
  end.

(** An exercise without a name. *)
Definition nameless (ex : Partial.Exercise) : bool :=
  match Partial.name ex with
  | Some _ => false
  | None => true
  end.

End Complete.

(** ** models.js: the constructors

    The constructors as [server.js] calls them: on the properties of a JSON
    payload, each of which may be missing.  A parameter with a default takes
    it when the argument is [undefined], not when it is [null]. *)

Module Models.

(** A property of a payload that may be absent or [null]. *)
Inductive Field (A : Type) : Type :=
| Absent
| Null
| Value (a : A).
Arguments Absent {A}.
Arguments Null {A}.
Arguments Value {A} a.

(** [new User(id, name, trainingMaxes = {}, injuryHistory = [])] *)
Definition new_User (id' name' : string) (trainingMaxes' : option (list (string * Q)))
    (injuryHistory' : option (list string)) : User :=
  mkUser id' name' (default [] trainingMaxes') (default [] injuryHistory').

(** [new Exercise(id, name, type, muscleGroups, weight, sets, reps,
    rpeTarget = 8)]; a [name] that is missing stays missing. *)
Definition new_Exercise (id' : string) (name' : option string) (type' : option string)
    (muscleGroups' : option (list string)) (weight' : Q) (sets' reps' : Z)
    (rpeTarget' : option Q) : Partial.Exercise :=
  Partial.mkExercise id' name' type' muscleGroups' weight' sets' reps'
                     (Some (default 8%Q rpeTarget')).

(** [new Workout(id, userId, name, exercises = [], date = new Date())];
    [now] is the date the clock gives. *)
Definition new_Workout (now : string) (id' userId' name' : string)
    (exercises' : option (list Partial.Exercise)) (date' : option string)
    : Partial.Workout :=
  Partial.mkWorkout id' userId' name' (Some (default [] exercises')) (default now date').

(** [new Feedback(sleepQuality, soreness, stressLevel, painFlags = [])]: an
    absent [painFlags] becomes the empty list, a [null] one stays [null]
    (and reading its [length] throws, as for a missing one). *)
Definition new_Feedback (sleepQuality' soreness' : option Q)
    (stressLevel' : option string) (painFlags' : Field (list string)) : Feedback :=
  mkFeedback sleepQuality' soreness' stressLevel'
             (match painFlags' with
              | Absent => Some []
              | Null => None
              | Value flags => Some flags
              end).

(** [new ExercisePerformance(exerciseId, weight, completedReps,
    completedSets, rpe)] *)
Definition new_ExercisePerformance (exerciseId' : string)
    (weight' completedReps' completedSets' rpe' : Q) : ExercisePerformance :=
  mkExercisePerformance exerciseId' weight' completedReps' completedSets' rpe'.

End Models.

(** ** server.js: the handler of POST /api/workout/generate

    The request body is the parsed JSON payload.  [user], [feedback],
    [plannedWorkout], [plannedWorkout.exercises] and [history] are objects
    (arrays) or missing ([None]: absent or [null], which behave alike when a
    property of them is read); [painFlags] is a list of strings, absent or
    [null]; the [name] of an exercise is a string or missing; the other
    properties hold values of their type.  The response is what the handler
    passes to [res.json], with status 200 or 500. *)

Module Server.

Import JS Models.

Record PayloadFeedback := mkPayloadFeedback {
  payload_sleepQuality : option Q;
  payload_soreness : option Q;
  payload_stressLevel : option string;
  payload_painFlags : Field (list string)
}.

Record PayloadWorkout := mkPayloadWorkout {
  payload_id : string;
  payload_userId : string;
  payload_name : string;
  payload_exercises : option (list Partial.Exercise)
}.

Record Payload := mkPayload {
  payload_user : option User;
  payload_plannedWorkout : option PayloadWorkout;
  payload_feedback : option PayloadFeedback;
  payload_history : option (list ExercisePerformance)
}.

Inductive Response :=
| Success (data : Partial.Decision)
| ServerError (message : string).

(** [const engine = new TrainingEngine()] *)
Definition engine : TrainingEngine.Engine := TrainingEngine.constructor.

(** The body of the handler: the [try] block, with each [TypeError] going to
    the [catch] block, in the order the statements run. *)
Definition handle (now : string) (body : Payload) : Response :=
  (* 1. Map Feedback *)
  match payload_feedback body with
  | None => ServerError "Cannot read properties of undefined (reading 'sleepQuality')"
  | Some feedback =>
      let feedbackObj :=
        new_Feedback (payload_sleepQuality feedback) (payload_soreness feedback)
                     (payload_stressLevel feedback) (payload_painFlags feedback) in
      (* 2. Map Workout *)
      match payload_plannedWorkout body with
      | None => ServerError "Cannot read properties of undefined (reading 'id')"
      | Some plannedWorkout =>
          match payload_exercises plannedWorkout with
          | None => ServerError "Cannot read properties of undefined (reading 'map')"
          | Some exercises' =>
              let workoutObj :=
                new_Workout now (payload_id plannedWorkout)
                  (payload_userId plannedWorkout) (payload_name plannedWorkout)
                  (Some (map (fun e =>
                                new_Exercise (Partial.id e) (Partial.name e)
                                  (Partial.type e) (Partial.muscleGroups e)
                                  (Partial.weight e) (Partial.sets e) (Partial.reps e)
                                  (Partial.rpeTarget e))
                             exercises'))
                  None in
              (* 3. Map History *)
              let historyObjs :=
                match payload_history body with
                | Some history =>
                    map (fun h =>
                           new_ExercisePerformance (exerciseId h) (perf_weight h)
                             (completedReps h) (completedSets h) (rpe h))
                        history
                | None => []
                end in
              match payload_user body with
              | None => ServerError "Cannot read properties of undefined (reading 'id')"
              | Some user =>
                  let userObj := new_User (user_id user) (user_name user) None None in
                  (* Run the Engine *)
                  match Partial.generateDailyWorkout engine userObj workoutObj
                          feedbackObj historyObjs with
                  | Ok result => Success result
                  | Throw message => ServerError message
                  end
              end
          end
      end
  end.

End Server.

(** * Properties *)

Import JS Autoregulator TransparencyService TrainingEngine.

(** ** Readiness score *)

Module ReadinessProps.

(** The score is the baseline plus one offset per signal, clamped. *)
Lemma calculateReadiness_clamped (this : Engine) (feedback : Feedback) :
  exists score, calculateReadiness this feedback = Z.max 0 (Z.min 100 score).
Proof. unfold calculateReadiness. eexists. reflexivity. Qed.

(** C5. For every feedback record (whatever its fields hold, present or
    absent) and every engine baseline, the value returned by
    [calculateReadiness] lies between 0 and 100 inclusive. *)
Theorem calculateReadiness_bounds (this : Engine) (feedback : Feedback) :
  0 <= calculateReadiness this feedback <= 100.
Proof.
  destruct (calculateReadiness_clamped this feedback) as [score ->]. lia.
Qed.

(** With the constructor's baseline of 80 the clamp never fires: the score
    is between 15 and 85. *)
Lemma calculateReadiness_range (feedback : Feedback) :
  15 <= calculateReadiness constructor feedback <= 85.
Proof.
  unfold calculateReadiness, constructor, baselineReadiness.
  destruct (le_num (sleepQuality feedback) 4), (le_num (sleepQuality feedback) 6),
    (ge_num (sleepQuality feedback) 8), (ge_num (soreness feedback) 4),
    (eq_num (soreness feedback) 5), (eq_str (stressLevel feedback) "High"); lia.
Qed.

(** C2, as the spec states it, fails: a sleep quality of 5 is not [<= 4], so
    the first branch of the chain (the penalty of 20) is not taken, and the
    score is not 45. *)
Lemma calculateReadiness_sleep5_not_45 :
  calculateReadiness constructor
    (mkFeedback (Some 5%Q) (Some 3%Q) (Some "High") (Some [])) <> 45.
Proof. vm_compute. discriminate. Qed.

(** C2, amended. [calculateReadiness] applied to feedback with sleepQuality 5,
    soreness 3 and stressLevel "High" returns exactly 55: baseline 80, minus
    the sleep penalty of 10 of the second branch ([sleepQuality <= 6]), minus
    0 for soreness, minus 15 for stress. *)
Theorem calculateReadiness_sleep5_sore3_high (flags : option (list string)) :
  calculateReadiness constructor
    (mkFeedback (Some 5%Q) (Some 3%Q) (Some "High") flags) = 55
  /\ 55 = 80 - 10 - 0 - 15
  /\ le_num (Some 5%Q) 4 = false
  /\ le_num (Some 5%Q) 6 = true
  /\ ge_num (Some 3%Q) 4 = false
  /\ eq_str (Some "High") "High" = true.
Proof. repeat split. Qed.

End ReadinessProps.

(** ** Load autoregulation *)

Module LoadProps.

(** C7. For every currentWeight, rpe and targetRpe (given or defaulted),
    [adjustLoad] with missedReps true returns newWeight = currentWeight x 0.95
    and type LOAD_DECREASE, whatever the RPE values are: the RPE rules are
    not consulted.  In particular adjustLoad(100, 8, 8, true) returns
    newWeight 95 and LOAD_DECREASE although rpe equals targetRpe. *)
Theorem adjustLoad_missedReps (currentWeight rpe : Q) (targetRpe : option Q) :
  adjustLoad currentWeight rpe targetRpe (Some true)
    = mkLoadAdjustment (currentWeight * 0.95) LOAD_DECREASE
  /\ (newWeight (adjustLoad 100 8 (Some 8%Q) (Some true)) == 95)%Q
  /\ adjustmentType (adjustLoad 100 8 (Some 8%Q) (Some true)) = LOAD_DECREASE
  /\ adjustmentType (adjustLoad 100 8 (Some 8%Q) (Some false)) = MAINTENANCE.
Proof. repeat split. Qed.

(** The four rules of [adjustLoad] without missed reps. *)
Lemma adjustLoad_type (currentWeight rpe : Q) (targetRpe : option Q)
    (missedReps : option bool) :
  adjustmentType (adjustLoad currentWeight rpe targetRpe missedReps) = MAINTENANCE
  \/ adjustmentType (adjustLoad currentWeight rpe targetRpe missedReps) = LOAD_INCREASE
  \/ adjustmentType (adjustLoad currentWeight rpe targetRpe missedReps) = LOAD_DECREASE.
Proof.
  unfold adjustLoad.
  destruct (default false missedReps); [auto|].
  destruct (Qle_bool rpe _); [auto|].
  destruct (Qle_bool 9.5 rpe); auto.
Qed.

End LoadProps.

(** ** Volume autoregulation *)

Module VolumeProps.

(** [Math.floor(sets * 0.5)] is the integer quotient by 2, rounded down. *)
Lemma floor_half (n : Z) : Math_floor (inject_Z n * 0.5) = n / 2.
Proof.
  unfold Math_floor, Qfloor, inject_Z, Qmult. cbn.
  rewrite <- (Z.div_mul_cancel_r n 2 5) by lia. reflexivity.
Qed.

Lemma set_sets_same (ex : Exercise) : set_sets (sets ex) ex = ex.
Proof. destruct ex. reflexivity. Qed.

Lemma deloadSets_spec (ex : Exercise) :
  deloadSets ex = set_sets (Z.max 1 (sets ex / 2)) ex.
Proof. unfold deloadSets. rewrite floor_half. reflexivity. Qed.

Lemma reduceSets_spec (ex : Exercise) :
  reduceSets ex = set_sets (if 1 <? sets ex then sets ex - 1 else sets ex) ex.
Proof.
  unfold reduceSets. destruct (1 <? sets ex); [reflexivity|].
  symmetry. apply set_sets_same.
Qed.

(** C8. [adjustVolume] obeys exactly three tiers.  Below 40 every exercise's
    sets becomes max(1, floor(sets x 0.5)), which is max(1, sets div 2), and
    the type is DELOAD; from 40 to below 60 every exercise with more than one
    set loses one set, an exercise with one set (or fewer) is untouched, and
    the type is VOLUME_REDUCTION; from 60 on the workout is returned with no
    change and the type is MAINTENANCE.  In each tier only the set counts
    change, slot by slot, and a workout whose exercises all have at least one
    set keeps at least one set in every exercise. *)
Theorem adjustVolume_tiers (plannedWorkout : Workout) (readinessScore : Z) :
  let result := adjustVolume plannedWorkout readinessScore in
  (readinessScore < 40 ->
     volume_type result = DELOAD /\
     Forall2 (fun ex ex' =>
                ex' = set_sets (Z.max 1 (Math_floor (inject_Z (sets ex) * 0.5))) ex
                /\ Math_floor (inject_Z (sets ex) * 0.5) = sets ex / 2)
             (exercises plannedWorkout) (exercises (workout result)))
  /\ (40 <= readinessScore < 60 ->
     volume_type result = VOLUME_REDUCTION /\
     Forall2 (fun ex ex' =>
                (1 < sets ex -> ex' = set_sets (sets ex - 1) ex) /\
                (sets ex <= 1 -> ex' = ex))
             (exercises plannedWorkout) (exercises (workout result)))
  /\ (60 <= readinessScore ->
     volume_type result = MAINTENANCE /\ workout result = plannedWorkout)
  /\ set_exercises (exercises plannedWorkout) (workout result) = plannedWorkout
  /\ (Forall (fun ex => 1 <= sets ex) (exercises plannedWorkout) ->
      Forall (fun ex => 1 <= sets ex) (exercises (workout result))).
Proof.
  cbn zeta. unfold adjustVolume, JSON_clone.
  destruct (Z.ltb_spec readinessScore 40) as [Hlt40 | Hge40];
    [| destruct (Z.ltb_spec readinessScore 60) as [Hlt60 | Hge60]]; cbn.
  - split; [intros _; split; [reflexivity|] | split; [lia | split; [lia|split]]].
    + induction (exercises plannedWorkout) as [| ex exs IH]; cbn; constructor;
        [split; [reflexivity | apply floor_half] | exact IH].
    + destruct plannedWorkout; reflexivity.
    + intros _. induction (exercises plannedWorkout) as [| ex exs IH]; cbn;
        constructor; [cbn; lia | exact IH].
  - split; [lia | split; [intros _; split; [reflexivity|] | split; [lia|split]]].
    + induction (exercises plannedWorkout) as [| ex exs IH]; cbn; constructor;
        [| exact IH].
      unfold reduceSets. destruct (Z.ltb_spec 1 (sets ex)); split; intros; try lia;
        reflexivity.
    + destruct plannedWorkout; reflexivity.
    + intros Hall. induction Hall as [| ex exs Hex _ IH]; cbn; constructor;
        [| exact IH].
      unfold reduceSets. destruct (Z.ltb_spec 1 (sets ex)); cbn; lia.
  - split; [lia | split; [lia | split; [intros _; split; reflexivity | split]]].
    + destruct plannedWorkout; reflexivity.
    + intros Hall. exact Hall.
Qed.

(** [adjustVolume_tiers] at the plan of the test script, three sets per
    exercise: readiness 35 is a DELOAD, 50 a VOLUME_REDUCTION, 60 a
    MAINTENANCE, and every exercise keeps at least one set. *)
Lemma adjustVolume_tiers_witness :
  volume_type (adjustVolume plannedWorkout 35) = DELOAD
  /\ volume_type (adjustVolume plannedWorkout 50) = VOLUME_REDUCTION
  /\ workout (adjustVolume plannedWorkout 60) = plannedWorkout
  /\ Forall (fun ex => 1 <= sets ex)
            (exercises (workout (adjustVolume plannedWorkout 35)))
  /\ map sets (exercises (workout (adjustVolume plannedWorkout 35))) = [1; 1; 1]
  /\ map sets (exercises (workout (adjustVolume plannedWorkout 50))) = [2; 2; 2].
Proof.
  destruct (adjustVolume_tiers plannedWorkout 35) as (H35 & _ & _ & _ & Hpos).
  destruct (adjustVolume_tiers plannedWorkout 50) as (_ & H50 & _).
  destruct (adjustVolume_tiers plannedWorkout 60) as (_ & _ & H60 & _).
  split; [apply H35; lia|].
  split; [apply H50; lia|].
  split; [apply H60; lia|].
  split; [apply Hpos; repeat constructor; cbn; lia|].
  split; reflexivity.
Defined.

End VolumeProps.

(** ** Strings *)

Module StringProps.

Lemma includes_nil (sub : string) : includes "" sub = String.prefix sub "".
Proof. unfold includes. destruct (String.prefix sub ""); reflexivity. Qed.

Lemma includes_cons (c : ascii) (s sub : string) :
  includes (String c s) sub
  = if String.prefix sub (String c s) then true else includes s sub.
Proof. reflexivity. Qed.

Lemma prefix_includes (s sub : string) :
  String.prefix sub s = true -> includes s sub = true.
Proof.
  destruct s as [| c s]; [rewrite includes_nil | rewrite includes_cons];
    intros ->; reflexivity.
Qed.

Lemma includes_skip (c : ascii) (s sub : string) :
  includes s sub = true -> includes (String c s) sub = true.
Proof.
  intros H. rewrite includes_cons, H. destruct (String.prefix sub _); reflexivity.
Qed.

Lemma plainChar_byte (c : ascii) (n : nat) :
  Reading.plainChar c = true -> (128 <= n)%nat -> isByte c n = false.
Proof.
  unfold Reading.plainChar, isByte. intros H Hn.
  apply andb_true_iff in H as [H _]. apply Nat.ltb_lt in H.
  apply Nat.eqb_neq. lia.
Qed.

Lemma plainChar_lowerChar (c : ascii) :
  Reading.plainChar c = true -> lowerChar c = c.
Proof.
  unfold Reading.plainChar, lowerChar. intros H.
  apply andb_true_iff in H as [_ H].
  destruct ((65 <=? nat_of_ascii c)%nat && (nat_of_ascii c <=? 90)%nat)%bool;
    [discriminate H | reflexivity].
Qed.

(** One step of [toLowerCase] on a string of two bytes or more. *)
Lemma toLowerCase_step (a b : ascii) (u : string) :
  toLowerCase (String a (String b u))
  = if (isByte a 196 && isByte b 176)%bool then
      String "i"%char
        (String (ascii_of_nat 204) (String (ascii_of_nat 135) (toLowerCase u)))
    else
      match u with
      | EmptyString => String (lowerChar a) (toLowerCase (String b u))
      | String c rest =>
          if (isByte a 226 && isByte b 132 && isByte c 170)%bool then
            String "k"%char (toLowerCase rest)
          else String (lowerChar a) (toLowerCase (String b u))
      end.
Proof. destruct u; reflexivity. Qed.

(** Lower-casing keeps a plain character where it is. *)
Lemma toLowerCase_plain (c : ascii) (s : string) :
  Reading.plainChar c = true ->
  toLowerCase (String c s) = String c (toLowerCase s).
Proof.
  intros Hc. cbn [toLowerCase].
  rewrite (plainChar_byte c 196 Hc), (plainChar_byte c 226 Hc) by lia.
  rewrite (plainChar_lowerChar c Hc). cbn [andb].
  destruct s as [| b [| d rest]]; reflexivity.
Qed.

Lemma prefix_toLowerCase (p s : string) :
  Reading.plain p = true ->
  String.prefix p s = true -> String.prefix p (toLowerCase s) = true.
Proof.
  revert s. induction p as [| a p IH]; intros s Hplain;
    [intros _; destruct (toLowerCase s); reflexivity|].
  cbn [Reading.plain] in Hplain. apply andb_true_iff in Hplain as [Ha Hp].
  destruct s as [| c s]; [intros H; discriminate H|].
  cbn [String.prefix]. destruct (ascii_dec a c) as [<- | Hne]; [| intros H; discriminate H].
  intros H. rewrite (toLowerCase_plain a s Ha). cbn [String.prefix].
  destruct (ascii_dec a a); [apply IH; assumption | congruence].
Qed.

(** A string headed by a byte that is not plain does not start with a plain
    text, unless the text is empty. *)
Lemma prefix_not_plain (a c : ascii) (p s : string) :
  Reading.plainChar a = true -> Reading.plainChar c = false ->
  String.prefix (String a p) (String c s) = false.
Proof.
  intros Ha Hc. cbn [String.prefix].
  destruct (ascii_dec a c) as [-> | Hne]; [congruence | reflexivity].
Qed.

Lemma byte_not_plain (c : ascii) (n : nat) :
  isByte c n = true -> (128 <= n)%nat -> Reading.plainChar c = false.
Proof.
  intros Hc Hn. destruct (Reading.plainChar c) eqn:Hplain; [| reflexivity].
  rewrite (plainChar_byte c n Hplain Hn) in Hc. discriminate Hc.
Qed.

Lemma includes_tail (a c : ascii) (p s : string) :
  Reading.plainChar a = true -> Reading.plainChar c = false ->
  includes (String c s) (String a p) = true -> includes s (String a p) = true.
Proof.
  intros Ha Hc. rewrite includes_cons, (prefix_not_plain a c p s Ha Hc).
  intros H. exact H.
Qed.

Lemma includes_toLowerCase_length (sub : string) (n : nat) (s : string) :
  Reading.plain sub = true -> (String.length s <= n)%nat ->
  includes s sub = true -> includes (toLowerCase s) sub = true.
Proof.
  intros Hplain. destruct sub as [| x sub].
  { intros _ _. apply prefix_includes. destruct (toLowerCase s); reflexivity. }
  pose proof Hplain as Hx. cbn [Reading.plain] in Hx.
  apply andb_true_iff in Hx as [Hx _].
  revert s. induction n as [| n IH]; intros s Hlen.
  { destruct s; [| cbn in Hlen; lia]. rewrite includes_nil. intros H; discriminate H. }
  destruct s as [| a t]; [rewrite includes_nil; intros H; discriminate H|].
  rewrite includes_cons.
  destruct (String.prefix (String x sub) (String a t)) eqn:Hprefix.
  { intros _. apply prefix_includes, prefix_toLowerCase; assumption. }
  cbn [String.length] in Hlen. intros Ht.
  destruct t as [| b u]; [rewrite includes_nil in Ht; discriminate Ht|].
  rewrite toLowerCase_step.
  destruct (isByte a 196 && isByte b 176)%bool eqn:Hdotted.
  { apply andb_true_iff in Hdotted as [_ Hb].
    apply (includes_tail x b sub u Hx (byte_not_plain b 176 Hb ltac:(lia))) in Ht.
    do 3 apply includes_skip. apply IH; [cbn [String.length] in Hlen; lia | exact Ht]. }
  destruct u as [| c rest].
  { apply includes_skip. apply IH; [cbn [String.length] in *; lia | exact Ht]. }
  destruct (isByte a 226 && isByte b 132 && isByte c 170)%bool eqn:Hkelvin.
  { apply andb_true_iff in Hkelvin as [Hkelvin Hc].
    apply andb_true_iff in Hkelvin as [_ Hb].
    apply (includes_tail x b sub _ Hx (byte_not_plain b 132 Hb ltac:(lia))) in Ht.
    apply (includes_tail x c sub _ Hx (byte_not_plain c 170 Hc ltac:(lia))) in Ht.
    apply includes_skip. apply IH; [cbn [String.length] in Hlen; lia | exact Ht]. }
  apply includes_skip. apply IH; [cbn [String.length] in *; lia | exact Ht].
Qed.

(** What contains a plain text as written contains it once lower-cased. *)
Lemma includes_toLowerCase (s sub : string) :
  Reading.plain sub = true ->
  includes s sub = true -> includes (toLowerCase s) sub = true.
Proof.
  intros Hplain. apply (includes_toLowerCase_length sub (String.length s) s Hplain).
  reflexivity.
Qed.

End StringProps.

(** ** The pipeline, slot by slot *)

Module PipelineProps.

Lemma insert_middle {A} (l1 l2 : list A) (x y : A) :
  <[length l1 := y]> (l1 ++ x :: l2) = l1 ++ y :: l2.
Proof. induction l1 as [| a l1 IH]; cbn; [reflexivity | f_equal; exact IH]. Qed.

(** The inner loop of the safety check, started at index [length done]. *)
Lemma substituteAt_fold (painArea : string) (todo done : list Exercise)
    (pushed : list Explanation) :
  fold_left (substituteAt painArea) (seq (length done) (length todo))
            (done ++ todo, pushed)
  = (done ++ map (Slot.substitute painArea) todo,
     fold_left (Slot.explainSubstitute painArea) todo pushed).
Proof.
  revert done pushed. induction todo as [| ex todo IH]; intros done pushed; cbn.
  - reflexivity.
  - unfold substituteAt at 2. cbn [fst snd].
    rewrite list_lookup_middle by reflexivity.
    unfold Slot.substitute at 1. unfold Slot.explainSubstitute at 2.
    destruct (isExerciseRisky ex painArea).
    + rewrite insert_middle.
      replace (S (length done)) with (length (done ++ [getSafeSubstitution ex painArea]))
        by (rewrite length_app; cbn; lia).
      rewrite (cons_middle _ done todo), app_assoc.
      rewrite IH, <- app_assoc. reflexivity.
    + replace (S (length done)) with (length (done ++ [ex]))
        by (rewrite length_app; cbn; lia).
      rewrite (cons_middle ex done todo), app_assoc.
      rewrite IH, <- app_assoc. reflexivity.
Qed.

Lemma substituteForPainArea_run (st : Working) (painArea : string) :
  substituteForPainArea st painArea
  = (map (Slot.substitute painArea) (fst st),
     fold_left (Slot.explainSubstitute painArea) (fst st) (snd st)).
Proof.
  destruct st as [exs pushed]. unfold substituteForPainArea. cbn [fst snd].
  exact (substituteAt_fold painArea exs [] pushed).
Qed.

Lemma substituteForPainArea_fst (st : Working) (painArea : string) :
  fst (substituteForPainArea st painArea) = map (Slot.substitute painArea) (fst st).
Proof. rewrite substituteForPainArea_run. reflexivity. Qed.

Lemma safety_fold_fst (flags : list string) (st : Working) :
  fst (fold_left substituteForPainArea flags st) = map (Slot.safety flags) (fst st).
Proof.
  revert st. induction flags as [| painArea flags IH]; intros st; cbn.
  - symmetry. apply map_id.
  - rewrite IH, substituteForPainArea_fst, map_map. reflexivity.
Qed.

(** The safety check replaces each slot by [Slot.safety] of it. *)
Lemma safetyCheck_fst (flags : list string) (st : Working) :
  fst (safetyCheck flags st) = map (Slot.safety flags) (fst st).
Proof.
  unfold safetyCheck. destruct flags as [| painArea flags].
  - cbn. symmetry. apply map_id.
  - cbn [length Nat.ltb Nat.leb]. apply safety_fold_fst.
Qed.

Lemma loadProgression_fst (lastPerformances : list ExercisePerformance)
    (exs : list Exercise) :
  fst (loadProgression lastPerformances exs)
  = map (fun ex => fst (progressLoad lastPerformances ex)) exs.
Proof.
  induction exs as [| ex exs IH]; cbn; [reflexivity|].
  destruct (progressLoad lastPerformances ex) as [ex' pushed].
  destruct (loadProgression lastPerformances exs) as [rest' pushed'].
  cbn in *. rewrite IH. reflexivity.
Qed.

Lemma loadProgression_snd (lastPerformances : list ExercisePerformance)
    (exs : list Exercise) (pushed : list Explanation) :
  fold_left (fun acc ex => acc ++ snd (progressLoad lastPerformances ex)) exs pushed
  = pushed ++ snd (loadProgression lastPerformances exs).
Proof.
  revert pushed. induction exs as [| ex exs IH]; intros pushed; cbn.
  - rewrite app_nil_r. reflexivity.
  - rewrite IH.
    destruct (progressLoad lastPerformances ex) as [ex' pushed1].
    destruct (loadProgression lastPerformances exs) as [rest' pushed2].
    cbn. rewrite app_assoc. reflexivity.
Qed.

(** The exercise array after the volume stage, whichever branch is taken. *)
Lemma adjustVolume_exercises (w : Workout) (readiness : Z) :
  workout (adjustVolume w readiness)
  = set_exercises (map (Slot.volume readiness) (exercises w)) w.
Proof.
  unfold adjustVolume, JSON_clone, Slot.volume.
  destruct (readiness <? 40); [reflexivity|].
  destruct (readiness <? 60); [reflexivity|].
  cbn. rewrite map_id. destruct w; reflexivity.
Qed.

(** The engine returns, for feedback that has a [painFlags] list, the plan
    with every slot replaced by [Slot.adjust] of it, and the readiness. *)
Lemma generateDailyWorkout_slots (this : Engine) (userProfile : User)
    (plannedWorkout : Workout) (dailyFeedback : Feedback)
    (lastPerformances : list ExercisePerformance) (flags : list string) :
  painFlags dailyFeedback = Some flags ->
  exists pushed,
    generateDailyWorkout this userProfile plannedWorkout dailyFeedback lastPerformances
    = Ok (mkDecision
            (calculateReadiness this dailyFeedback)
            (set_exercises
               (map (Slot.adjust (calculateReadiness this dailyFeedback) flags
                                 lastPerformances)
                    (exercises plannedWorkout))
               plannedWorkout)
            pushed).
Proof.
  intros Hflags. unfold generateDailyWorkout, JSON_clone. rewrite Hflags.
  pose proof (safetyCheck_fst flags (exercises plannedWorkout, [])) as Hsafe.
  destruct (safetyCheck flags (exercises plannedWorkout, [])) as [exs1 pushed1].
  cbn [fst] in Hsafe. subst exs1.
  set (readiness := calculateReadiness this dailyFeedback).
  set (w1 := set_exercises _ plannedWorkout).
  pose proof (adjustVolume_exercises w1 readiness) as Hvol.
  assert (Hw2 : exists pushed2,
    (if negb (AdjustmentType_eqb (volume_type (adjustVolume w1 readiness)) MAINTENANCE)
     then (workout (adjustVolume w1 readiness),
           pushed1 ++
             [explainAdjustment (volume_type (adjustVolume w1 readiness))
                (mkContext None None None (sleepQuality dailyFeedback)
                   (Some (if AdjustmentType_eqb
                               (volume_type (adjustVolume w1 readiness)) DELOAD
                          then "50%" else "20%")) None None)])
     else (w1, pushed1))
    = (set_exercises (map (Slot.volume readiness) (exercises w1)) w1, pushed2)).
  { destruct (negb _) eqn:Hm.
    - eexists. rewrite Hvol. reflexivity.
    - eexists. f_equal.
      unfold adjustVolume, Slot.volume in *.
      destruct (readiness <? 40); [discriminate|].
      destruct (readiness <? 60); [discriminate|].
      rewrite map_id. subst w1. destruct plannedWorkout; reflexivity. }
  destruct Hw2 as [pushed2 ->].
  subst w1. cbn [exercises set_exercises workout_id userId workout_name date].
  unfold Slot.adjust, Slot.load.
  destruct (40 <=? readiness).
  - pose proof (loadProgression_fst lastPerformances
       (map (Slot.volume readiness)
          (map (Slot.safety flags) (exercises plannedWorkout)))) as Hload.
    destruct (loadProgression _ _) as [exs3 pushed3]. cbn [fst] in Hload. subst exs3.
    eexists. unfold set_exercises. cbn. rewrite !map_map. reflexivity.
  - eexists. unfold set_exercises. cbn. rewrite !map_map. reflexivity.
Qed.

(** Without a [painFlags] property the call throws, before any stage runs. *)
Lemma generateDailyWorkout_no_painFlags (this : Engine) (userProfile : User)
    (plannedWorkout : Workout) (dailyFeedback : Feedback)
    (lastPerformances : list ExercisePerformance) :
  painFlags dailyFeedback = None ->
  exists message,
    generateDailyWorkout this userProfile plannedWorkout dailyFeedback lastPerformances
    = Throw message.
Proof.
  intros Hflags. unfold generateDailyWorkout. rewrite Hflags. eexists. reflexivity.
Qed.

End PipelineProps.

(** ** What each stage keeps of a slot *)

Module SlotProps.

Import PipelineProps.

Lemma volume_keeps (readiness : Z) (ex : Exercise) :
  id (Slot.volume readiness ex) = id ex
  /\ name (Slot.volume readiness ex) = name ex
  /\ weight (Slot.volume readiness ex) = weight ex
  /\ reps (Slot.volume readiness ex) = reps ex
  /\ rpeTarget (Slot.volume readiness ex) = rpeTarget ex.
Proof.
  unfold Slot.volume, deloadSets, reduceSets.
  destruct (readiness <? 40); [cbn; auto|].
  destruct (readiness <? 60); [| auto].
  destruct (1 <? sets ex); cbn; auto.
Qed.

Lemma volume_maintenance (readiness : Z) (ex : Exercise) :
  60 <= readiness -> Slot.volume readiness ex = ex.
Proof.
  intros H. unfold Slot.volume.
  destruct (Z.ltb_spec readiness 40); [lia|].
  destruct (Z.ltb_spec readiness 60); [lia|]. reflexivity.
Qed.

Lemma progressLoad_keeps (lastPerformances : list ExercisePerformance) (ex : Exercise) :
  id (fst (progressLoad lastPerformances ex)) = id ex
  /\ name (fst (progressLoad lastPerformances ex)) = name ex
  /\ sets (fst (progressLoad lastPerformances ex)) = sets ex
  /\ reps (fst (progressLoad lastPerformances ex)) = reps ex.
Proof.
  unfold progressLoad.
  destruct (find _ lastPerformances) as [lastPerf |]; [| auto].
  destruct (negb _); cbn; auto.
Qed.

Lemma load_keeps (readiness : Z) (lastPerformances : list ExercisePerformance)
    (ex : Exercise) :
  id (Slot.load readiness lastPerformances ex) = id ex
  /\ name (Slot.load readiness lastPerformances ex) = name ex
  /\ sets (Slot.load readiness lastPerformances ex) = sets ex
  /\ reps (Slot.load readiness lastPerformances ex) = reps ex.
Proof.
  unfold Slot.load. destruct (40 <=? readiness); [apply progressLoad_keeps | auto].
Qed.

(** No record keyed by the exercise's id: the loop body leaves the exercise
    alone and pushes nothing. *)
Lemma progressLoad_unmatched (lastPerformances : list ExercisePerformance)
    (ex : Exercise) :
  Slot.lookupPerformance lastPerformances (id ex) = None ->
  progressLoad lastPerformances ex = (ex, []).
Proof. unfold Slot.lookupPerformance, progressLoad. intros ->. reflexivity. Qed.

Lemma load_unmatched (readiness : Z) (lastPerformances : list ExercisePerformance)
    (ex : Exercise) :
  Slot.lookupPerformance lastPerformances (id ex) = None ->
  Slot.load readiness lastPerformances ex = ex.
Proof.
  intros H. unfold Slot.load. rewrite (progressLoad_unmatched _ _ H).
  destruct (40 <=? readiness); reflexivity.
Qed.

(** The returned slot is [Slot.adjust] of the planned slot. *)
Lemma returned_slot (this : Engine) (userProfile : User) (plannedWorkout : Workout)
    (dailyFeedback : Feedback) (lastPerformances : list ExercisePerformance)
    (flags : list string) (index : nat) :
  painFlags dailyFeedback = Some flags ->
  Slot.returned
    (generateDailyWorkout this userProfile plannedWorkout dailyFeedback lastPerformances)
    index
  = Slot.adjust (calculateReadiness this dailyFeedback) flags lastPerformances
      <$> exercises plannedWorkout !! index.
Proof.
  intros Hflags.
  destruct (generateDailyWorkout_slots this userProfile plannedWorkout dailyFeedback
              lastPerformances flags Hflags) as [pushed ->].
  cbn. apply list_lookup_fmap.
Qed.

(** The risk test, entry by entry of [riskMap]. *)
Lemma isExerciseRisky_spec (ex : Exercise) (painArea : string) :
  isExerciseRisky ex painArea
  = (includes (toLowerCase painArea) "knee"
       && existsb (fun riskyName => includes (name ex) riskyName)
                  ["Squat"; "Lunge"; "Leg Press"])
    || (includes (toLowerCase painArea) "shoulder"
          && existsb (fun riskyName => includes (name ex) riskyName)
                     ["Bench Press"; "Overhead Press"; "Dip"])
    || (includes (toLowerCase painArea) "back"
          && existsb (fun riskyName => includes (name ex) riskyName)
                     ["Deadlift"; "Row"; "Good Morning"]).
Proof.
  unfold isExerciseRisky, riskMap. cbn [fold_left].
  destruct (includes (toLowerCase painArea) "knee"),
    (includes (toLowerCase painArea) "shoulder"),
    (includes (toLowerCase painArea) "back"),
    (existsb _ ["Squat"; "Lunge"; "Leg Press"]),
    (existsb _ ["Bench Press"; "Overhead Press"; "Dip"]),
    (existsb _ ["Deadlift"; "Row"; "Good Morning"]); reflexivity.
Qed.

(** The risk test reads the exercise's name only. *)
Lemma isExerciseRisky_name (ex ex' : Exercise) (painArea : string) :
  name ex = name ex' -> isExerciseRisky ex painArea = isExerciseRisky ex' painArea.
Proof. intros H. rewrite !isExerciseRisky_spec, H. reflexivity. Qed.

(** "Glute Bridge" is in no risk list: no flag replaces it. *)
Lemma glute_bridge_safe (ex : Exercise) (flags : list string) :
  name ex = "Glute Bridge" -> Slot.safety flags ex = ex.
Proof.
  intros Hname. induction flags as [| painArea flags IH]; cbn; [reflexivity|].
  unfold Slot.substitute at 2. rewrite isExerciseRisky_spec, Hname.
  cbn [existsb]. vm_compute (includes "Glute Bridge" _).
  rewrite !andb_false_r. cbn. exact IH.
Qed.

(** Flags that do not find the slot risky leave it alone. *)
Lemma safety_not_risky (ex : Exercise) (flags : list string) :
  Forall (fun painArea => isExerciseRisky ex painArea = false) flags ->
  Slot.safety flags ex = ex.
Proof.
  induction 1 as [| painArea flags Hp _ IH]; cbn; [reflexivity|].
  unfold Slot.substitute at 2. rewrite Hp. exact IH.
Qed.

Lemma safety_app (pre post : list string) (ex : Exercise) :
  Slot.safety (pre ++ post) ex = Slot.safety post (Slot.safety pre ex).
Proof. unfold Slot.safety. apply fold_left_app. Qed.

End SlotProps.

(** ** The same weights on doubles *)

Module DoubleProps.

Import PrimFloat.

#[local] Set Warnings "-inexact-float".

(** The weights that the properties of this file name, computed on doubles:
    100 x 0.95 is 95; 60 x 0.7 is 42, and 42 x 0.7 is the double nearest to
    29.4; 100 x 1.025 falls one unit in the last place short of 102.5 and
    is rounded to the step 102.5. *)
Lemma weights_on_doubles :
  Double.scale 100 0.95 = 95%float
  /\ Double.scale 60 0.7 = 42%float
  /\ Double.scale (Double.scale 60 0.7) 0.7 = 29.4%float
  /\ Double.scale 100 1.025 = 102.49999999999999%float
  /\ Double.roundToStep (Double.scale 100 1.025) = 102.5%float
  /\ Double.roundToStep (Double.scale 100 0.95) = 95%float.
Proof. vm_compute. repeat split. Qed.

(** The same on rationals. *)
Lemma weights_on_rationals :
  (100 * 0.95 == 95)%Q
  /\ (60 * 0.7 == 42)%Q
  /\ (60 * 0.7 * 0.7 == 29.4)%Q
  /\ (inject_Z (Math_round (100 * 1.025 / 2.5)) * 2.5 == 102.5)%Q
  /\ (inject_Z (Math_round (100 * 0.95 / 2.5)) * 2.5 == 95)%Q.
Proof. repeat split. Qed.

End DoubleProps.

(** ** The engine on objects with missing properties *)

Module PartialProps.

Import Reading PipelineProps SlotProps.

(** *** The risk test *)

Lemma Array_some_named (text : string) (riskyList : list string) :
  Partial.Array_some (Some text) riskyList
  = Ok (existsb (fun riskyName => includes text riskyName) riskyList).
Proof.
  induction riskyList as [| riskyName rest IH]; cbn; [reflexivity|].
  destruct (includes text riskyName); [reflexivity | exact IH].
Qed.

(** On an exercise that has a name the risk test is the one of
    [TrainingEngine]. *)
Lemma isExerciseRisky_complete (ex : Exercise) (painArea : string) :
  Partial.isExerciseRisky (Complete.exercise ex) painArea
  = Ok (isExerciseRisky ex painArea).
Proof.
  unfold Partial.isExerciseRisky, isExerciseRisky, riskMap.
  cbn [Partial.forEach fold_left Complete.exercise Partial.name].
  rewrite !Array_some_named.
  destruct (includes (toLowerCase painArea) "knee"),
    (includes (toLowerCase painArea) "shoulder"),
    (includes (toLowerCase painArea) "back"); cbn [Partial.bind];
    repeat (destruct (existsb _ _); cbn [Partial.bind]); reflexivity.
Qed.

(** The three outcomes of the risk test. *)
Lemma isExerciseRisky_unrecognised (ex : Partial.Exercise) (painArea : string) :
  recognised painArea = false -> Partial.isExerciseRisky ex painArea = Ok false.
Proof.
  unfold recognised, riskMap. cbn [existsb fst]. rewrite orb_false_r.
  intros H. apply orb_false_elim in H as [Hknee H].
  apply orb_false_elim in H as [Hshoulder Hback].
  unfold Partial.isExerciseRisky, riskMap. cbn [Partial.forEach].
  rewrite Hknee, Hshoulder, Hback. reflexivity.
Qed.

Lemma isExerciseRisky_nameless (ex : Partial.Exercise) (painArea : string) :
  Complete.nameless ex = true -> recognised painArea = true ->
  exists message, Partial.isExerciseRisky ex painArea = Throw message.
Proof.
  unfold Complete.nameless, recognised, riskMap. cbn [existsb fst].
  rewrite orb_false_r.
  unfold Partial.isExerciseRisky, riskMap. cbn [Partial.forEach].
  destruct (Partial.name ex); [intros H; discriminate H | intros _].
  destruct (includes (toLowerCase painArea) "knee"),
    (includes (toLowerCase painArea) "shoulder"),
    (includes (toLowerCase painArea) "back"); cbn; intros H;
    try discriminate H; eexists; reflexivity.
Qed.

Lemma isExerciseRisky_named (ex : Partial.Exercise) (painArea : string) :
  Complete.nameless ex = false ->
  exists risky, Partial.isExerciseRisky ex painArea = Ok risky.
Proof.
  unfold Complete.nameless.
  unfold Partial.isExerciseRisky, riskMap. cbn [Partial.forEach].
  destruct (Partial.name ex) as [text |]; [intros _ | intros H; discriminate H].
  rewrite !Array_some_named.
  destruct (includes (toLowerCase painArea) "knee"),
    (includes (toLowerCase painArea) "shoulder"),
    (includes (toLowerCase painArea) "back"); cbn [Partial.bind];
    repeat (destruct (existsb _ _); cbn [Partial.bind]); eexists; reflexivity.
Qed.

(** Only an exercise that has a name is found risky. *)
Lemma isExerciseRisky_true (ex : Partial.Exercise) (painArea : string) :
  Partial.isExerciseRisky ex painArea = Ok true -> Complete.nameless ex = false.
Proof.
  destruct (Complete.nameless ex) eqn:Hname; [| reflexivity].
  destruct (recognised painArea) eqn:Hrec.
  - destruct (isExerciseRisky_nameless ex painArea Hname Hrec) as [message ->].
    intros H; discriminate H.
  - rewrite (isExerciseRisky_unrecognised ex painArea Hrec). intros H; discriminate H.
Qed.

Lemma getSafeSubstitution_named (ex : Partial.Exercise) (painArea : string) :
  Complete.nameless (Partial.getSafeSubstitution ex painArea) = false.
Proof.
  unfold Partial.getSafeSubstitution.
  destruct (includes painArea "knee"); [reflexivity|].
  destruct (includes painArea "shoulder"); [reflexivity|].
  destruct (includes painArea "back"); reflexivity.
Qed.

Lemma getSafeSubstitution_complete (ex : Exercise) (painArea : string) :
  Partial.getSafeSubstitution (Complete.exercise ex) painArea
  = Complete.exercise (getSafeSubstitution ex painArea).
Proof.
  unfold Partial.getSafeSubstitution, getSafeSubstitution.
  destruct (includes painArea "knee"); [reflexivity|].
  destruct (includes painArea "shoulder"); [reflexivity|].
  destruct (includes painArea "back"); reflexivity.
Qed.

(** *** The inner loop *)

(** The loop over the indices, started at index [length done], computes
    [substituteAll] of the exercises not yet visited. *)
Lemma substituteAt_loop (painArea : string) (todo done : list Partial.Exercise)
    (pushed : list Explanation) :
  Partial.forEach (Partial.substituteAt painArea) (seq (length done) (length todo))
                  (done ++ todo, pushed)
  = Partial.bind (Partial.substituteAll painArea todo pushed)
      (fun st => Ok (done ++ fst st, snd st)).
Proof.
  revert done pushed. induction todo as [| ex todo IH]; intros done pushed.
  - cbn. reflexivity.
  - cbn [length seq Partial.forEach Partial.substituteAll].
    unfold Partial.substituteAt at 1. cbn [fst snd].
    rewrite list_lookup_middle by reflexivity.
    destruct (Partial.isExerciseRisky ex painArea) as [risky | message];
      [| reflexivity].
    cbn [Partial.bind]. destruct risky; cbn [Partial.bind fst snd].
    + rewrite insert_middle.
      replace (S (length done))
        with (length (done ++ [Partial.getSafeSubstitution ex painArea]))
        by (rewrite length_app; cbn; lia).
      rewrite (cons_middle _ done todo), app_assoc, IH.
      destruct (Partial.substituteAll painArea todo _) as [st | message];
        [| reflexivity].
      cbn [Partial.bind fst snd]. rewrite <- app_assoc. reflexivity.
    + replace (S (length done)) with (length (done ++ [ex]))
        by (rewrite length_app; cbn; lia).
      rewrite (cons_middle ex done todo), app_assoc, IH.
      destruct (Partial.substituteAll painArea todo _) as [st | message];
        [| reflexivity].
      cbn [Partial.bind fst snd]. rewrite <- app_assoc. reflexivity.
Qed.

Lemma substituteForPainArea_all (exs : list Partial.Exercise)
    (pushed : list Explanation) (painArea : string) :
  Partial.substituteForPainArea (exs, pushed) painArea
  = Partial.substituteAll painArea exs pushed.
Proof.
  unfold Partial.substituteForPainArea. cbn [fst].
  pose proof (substituteAt_loop painArea exs [] pushed) as Hloop.
  cbn [length app] in Hloop. rewrite Hloop.
  destruct (Partial.substituteAll painArea exs pushed) as [[exs' pushed'] | message];
    reflexivity.
Qed.

(** With a recognised flag the inner loop throws when it meets an exercise
    without a name. *)
Lemma substituteAll_throws (painArea : string) (exs : list Partial.Exercise)
    (pushed : list Explanation) :
  recognised painArea = true -> existsb Complete.nameless exs = true ->
  exists message, Partial.substituteAll painArea exs pushed = Throw message.
Proof.
  intros Hrec. revert pushed. induction exs as [| ex exs IH]; intros pushed;
    [intros H; discriminate H|].
  cbn [existsb Partial.substituteAll].
  destruct (Complete.nameless ex) eqn:Hname.
  - intros _. destruct (isExerciseRisky_nameless ex painArea Hname Hrec) as [message ->].
    exists message. reflexivity.
  - cbn [orb]. intros Hrest.
    destruct (isExerciseRisky_named ex painArea Hname) as [risky ->].
    cbn [Partial.bind].
    match goal with
    | |- context [Partial.substituteAll painArea exs ?p] =>
        destruct (IH p Hrest) as [message ->]
    end.
    exists message. reflexivity.
Qed.

(** Otherwise it returns, with as many exercises, the ones without a name
    where they were. *)
Lemma substituteAll_returns (painArea : string) (exs : list Partial.Exercise)
    (pushed : list Explanation) :
  recognised painArea = false \/ existsb Complete.nameless exs = false ->
  exists st,
    Partial.substituteAll painArea exs pushed = Ok st
    /\ map Complete.nameless (fst st) = map Complete.nameless exs.
Proof.
  intros Hcase. revert pushed. induction exs as [| ex exs IH]; intros pushed.
  - eexists. split; reflexivity.
  - cbn [Partial.substituteAll].
    assert (Hrisky : exists risky, Partial.isExerciseRisky ex painArea = Ok risky).
    { destruct Hcase as [Hrec | Hnamed].
      - exists false. apply isExerciseRisky_unrecognised, Hrec.
      - cbn [existsb] in Hnamed. apply orb_false_elim in Hnamed as [Hname _].
        apply isExerciseRisky_named, Hname. }
    destruct Hrisky as [risky Hrisky]. rewrite Hrisky. cbn [Partial.bind].
    assert (Hrest : recognised painArea = false
                    \/ existsb Complete.nameless exs = false).
    { destruct Hcase as [Hrec | Hnamed]; [left; exact Hrec | right].
      cbn [existsb] in Hnamed. apply orb_false_elim in Hnamed as [_ Hnamed].
      exact Hnamed. }
    match goal with
    | |- context [Partial.substituteAll painArea exs ?p] =>
        destruct (IH Hrest p) as (st & -> & Hsame)
    end.
    cbn [Partial.bind]. eexists. split; [reflexivity|].
    cbn [fst map]. rewrite Hsame. f_equal.
    destruct risky; [| reflexivity].
    rewrite getSafeSubstitution_named. symmetry.
    apply (isExerciseRisky_true ex painArea Hrisky).
Qed.

(** On complete exercises it is the inner loop of [TrainingEngine]. *)
Lemma substituteAll_complete (painArea : string) (exs : list Exercise)
    (pushed : list Explanation) :
  Partial.substituteAll painArea (map Complete.exercise exs) pushed
  = Ok (map Complete.exercise (map (Slot.substitute painArea) exs),
        fold_left (Slot.explainSubstitute painArea) exs pushed).
Proof.
  revert pushed. induction exs as [| ex exs IH]; intros pushed; [reflexivity|].
  cbn [map Partial.substituteAll fold_left].
  rewrite isExerciseRisky_complete. cbn [Partial.bind].
  unfold Slot.substitute at 1. unfold Slot.explainSubstitute at 2.
  rewrite getSafeSubstitution_complete.
  destruct (isExerciseRisky ex painArea); rewrite IH; reflexivity.
Qed.

(** *** The safety check *)

Lemma existsb_map_eq {A} (f : A -> bool) (l l' : list A) :
  map f l = map f l' -> existsb f l = existsb f l'.
Proof.
  revert l'. induction l as [| x l IH]; intros [| x' l'] H; try discriminate H;
    [reflexivity|].
  cbn in *. injection H as Hx Hl. rewrite Hx, (IH l' Hl). reflexivity.
Qed.

Lemma map_eq_length {A B} (f : A -> B) (l l' : list A) :
  map f l = map f l' -> length l = length l'.
Proof. intros H. apply (f_equal (@length B)) in H. rewrite !length_map in H. exact H. Qed.

Lemma set_exercises_again (exs exs' : list Partial.Exercise) (w : Partial.Workout) :
  Partial.set_exercises exs (Partial.set_exercises exs' w) = Partial.set_exercises exs w.
Proof. reflexivity. Qed.

Lemma safety_loop_throws (flags : list string) (w : Partial.Workout)
    (exs : list Partial.Exercise) (pushed : list Explanation) :
  Partial.exercises w = Some exs ->
  existsb recognised flags = true -> existsb Complete.nameless exs = true ->
  exists message, Partial.forEach Partial.pass flags (w, pushed) = Throw message.
Proof.
  revert w exs pushed. induction flags as [| painArea flags IH];
    intros w exs pushed Hexs Hflags Hnameless; [discriminate Hflags|].
  cbn [Partial.forEach]. unfold Partial.pass at 1. cbn [fst snd].
  unfold Partial.getExercises. rewrite Hexs. cbn [Partial.bind].
  rewrite substituteForPainArea_all.
  destruct (recognised painArea) eqn:Hrec.
  - destruct (substituteAll_throws painArea exs pushed Hrec Hnameless) as [message ->].
    exists message. reflexivity.
  - cbn [existsb] in Hflags. rewrite Hrec in Hflags. cbn [orb] in Hflags.
    destruct (substituteAll_returns painArea exs pushed (or_introl Hrec))
      as ([exs' pushed'] & -> & Hsame).
    cbn [Partial.bind fst snd]. cbn [fst] in Hsame.
    apply (IH _ exs' pushed'); [reflexivity | exact Hflags|].
    rewrite (existsb_map_eq _ _ _ Hsame). exact Hnameless.
Qed.

Lemma safety_loop_returns (flags : list string) (w : Partial.Workout)
    (exs : list Partial.Exercise) (pushed : list Explanation) :
  Partial.exercises w = Some exs ->
  existsb recognised flags = false \/ existsb Complete.nameless exs = false ->
  exists exs' pushed',
    Partial.forEach Partial.pass flags (w, pushed) = Ok (Partial.set_exercises exs' w, pushed')
    /\ map Complete.nameless exs' = map Complete.nameless exs.
Proof.
  revert w exs pushed. induction flags as [| painArea flags IH];
    intros w exs pushed Hexs Hcase.
  - exists exs, pushed. split; [| reflexivity].
    cbn. destruct w. cbn in Hexs. subst. reflexivity.
  - cbn [Partial.forEach]. unfold Partial.pass at 1. cbn [fst snd].
    unfold Partial.getExercises. rewrite Hexs. cbn [Partial.bind].
    rewrite substituteForPainArea_all.
    assert (Hhere : recognised painArea = false
                    \/ existsb Complete.nameless exs = false).
    { destruct Hcase as [Hflags | Hnamed]; [left | right; exact Hnamed].
      cbn [existsb] in Hflags. apply orb_false_elim in Hflags as [Hrec _]. exact Hrec. }
    destruct (substituteAll_returns painArea exs pushed Hhere)
      as ([exs1 pushed1] & -> & Hsame).
    cbn [Partial.bind fst snd]. cbn [fst] in Hsame.
    assert (Hrest : existsb recognised flags = false
                    \/ existsb Complete.nameless exs1 = false).
    { destruct Hcase as [Hflags | Hnamed]; [left | right].
      - cbn [existsb] in Hflags. apply orb_false_elim in Hflags as [_ Hflags].
        exact Hflags.
      - rewrite (existsb_map_eq _ _ _ Hsame). exact Hnamed. }
    destruct (IH (Partial.set_exercises exs1 w) exs1 pushed1 eq_refl Hrest)
      as (exs' & pushed' & -> & Hsame').
    exists exs', pushed'. rewrite set_exercises_again. split; [reflexivity|].
    rewrite Hsame'. exact Hsame.
Qed.

(** *** The volume and the load stage *)

Lemma loadProgression_length (lastPerformances : list ExercisePerformance)
    (exs : list Partial.Exercise) :
  length (fst (Partial.loadProgression lastPerformances exs)) = length exs.
Proof.
  induction exs as [| ex exs IH]; cbn; [reflexivity|].
  destruct (Partial.progressLoad lastPerformances ex) as [ex' pushed].
  destruct (Partial.loadProgression lastPerformances exs) as [rest' pushed'].
  cbn in *. rewrite IH. reflexivity.
Qed.

(** After the safety check: a workout without [exercises] makes the call
    throw whatever the readiness; a workout with [exercises] makes it
    return. *)
Lemma later_stages_missing (readiness : Z) (w : Partial.Workout)
    (pushed : list Explanation) (sleep : option Q)
    (lastPerformances : list ExercisePerformance) :
  Partial.exercises w = None ->
  exists message,
    Partial.bind (Partial.adjustVolume w readiness)
      (fun volumeAdjustmentResult =>
         let '(adjustedWorkout, explanations) :=
           if negb (AdjustmentType_eqb (Partial.volume_type volumeAdjustmentResult)
                                       MAINTENANCE)
           then
             (Partial.workout volumeAdjustmentResult,
              pushed ++
                [explainAdjustment (Partial.volume_type volumeAdjustmentResult)
                   (mkContext None None None sleep
                      (Some (if AdjustmentType_eqb
                                  (Partial.volume_type volumeAdjustmentResult) DELOAD
                             then "50%" else "20%"))
                      None None)])
           else (w, pushed) in
         Partial.bind
           (if 40 <=? readiness then
              Partial.bind (Partial.getExercises adjustedWorkout)
                (fun exs =>
                   let '(exs', pushed') :=
                     Partial.loadProgression lastPerformances exs in
                   Ok (Partial.set_exercises exs' adjustedWorkout,
                       explanations ++ pushed'))
            else Ok (adjustedWorkout, explanations))
           (fun progressed =>
              Ok (Partial.mkDecision readiness (fst progressed) (snd progressed))))
    = Throw message.
Proof.
  intros Hnone. unfold Partial.adjustVolume, Partial.JSON_clone, Partial.getExercises.
  rewrite Hnone.
  destruct (Z.ltb_spec readiness 40); [eexists; reflexivity|].
  destruct (Z.ltb_spec readiness 60); [eexists; reflexivity|].
  cbn [Partial.bind Partial.volume_type negb AdjustmentType_eqb].
  destruct (Z.leb_spec 40 readiness); [| lia].
  rewrite Hnone. eexists. reflexivity.
Qed.

Lemma later_stages_return (readiness : Z) (w : Partial.Workout)
    (exs : list Partial.Exercise) (pushed : list Explanation) (sleep : option Q)
    (lastPerformances : list ExercisePerformance) :
  Partial.exercises w = Some exs ->
  exists exs' pushed',
    Partial.bind (Partial.adjustVolume w readiness)
      (fun volumeAdjustmentResult =>
         let '(adjustedWorkout, explanations) :=
           if negb (AdjustmentType_eqb (Partial.volume_type volumeAdjustmentResult)
                                       MAINTENANCE)
           then
             (Partial.workout volumeAdjustmentResult,
              pushed ++
                [explainAdjustment (Partial.volume_type volumeAdjustmentResult)
                   (mkContext None None None sleep
                      (Some (if AdjustmentType_eqb
                                  (Partial.volume_type volumeAdjustmentResult) DELOAD
                             then "50%" else "20%"))
                      None None)])
           else (w, pushed) in
         Partial.bind
           (if 40 <=? readiness then
              Partial.bind (Partial.getExercises adjustedWorkout)
                (fun exs =>
                   let '(exs', pushed') :=
                     Partial.loadProgression lastPerformances exs in
                   Ok (Partial.set_exercises exs' adjustedWorkout,
                       explanations ++ pushed'))
            else Ok (adjustedWorkout, explanations))
           (fun progressed =>
              Ok (Partial.mkDecision readiness (fst progressed) (snd progressed))))
    = Ok (Partial.mkDecision readiness (Partial.set_exercises exs' w) pushed')
    /\ length exs' = length exs.
Proof.
  intros Hexs. unfold Partial.adjustVolume, Partial.JSON_clone, Partial.getExercises.
  rewrite Hexs.
  assert (Hw : Partial.set_exercises exs w = w)
    by (destruct w; cbn in Hexs; subst; reflexivity).
  destruct (Z.ltb_spec readiness 40) as [H40 | H40];
    [| destruct (Z.ltb_spec readiness 60) as [H60 | H60]];
    cbn [Partial.bind Partial.volume_type Partial.workout negb AdjustmentType_eqb];
    destruct (Z.leb_spec 40 readiness) as [Hload | Hload]; try lia;
    cbn [Partial.bind Partial.exercises Partial.set_exercises]; rewrite ?Hexs;
    cbn [Partial.bind].
  - exists (map Partial.deloadSets exs). eexists.
    split; [reflexivity | apply length_map].
  - pose proof (loadProgression_length lastPerformances
                  (map Partial.reduceSets exs)) as Hlen.
    destruct (Partial.loadProgression lastPerformances (map Partial.reduceSets exs))
      as [exs' pushed'].
    cbn [fst] in Hlen. rewrite length_map in Hlen.
    exists exs'. eexists. split; [reflexivity | exact Hlen].
  - pose proof (loadProgression_length lastPerformances exs) as Hlen.
    destruct (Partial.loadProgression lastPerformances exs) as [exs' pushed'].
    cbn [fst] in Hlen.
    exists exs'. eexists. split; [reflexivity | exact Hlen].
Qed.

(** *** The whole call *)

(** When the call throws and when it returns. *)
Lemma generateDailyWorkout_outcome (this : Engine) (userProfile : User)
    (plannedWorkout : Partial.Workout) (dailyFeedback : Feedback)
    (lastPerformances : list ExercisePerformance) :
  let call := Partial.generateDailyWorkout this userProfile plannedWorkout
                dailyFeedback lastPerformances in
  match painFlags dailyFeedback, Partial.exercises plannedWorkout with
  | None, _ | Some _, None => exists message, call = Throw message
  | Some flags, Some exs =>
      if (existsb recognised flags && existsb Complete.nameless exs)%bool then
        exists message, call = Throw message
      else
        exists exs' pushed,
          call = Ok (Partial.mkDecision (calculateReadiness this dailyFeedback)
                       (Partial.set_exercises exs' plannedWorkout) pushed)
          /\ length exs' = length exs
  end.
Proof.
  cbv zeta. unfold Partial.generateDailyWorkout, Partial.JSON_clone.
  destruct (painFlags dailyFeedback) as [flags |]; [| eexists; reflexivity].
  unfold Partial.safetyCheck.
  destruct (Partial.exercises plannedWorkout) as [exs |] eqn:Hexs.
  - destruct (existsb recognised flags && existsb Complete.nameless exs)%bool eqn:Hcase.
    + apply andb_true_iff in Hcase as [Hflags Hnameless].
      destruct flags as [| painArea flags]; [discriminate Hflags|].
      cbn [length Nat.ltb Nat.leb].
      destruct (safety_loop_throws (painArea :: flags) plannedWorkout exs [] Hexs
                  Hflags Hnameless) as [message ->].
      exists message. reflexivity.
    + apply andb_false_iff in Hcase.
      destruct (safety_loop_returns flags plannedWorkout exs [] Hexs Hcase)
        as (exs1 & pushed1 & Hloop & Hsame).
      assert (Hchecked :
        (if (0 <? length flags)%nat
         then Partial.forEach Partial.pass flags (plannedWorkout, [])
         else Ok (plannedWorkout, []))
        = Ok (Partial.set_exercises exs1 plannedWorkout, pushed1)).
      { destruct flags as [| painArea flags]; [| exact Hloop].
        cbn in Hloop. cbn. exact Hloop. }
      rewrite Hchecked. cbn [Partial.bind].
      destruct (later_stages_return (calculateReadiness this dailyFeedback)
                  (Partial.set_exercises exs1 plannedWorkout) exs1 pushed1
                  (sleepQuality dailyFeedback) lastPerformances eq_refl)
        as (exs' & pushed' & -> & Hlen).
      exists exs', pushed'. rewrite set_exercises_again. split; [reflexivity|].
      rewrite Hlen. apply (map_eq_length _ _ _ Hsame).
  - destruct flags as [| painArea flags].
    + cbn [length Nat.ltb Nat.leb Partial.bind].
      apply later_stages_missing, Hexs.
    + cbn [length Nat.ltb Nat.leb Partial.forEach]. unfold Partial.pass at 1.
      unfold Partial.getExercises. cbn [fst]. rewrite Hexs.
      eexists. reflexivity.
Qed.

(** *** Agreement with the engine on complete objects *)

Lemma safety_loop_complete (flags : list string) (w : Workout)
    (exs : list Exercise) (pushed : list Explanation) :
  Partial.forEach Partial.pass flags (Complete.workout (set_exercises exs w), pushed)
  = Ok (Complete.workout
          (set_exercises (fst (fold_left substituteForPainArea flags (exs, pushed))) w),
        snd (fold_left substituteForPainArea flags (exs, pushed))).
Proof.
  revert exs pushed. induction flags as [| painArea flags IH]; intros exs pushed;
    [reflexivity|].
  cbn [Partial.forEach fold_left]. unfold Partial.pass at 1.
  cbn [fst snd Partial.getExercises Complete.workout Partial.exercises exercises
       set_exercises Partial.bind].
  unfold Partial.getExercises. cbn [Partial.exercises Partial.bind].
  rewrite substituteForPainArea_all, substituteAll_complete. cbn [Partial.bind fst snd].
  rewrite (PipelineProps.substituteForPainArea_run (exs, pushed) painArea).
  cbn [fst snd].
  exact (IH (map (Slot.substitute painArea) exs)
            (fold_left (Slot.explainSubstitute painArea) exs pushed)).
Qed.

Lemma progressLoad_complete (lastPerformances : list ExercisePerformance)
    (ex : Exercise) :
  Partial.progressLoad lastPerformances (Complete.exercise ex)
  = (Complete.exercise (fst (progressLoad lastPerformances ex)),
     snd (progressLoad lastPerformances ex)).
Proof.
  unfold Partial.progressLoad, progressLoad.
  cbn [Complete.exercise Partial.id Partial.rpeTarget Partial.reps].
  destruct (find _ lastPerformances) as [lastPerf |]; [| reflexivity].
  destruct (negb _); reflexivity.
Qed.

Lemma loadProgression_complete (lastPerformances : list ExercisePerformance)
    (exs : list Exercise) :
  Partial.loadProgression lastPerformances (map Complete.exercise exs)
  = (map Complete.exercise (fst (loadProgression lastPerformances exs)),
     snd (loadProgression lastPerformances exs)).
Proof.
  induction exs as [| ex exs IH]; [reflexivity|].
  cbn [map Partial.loadProgression loadProgression].
  rewrite progressLoad_complete, IH.
  destruct (progressLoad lastPerformances ex) as [ex' pushed].
  destruct (loadProgression lastPerformances exs) as [rest' pushed'].
  reflexivity.
Qed.

Lemma map_deloadSets_complete (exs : list Exercise) :
  map Partial.deloadSets (map Complete.exercise exs)
  = map Complete.exercise (map deloadSets exs).
Proof. rewrite !map_map. apply map_ext. intros ex. reflexivity. Qed.

Lemma map_reduceSets_complete (exs : list Exercise) :
  map Partial.reduceSets (map Complete.exercise exs)
  = map Complete.exercise (map reduceSets exs).
Proof.
  rewrite !map_map. apply map_ext. intros ex.
  unfold Partial.reduceSets, reduceSets. cbn [Complete.exercise Partial.sets].
  destruct (1 <? sets ex); reflexivity.
Qed.

(** On a plan whose exercises all have a name the two embeddings return the
    same decision, or throw the same error. *)
Lemma agrees (this : Engine) (userProfile : User) (plannedWorkout : Workout)
    (dailyFeedback : Feedback) (lastPerformances : list ExercisePerformance) :
  Partial.generateDailyWorkout this userProfile (Complete.workout plannedWorkout)
    dailyFeedback lastPerformances
  = Complete.outcome
      (generateDailyWorkout this userProfile plannedWorkout dailyFeedback
         lastPerformances).
Proof.
  unfold Partial.generateDailyWorkout, generateDailyWorkout, Partial.JSON_clone,
    JSON_clone.
  destruct (painFlags dailyFeedback) as [flags |]; [| reflexivity].
  unfold Partial.safetyCheck.
  assert (Hsafe :
    (if (0 <? length flags)%nat
     then Partial.forEach Partial.pass flags (Complete.workout plannedWorkout, [])
     else Ok (Complete.workout plannedWorkout, []))
    = Ok (Complete.workout
            (set_exercises (fst (safetyCheck flags (exercises plannedWorkout, [])))
                           plannedWorkout),
          snd (safetyCheck flags (exercises plannedWorkout, [])))).
  { unfold safetyCheck. destruct (0 <? length flags)%nat.
    - rewrite <- (safety_loop_complete flags plannedWorkout).
      destruct plannedWorkout; reflexivity.
    - cbn [fst snd]. destruct plannedWorkout; reflexivity. }
  rewrite Hsafe. cbn [Partial.bind].
  destruct (safetyCheck flags (exercises plannedWorkout, [])) as [exs1 pushed1].
  cbn [fst snd].
  set (readiness := calculateReadiness this dailyFeedback).
  unfold Partial.adjustVolume, adjustVolume, Partial.JSON_clone, JSON_clone,
    Partial.getExercises.
  cbn [Complete.workout Partial.exercises exercises set_exercises].
  destruct (readiness <? 40); [| destruct (readiness <? 60)];
    cbn [Partial.bind Partial.volume_type Partial.workout volume_type workout negb
         AdjustmentType_eqb Partial.exercises Partial.set_exercises exercises
         set_exercises];
    destruct (40 <=? readiness);
    cbn [Partial.bind Partial.exercises Complete.workout exercises set_exercises];
    rewrite ?map_deloadSets_complete, ?map_reduceSets_complete,
      ?loadProgression_complete;
    repeat match goal with
           | |- context [loadProgression lastPerformances ?l] =>
               destruct (loadProgression lastPerformances l) as [exs3 pushed3]
           end;
    reflexivity.
Qed.

End PartialProps.

(** ** Injury substitution *)

Module InjuryProps.

Import PipelineProps SlotProps StringProps.

(** A flag that contains "knee" as written makes every Squat, Lunge or
    Leg Press risky. *)
Lemma knee_flag_risky (ex : Exercise) (painArea : string) :
  includes painArea "knee" = true ->
  includes (name ex) "Squat" = true \/ includes (name ex) "Lunge" = true
    \/ includes (name ex) "Leg Press" = true ->
  isExerciseRisky ex painArea = true.
Proof.
  intros Hflag Hname. rewrite isExerciseRisky_spec.
  apply includes_toLowerCase in Hflag; [| reflexivity].
  rewrite Hflag. cbn [existsb andb].
  destruct Hname as [-> | [-> | ->]]; rewrite ?orb_true_r; reflexivity.
Qed.

(** A flag that names neither the shoulder nor the back leaves alone every
    slot that is not a Squat, Lunge or Leg Press. *)
Lemma knee_only_flag_not_risky (ex : Exercise) (painArea : string) :
  includes (toLowerCase painArea) "shoulder" = false ->
  includes (toLowerCase painArea) "back" = false ->
  includes (name ex) "Squat" = false -> includes (name ex) "Lunge" = false ->
  includes (name ex) "Leg Press" = false ->
  isExerciseRisky ex painArea = false.
Proof.
  intros Hs Hb H1 H2 H3. rewrite isExerciseRisky_spec, Hs, Hb. cbn [existsb andb].
  rewrite H1, H2, H3, andb_false_r. reflexivity.
Qed.

(** The safety check on a slot whose first risky flag is a knee flag. *)
Lemma safety_knee (pre rest : list string) (flag : string) (planned : Exercise) :
  Forall (fun painArea => isExerciseRisky planned painArea = false) pre ->
  includes flag "knee" = true ->
  includes (name planned) "Squat" = true \/ includes (name planned) "Lunge" = true
    \/ includes (name planned) "Leg Press" = true ->
  Slot.safety (pre ++ flag :: rest) planned = Slot.gluteBridge planned.
Proof.
  intros Hpre Hflag Hname.
  rewrite safety_app, (safety_not_risky _ _ Hpre).
  change (Slot.safety (flag :: rest) planned)
    with (Slot.safety rest (Slot.substitute flag planned)).
  unfold Slot.substitute. rewrite (knee_flag_risky _ _ Hflag Hname).
  unfold getSafeSubstitution. rewrite Hflag.
  apply glute_bridge_safe. reflexivity.
Qed.

(** The slip that C6 and C9 run into: the risk test lower-cases the flag,
    the choice of the substitute does not.  A capitalised knee flag passes
    the risk test and then falls through to the rest placeholder. *)
Lemma capitalised_flag_gets_rest_placeholder :
  let squat := mkExercise "sq" "Barbell Squat" (Some "compound") (Some ["quads"])
                          100 3 5 (Some 8%Q) in
  isExerciseRisky squat "Left_Knee" = true
  /\ getSafeSubstitution squat "Left_Knee"
     = mkExercise "rest" "Rest (Left_Knee pain)" None None 0 0 0 None
  /\ Slot.returned
       (generateDailyWorkout constructor user plannedWorkout
          (mkFeedback (Some 7%Q) (Some 2%Q) (Some "Low") (Some ["Left_Knee"]))
          historyA) 0
     = Some (mkExercise "rest" "Rest (Left_Knee pain)" None None 0 0 0 None).
Proof. repeat split. Qed.

(** C6, as stated, fails on the plan of the test scenarios.
    (1) With the flag "left_knee" and a readiness of 15 the Squat slot comes
        back as a Glute Bridge with 1 set, not 3: the volume stage runs on
        the substitute.
    (2) With the flag "back_of_knee", which contains "knee", the Row slot,
        which is no Squat, Lunge or Leg Press, is replaced as well. *)
Lemma knee_substitution_counterexample :
  map (fun ex => (name ex, sets ex, reps ex))
      (Slot.returnedExercises
         (generateDailyWorkout constructor user plannedWorkout
            (mkFeedback (Some 3%Q) (Some 5%Q) (Some "High") (Some ["left_knee"]))
            historyA))
  = [("Glute Bridge", 1, 15); ("Bench Press", 1, 5); ("Barbell Row", 1, 10)]
  /\ includes (toLowerCase "back_of_knee") "knee" = true
  /\ (name <$> Slot.returned
        (generateDailyWorkout constructor user plannedWorkout
           (mkFeedback (Some 7%Q) (Some 2%Q) (Some "Low") (Some ["back_of_knee"]))
           []) 2)
     = Some "Glute Bridge"
  /\ (name <$> exercises plannedWorkout !! 2%nat) = Some "Barbell Row".
Proof. repeat split. Qed.

(** C6, amended.  Take a slot whose name contains "Squat", "Lunge" or
    "Leg Press" and a pain flag that contains "knee" as written (lower case)
    and is the first flag of the list to find the slot risky.  Then the call
    returns, the safety check replaces the slot by "Glute Bridge" with weight
    0, 3 sets, 15 reps and the id of the original with "_sub" appended, and no
    later flag replaces it again.  The returned slot keeps that name, id and
    reps; it has 3 sets when the readiness is at least 60 (no volume cut) and
    weight 0 when no performance record is keyed by the substitute's id.  A
    slot that no flag of the list finds risky is not altered by the safety
    check; under a flag that names neither the shoulder nor the back this is
    every slot that is no Squat, Lunge or Leg Press.  In the knee scenario of
    the test script, "Barbell Squat" with flag "left_knee" comes back as
    "Glute Bridge" (0, 3x15) and the other two slots keep their exercises. *)
Theorem knee_substitution (this : Engine) (userProfile : User)
    (plannedWorkout' : Workout) (dailyFeedback : Feedback)
    (lastPerformances : list ExercisePerformance)
    (pre rest : list string) (flag : string) (index : nat) (planned : Exercise) :
  painFlags dailyFeedback = Some (pre ++ flag :: rest) ->
  Forall (fun painArea => isExerciseRisky planned painArea = false) pre ->
  includes flag "knee" = true ->
  exercises plannedWorkout' !! index = Some planned ->
  includes (name planned) "Squat" = true \/ includes (name planned) "Lunge" = true
    \/ includes (name planned) "Leg Press" = true ->
  let readiness := calculateReadiness this dailyFeedback in
  (exists ex',
     Slot.returned
       (generateDailyWorkout this userProfile plannedWorkout' dailyFeedback
          lastPerformances) index = Some ex'
     /\ Slot.safety (pre ++ flag :: rest) planned = Slot.gluteBridge planned
     /\ name ex' = "Glute Bridge" /\ reps ex' = 15
     /\ id ex' = (id planned ++ "_sub")%string
     /\ (60 <= readiness -> sets ex' = 3)
     /\ (Slot.lookupPerformance lastPerformances (id planned ++ "_sub") = None ->
         weight ex' = 0%Q))
  /\ (forall other,
        Forall (fun painArea => isExerciseRisky other painArea = false)
               (pre ++ flag :: rest) ->
        Slot.safety (pre ++ flag :: rest) other = other)
  /\ (forall other,
        includes (toLowerCase flag) "shoulder" = false ->
        includes (toLowerCase flag) "back" = false ->
        includes (name other) "Squat" = false ->
        includes (name other) "Lunge" = false ->
        includes (name other) "Leg Press" = false ->
        isExerciseRisky other flag = false)
  /\ map (fun ex => (name ex, weight ex, sets ex, reps ex))
         (Slot.returnedExercises
            (generateDailyWorkout constructor user plannedWorkout feedbackC historyA))
     = [("Glute Bridge", 0%Q, 3, 15); ("Bench Press", 80%Q, 3, 5);
        ("Barbell Row", 60%Q, 3, 10)].
Proof.
  intros Hflags Hpre Hflag Hslot Hname readiness.
  split; [| split; [| split]].
  - rewrite (returned_slot _ _ _ _ _ _ index Hflags), Hslot. cbn [fmap option_fmap option_map].
    eexists. split; [reflexivity|].
    pose proof (safety_knee pre rest flag planned Hpre Hflag Hname) as Hsafe.
    split; [exact Hsafe|].
    unfold Slot.adjust. rewrite Hsafe. fold readiness.
    destruct (load_keeps readiness lastPerformances
                (Slot.volume readiness (Slot.gluteBridge planned))) as (Hid & Hn & Hs & Hr).
    destruct (volume_keeps readiness (Slot.gluteBridge planned)) as (Hid' & Hn' & Hw' & Hr' & _).
    rewrite Hn, Hn', Hr, Hr', Hid, Hid', Hs.
    repeat split.
    + intros Hready. rewrite (volume_maintenance _ _ Hready). reflexivity.
    + intros Hnone. rewrite load_unmatched; [exact Hw' | rewrite Hid'; exact Hnone].
  - intros other Hother. apply safety_not_risky, Hother.
  - intros other. apply knee_only_flag_not_risky.
  - reflexivity.
Qed.

(** [knee_substitution] at the knee scenario of the test script, slot 0. *)
Lemma knee_substitution_witness :
  exists ex',
    Slot.returned
      (generateDailyWorkout constructor user plannedWorkout feedbackC historyA) 0
    = Some ex'
    /\ name ex' = "Glute Bridge" /\ sets ex' = 3 /\ weight ex' = 0%Q.
Proof.
  destruct (knee_substitution constructor user plannedWorkout feedbackC historyA
              [] [] "left_knee" 0
              (mkExercise "sq" "Barbell Squat" (Some "compound") (Some ["quads"])
                          100 3 5 (Some 8%Q)))
    as [(ex' & Hret & _ & Hn & _ & _ & Hs & Hw) _].
  - reflexivity.
  - constructor.
  - reflexivity.
  - reflexivity.
  - left. reflexivity.
  - exists ex'. split; [exact Hret|]. split; [exact Hn|]. split.
    + apply Hs. vm_compute. discriminate.
    + apply Hw. reflexivity.
Defined.

Lemma append_assoc (a b c : string) : ((a ++ b) ++ c = a ++ (b ++ c))%string.
Proof. induction a as [| ch a IH]; cbn; [reflexivity | f_equal; exact IH]. Qed.

(** The three mapped substitutes carry the original id with "_sub"
    appended; the placeholder carries the fixed id "rest". *)
Lemma getSafeSubstitution_id (exercise : Exercise) (painArea : string) :
  id (getSafeSubstitution exercise painArea)
  = if includes painArea "knee" || includes painArea "shoulder"
       || includes painArea "back"
    then (id exercise ++ "_sub")%string else "rest".
Proof.
  unfold getSafeSubstitution.
  destruct (includes painArea "knee"), (includes painArea "shoulder"),
    (includes painArea "back"); reflexivity.
Qed.

(** C9, as stated, fails.
    (1) The rest placeholder, which [getSafeSubstitution] builds for a flag
        it maps to no body part, has the fixed id "rest": it does not start
        with the id "sq" of the exercise it replaces.
    (2) A lookup by id can match a substituted slot: with a performance
        record keyed "sq_sub" the Glute Bridge that replaces the Squat takes
        the record's weight of 50. *)
Lemma substitute_identifier_counterexample :
  let squat := mkExercise "sq" "Barbell Squat" (Some "compound") (Some ["quads"])
                          100 3 5 (Some 8%Q) in
  id (getSafeSubstitution squat "elbow") = "rest"
  /\ String.prefix (id squat) (id (getSafeSubstitution squat "elbow")) = false
  /\ Slot.lookupPerformance [mkExercisePerformance "sq_sub" 50 15 3 8] "sq_sub"
     = Some (mkExercisePerformance "sq_sub" 50 15 3 8)
  /\ map (fun ex => (id ex, name ex, weight ex))
         (Slot.returnedExercises
            (generateDailyWorkout constructor user plannedWorkout feedbackC
               [mkExercisePerformance "sq_sub" 50 15 3 8]))
     = [("sq_sub", "Glute Bridge", 50%Q); ("bp", "Bench Press", 80%Q);
        ("row", "Barbell Row", 60%Q)].
Proof. repeat split. Qed.

(** C9, amended.  A substitute built for a flag that contains "knee",
    "shoulder" or "back" carries the id of the original exercise with "_sub"
    appended; the rest placeholder, built for any other flag, carries the
    fixed id "rest".  Load progression looks the substitute up by that id:
    when no performance record is keyed by it, the slot skips progression,
    that is, the engine returns the substitute with at most its set count
    changed by the volume stage. *)
Theorem substitute_identifier (this : Engine) (userProfile : User)
    (plannedWorkout' : Workout) (dailyFeedback : Feedback)
    (lastPerformances : list ExercisePerformance)
    (flag : string) (index : nat) (planned : Exercise) :
  let sub := getSafeSubstitution planned flag in
  let readiness := calculateReadiness this dailyFeedback in
  (includes flag "knee" = true \/ includes flag "shoulder" = true
     \/ includes flag "back" = true ->
   id sub = (id planned ++ "_sub")%string)
  /\ (includes flag "knee" = false -> includes flag "shoulder" = false ->
      includes flag "back" = false ->
      sub = mkExercise "rest" ("Rest (" ++ flag ++ " pain)")%string None None 0 0 0 None)
  /\ (Slot.lookupPerformance lastPerformances (id sub) = None ->
      progressLoad lastPerformances (Slot.volume readiness sub)
      = (Slot.volume readiness sub, []))
  /\ (painFlags dailyFeedback = Some [flag] ->
      exercises plannedWorkout' !! index = Some planned ->
      isExerciseRisky planned flag = true ->
      Slot.lookupPerformance lastPerformances (id sub) = None ->
      Slot.returned
        (generateDailyWorkout this userProfile plannedWorkout' dailyFeedback
           lastPerformances) index
      = Some (Slot.volume readiness sub)).
Proof.
  cbv zeta. split; [| split; [| split]].
  - intros H. rewrite getSafeSubstitution_id.
    destruct H as [-> | [-> | ->]]; rewrite ?orb_true_r; reflexivity.
  - intros H1 H2 H3. unfold getSafeSubstitution. rewrite H1, H2, H3. reflexivity.
  - intros Hnone. apply progressLoad_unmatched.
    destruct (volume_keeps (calculateReadiness this dailyFeedback)
                (getSafeSubstitution planned flag)) as (-> & _). exact Hnone.
  - intros Hflags Hslot Hrisky Hnone.
    rewrite (returned_slot _ _ _ _ _ _ index Hflags), Hslot.
    cbn [fmap option_fmap option_map]. f_equal.
    unfold Slot.adjust. cbn [Slot.safety fold_left].
    unfold Slot.substitute. rewrite Hrisky.
    apply load_unmatched.
    destruct (volume_keeps (calculateReadiness this dailyFeedback)
                (getSafeSubstitution planned flag)) as (-> & _). exact Hnone.
Qed.

(** [substitute_identifier] at the knee scenario of the test script (the
    history holds no record keyed "sq_sub", so the Glute Bridge comes back
    as it was built) and at a flag that maps to no body part. *)
Lemma substitute_identifier_witness :
  let squat := mkExercise "sq" "Barbell Squat" (Some "compound") (Some ["quads"])
                          100 3 5 (Some 8%Q) in
  id (getSafeSubstitution squat "left_knee") = "sq_sub"
  /\ getSafeSubstitution squat "elbow"
     = mkExercise "rest" "Rest (elbow pain)" None None 0 0 0 None
  /\ Slot.returned
       (generateDailyWorkout constructor user plannedWorkout feedbackC historyA) 0
     = Some (mkExercise "sq_sub" "Glute Bridge" None None 0 3 15 None).
Proof.
  cbv zeta.
  destruct (substitute_identifier constructor user plannedWorkout feedbackC historyA
              "left_knee" 0
              (mkExercise "sq" "Barbell Squat" (Some "compound") (Some ["quads"])
                          100 3 5 (Some 8%Q)))
    as (Hid & _ & _ & Hret).
  destruct (substitute_identifier constructor user plannedWorkout feedbackC historyA
              "elbow" 0
              (mkExercise "sq" "Barbell Squat" (Some "compound") (Some ["quads"])
                          100 3 5 (Some 8%Q)))
    as (_ & Hrest & _).
  split; [apply Hid; left; reflexivity|].
  split; [apply Hrest; reflexivity|].
  rewrite Hret; reflexivity.
Defined.

(** A "back" flag replaces anything whose name contains "Row" by a chest
    supported row at 0.7 of its weight. *)
Lemma back_flag_row (ex : Exercise) :
  includes (name ex) "Row" = true ->
  Slot.substitute "back" ex = Slot.chestSupportedRow ex.
Proof.
  intros Hrow. unfold Slot.substitute. rewrite isExerciseRisky_spec.
  cbn [existsb]. rewrite Hrow. vm_compute (includes (toLowerCase "back") _).
  rewrite !orb_true_r. reflexivity.
Qed.

(** C10, as stated, fails for the returned slot when the history holds a
    record keyed by the doubly suffixed id: load progression then carries
    over the record's weight (40), which is not 0.7 x 0.7 x 60. *)
Lemma back_flag_twice_counterexample :
  let history := [mkExercisePerformance "row_sub_sub" 40 10 3 8] in
  let feedback := mkFeedback (Some 7%Q) (Some 2%Q) (Some "Low") (Some ["back"; "back"]) in
  map (fun ex => (id ex, name ex, weight ex))
      (Slot.returnedExercises
         (generateDailyWorkout constructor user plannedWorkout feedback history))
  = [("sq", "Barbell Squat", 100%Q); ("bp", "Bench Press", 80%Q);
     ("row_sub_sub", "Chest Supported Row", 40%Q)]
  /\ ~ (40 == 60 * 0.7 * 0.7)%Q.
Proof. split; [reflexivity | intros H; discriminate H]. Qed.

(** C10, amended.  "Chest Supported Row" itself matches the back risk list,
    so for a slot whose name contains "Row" and the pain flags "back", "back"
    the safety check substitutes the slot twice: after it the slot is named
    "Chest Supported Row", weighs 0.7 x 0.7 times the original weight (3 sets
    of 10) and has the original id with "_sub" appended twice.  The returned
    slot has that name and id; it has that weight unless load progression
    runs (readiness at least 40) and finds a performance record keyed by the
    new id.  On the plan of the test script the two substitutions show as
    two explanations, the second replacing the substitute by itself. *)
Theorem back_flag_twice (this : Engine) (userProfile : User)
    (plannedWorkout' : Workout) (dailyFeedback : Feedback)
    (lastPerformances : list ExercisePerformance)
    (index : nat) (planned : Exercise) :
  painFlags dailyFeedback = Some ["back"; "back"] ->
  exercises plannedWorkout' !! index = Some planned ->
  includes (name planned) "Row" = true ->
  let readiness := calculateReadiness this dailyFeedback in
  Slot.safety ["back"; "back"] planned
  = mkExercise (id planned ++ "_sub_sub")%string "Chest Supported Row" None None
               (weight planned * 0.7 * 0.7) 3 10 None
  /\ (exists ex',
        Slot.returned
          (generateDailyWorkout this userProfile plannedWorkout' dailyFeedback
             lastPerformances) index = Some ex'
        /\ name ex' = "Chest Supported Row"
        /\ id ex' = (id planned ++ "_sub_sub")%string
        /\ (readiness < 40
            \/ Slot.lookupPerformance lastPerformances (id planned ++ "_sub_sub") = None ->
            weight ex' = (weight planned * 0.7 * 0.7)%Q))
  /\ map (fun e => (originalExercise (context e), newExercise (context e)))
         (Slot.returnedExplanations
            (generateDailyWorkout constructor user plannedWorkout
               (mkFeedback (Some 7%Q) (Some 2%Q) (Some "Low") (Some ["back"; "back"]))
               []))
     = [(Some "Barbell Row", Some "Chest Supported Row");
        (Some "Chest Supported Row", Some "Chest Supported Row")].
Proof.
  intros Hflags Hslot Hrow readiness.
  assert (Hsafe : Slot.safety ["back"; "back"] planned
                  = mkExercise (id planned ++ "_sub_sub")%string "Chest Supported Row"
                      None None (weight planned * 0.7 * 0.7) 3 10 None).
  { cbn [Slot.safety fold_left]. rewrite (back_flag_row planned Hrow).
    rewrite back_flag_row by reflexivity.
    unfold Slot.chestSupportedRow. cbn [id weight]. rewrite append_assoc. reflexivity. }
  split; [exact Hsafe | split; [| reflexivity]].
  rewrite (returned_slot _ _ _ _ _ _ index Hflags), Hslot.
  cbn [fmap option_fmap option_map]. eexists. split; [reflexivity|].
  unfold Slot.adjust. rewrite Hsafe. fold readiness.
  set (sub := mkExercise _ _ _ _ _ _ _ _).
  destruct (load_keeps readiness lastPerformances (Slot.volume readiness sub))
    as (Hid & Hn & _).
  destruct (volume_keeps readiness sub) as (Hid' & Hn' & Hw' & _).
  rewrite Hn, Hn', Hid, Hid'. repeat split.
  intros [Hlow | Hnone].
  - unfold Slot.load. destruct (Z.leb_spec 40 readiness); [lia | exact Hw'].
  - rewrite load_unmatched; [exact Hw' | rewrite Hid'; exact Hnone].
Qed.

(** [back_flag_twice] on the Row slot of the test plan, with no history. *)
Lemma back_flag_twice_witness :
  exists ex',
    Slot.returned
      (generateDailyWorkout constructor user plannedWorkout
         (mkFeedback (Some 7%Q) (Some 2%Q) (Some "Low") (Some ["back"; "back"])) []) 2
    = Some ex'
    /\ id ex' = "row_sub_sub" /\ (weight ex' == 29.4)%Q.
Proof.
  destruct (back_flag_twice constructor user plannedWorkout
              (mkFeedback (Some 7%Q) (Some 2%Q) (Some "Low") (Some ["back"; "back"])) []
              2 (mkExercise "row" "Barbell Row" (Some "compound") (Some ["back"])
                            60 3 10 (Some 8%Q)))
    as (_ & (ex' & Hret & _ & Hid & Hw) & _).
  - reflexivity.
  - reflexivity.
  - reflexivity.
  - exists ex'. split; [exact Hret|]. split; [exact Hid|].
    rewrite Hw; [reflexivity | right; reflexivity].
Defined.

End InjuryProps.

(** ** Rounding of adjusted weights *)

Module RoundingProps.

Import PipelineProps SlotProps.

(** Rounding to the plate step: the result is a multiple of 2.5 and the
    nearest one, a tie going up. *)
Lemma round_to_step (x : Q) :
  let w := (inject_Z (Math_round (x / 2.5)) * 2.5)%Q in
  Slot.multipleOfStep w /\ (x - 1.25 < w)%Q /\ (w <= x + 1.25)%Q.
Proof.
  cbv zeta. split.
  - exists (Math_round (x / 2.5)). reflexivity.
  - unfold Math_round.
    pose proof (Qfloor_le (x / 2.5 + 0.5)) as Hle.
    pose proof (Qlt_floor (x / 2.5 + 0.5)) as Hlt.
    rewrite inject_Z_plus in Hlt. change (inject_Z 1) with 1%Q in Hlt.
    generalize dependent (inject_Z (Qfloor (x / 2.5 + 0.5))). intros n Hle Hlt.
    assert (Hx : (x == (x / 2.5) * 2.5)%Q) by field.
    generalize dependent (x / 2.5)%Q. intros y Hle Hlt Hx.
    split; lra.
Qed.

(** The same with both bounds inclusive, which holds of either neighbour
    at a tie. *)
Lemma round_to_nearest_step (x : Q) :
  let w := (inject_Z (Math_round (x / 2.5)) * 2.5)%Q in
  Slot.multipleOfStep w /\ (x - 1.25 <= w)%Q /\ (w <= x + 1.25)%Q.
Proof.
  destruct (round_to_step x) as (Hmultiple & Hlow & Hhigh).
  cbv zeta in *. split; [exact Hmultiple|]. split; [apply Qlt_le_weak, Hlow | exact Hhigh].
Qed.

Section OnDoubles.

Import PrimFloat.

#[local] Set Warnings "-inexact-float".

(** The rounding on binary64, the numbers JavaScript computes with, for the
    record weights 0, 2.5, ..., 1000 (0 to 400 plate steps) and both
    factors: the result is a whole number of plate steps at most 1.25 away
    from the exact scaled weight.  It is the result of the exact arithmetic
    except on LOAD_INCREASE at the record weights 50, 350, 450, 650, 750,
    850 and 950, where the exact scaled weight is a tie and the binary64
    product falls short of it: there JavaScript returns one step less than
    the exact arithmetic (50 for a record of 50, where the exact arithmetic
    gives 52.5). *)
Lemma rounded_on_doubles :
  let steps := map Z.of_nat (seq 0 401) in
  let onDoubles (factor : float) (k : Z) :=
    Double.roundToStep (Double.scale (Double.ofZ k * 2.5)%float factor) in
  let exact (factor : Q) (k : Z) :=
    (inject_Z (Math_round (inject_Z k * 2.5 * factor / 2.5)) * 2.5)%Q in
  let nearest (factor : float) (factor' : Q) (k : Z) :=
    match Double.toQ (onDoubles factor k) with
    | Some w =>
        (Qeq_bool w (inject_Z (Qfloor (w / 2.5)) * 2.5)
         && Qle_bool (inject_Z k * 2.5 * factor' - 1.25) w
         && Qle_bool w (inject_Z k * 2.5 * factor' + 1.25))%bool
    | None => false
    end in
  let differs (factor : float) (factor' : Q) (k : Z) :=
    match Double.toQ (onDoubles factor k) with
    | Some w => negb (Qeq_bool w (exact factor' k))
    | None => true
    end in
  forallb (nearest 1.025%float 1.025%Q) steps = true
  /\ forallb (nearest 0.95%float 0.95%Q) steps = true
  /\ List.filter (differs 1.025%float 1.025%Q) steps
     = [20; 140; 180; 260; 300; 340; 380]
  /\ List.filter (differs 0.95%float 0.95%Q) steps = []
  /\ forallb (fun k => match Double.toQ (onDoubles 1.025%float k) with
                       | Some w => Qeq_bool (w + 2.5) (exact 1.025%Q k)
                       | None => false
                       end)
             [20; 140; 180; 260; 300; 340; 380] = true
  /\ onDoubles 1.025%float 20 = 50%float
  /\ (exact 1.025%Q 20%Z == 52.5)%Q.
Proof. vm_compute. repeat split. Qed.

End OnDoubles.

Lemma not_multiple_81 : ~ Slot.multipleOfStep 81.
Proof. intros [n H]. unfold Qeq in H. cbn in H. lia. Qed.

Lemma not_multiple_42 : ~ Slot.multipleOfStep (60 * 0.7).
Proof. intros [n H]. unfold Qeq in H. cbn in H. lia. Qed.

(** C3, as stated, fails on the plan of the test script with the pain flag
    "back" and a performance record of 81 at RPE 8 for the Bench Press.
    The Bench Press slot comes back at 81 (MAINTENANCE carries the last-used
    weight over, the plan said 80) and the Row slot at 60 x 0.7 = 42 (the
    back-pain substitute, the plan said 60); neither is a multiple of 2.5. *)
Lemma adjusted_weight_counterexample :
  let feedback := mkFeedback (Some 8%Q) (Some 2%Q) (Some "Low") (Some ["back"]) in
  let history := [mkExercisePerformance "bp" 81 5 3 8] in
  map (fun ex => (name ex, weight ex))
      (Slot.returnedExercises
         (generateDailyWorkout constructor user plannedWorkout feedback history))
  = [("Barbell Squat", 100%Q); ("Bench Press", 81%Q);
     ("Chest Supported Row", (60 * 0.7)%Q)]
  /\ map weight (exercises plannedWorkout) = [100%Q; 80%Q; 60%Q]
  /\ adjustmentType (adjustLoad 81 8 (Some 8%Q) (Some (lt 5 (inject_Z 5)))) = MAINTENANCE
  /\ ~ Slot.multipleOfStep 81
  /\ ~ Slot.multipleOfStep (60 * 0.7).
Proof.
  split; [reflexivity | split; [reflexivity | split; [reflexivity | split]]].
  - exact not_multiple_81.
  - exact not_multiple_42.
Qed.

(** C3, amended.  In the result of [generateDailyWorkout], a weight that
    load autoregulation changes (LOAD_INCREASE or LOAD_DECREASE for the
    slot's performance record, readiness at least 40) is the scaled weight
    rounded to a nearest 2.5: it is an integer multiple of 2.5 at most 1.25
    away from the scaled weight.  Where the scaled weight lies exactly
    between two multiples (51.25 for a record of 50 on LOAD_INCREASE) the
    statement leaves open which of the two is taken: the exact arithmetic of
    this development takes the upper one, the binary64 arithmetic of
    JavaScript falls short of the tie and takes the lower one (see
    [rounded_on_doubles]).  On MAINTENANCE the slot takes the last-used
    weight as recorded, and with no record (or readiness below 40) it keeps
    the weight it has after the safety check (the planned weight, 0, or 0.7
    times the planned weight for the back-pain substitute); these are not
    rounded. *)
Theorem adjusted_weight_rounded (this : Engine) (userProfile : User)
    (plannedWorkout' : Workout) (dailyFeedback : Feedback)
    (lastPerformances : list ExercisePerformance)
    (flags : list string) (index : nat) (planned : Exercise) :
  painFlags dailyFeedback = Some flags ->
  exercises plannedWorkout' !! index = Some planned ->
  let readiness := calculateReadiness this dailyFeedback in
  let current := Slot.volume readiness (Slot.safety flags planned) in
  exists ex',
    Slot.returned
      (generateDailyWorkout this userProfile plannedWorkout' dailyFeedback
         lastPerformances) index = Some ex'
    /\ match (if 40 <=? readiness
              then Slot.lookupPerformance lastPerformances (id current)
              else None) with
       | Some lastPerf =>
           let adjustment :=
             adjustLoad (perf_weight lastPerf) (rpe lastPerf) (rpeTarget current)
               (Some (lt (completedReps lastPerf) (inject_Z (reps current)))) in
           (adjustmentType adjustment <> MAINTENANCE ->
            Slot.multipleOfStep (weight ex')
            /\ (newWeight adjustment - 1.25 <= weight ex')%Q
            /\ (weight ex' <= newWeight adjustment + 1.25)%Q)
           /\ (adjustmentType adjustment = MAINTENANCE ->
               weight ex' = perf_weight lastPerf)
       | None => weight ex' = weight (Slot.safety flags planned)
       end.
Proof.
  intros Hflags Hslot readiness current.
  rewrite (returned_slot _ _ _ _ _ _ index Hflags), Hslot.
  cbn [fmap option_fmap option_map]. eexists. split; [reflexivity|].
  unfold Slot.adjust. fold readiness. fold current. unfold Slot.load.
  destruct (40 <=? readiness).
  - unfold progressLoad, Slot.lookupPerformance.
    destruct (find _ lastPerformances) as [lastPerf |].
    + cbv zeta.
      destruct (adjustmentType (adjustLoad _ _ _ _)) eqn:Htype; cbn [negb AdjustmentType_eqb fst];
        (split; [intros Hchange | intros Hkeep; try discriminate Hkeep]);
        try (exfalso; apply Hchange; reflexivity);
        try (cbn [weight set_weight]; apply round_to_nearest_step);
        reflexivity.
    + cbn [fst]. subst current.
      destruct (volume_keeps readiness (Slot.safety flags planned)) as (_ & _ & Hw & _).
      exact Hw.
  - subst current.
    destruct (volume_keeps readiness (Slot.safety flags planned)) as (_ & _ & Hw & _).
    exact Hw.
Qed.

(** [adjusted_weight_rounded] at the progression scenario of the test
    script: the Squat record (100 at RPE 7) gives LOAD_INCREASE, and the slot
    comes back at a multiple of 2.5 near 102.5. *)
Lemma adjusted_weight_rounded_witness :
  exists ex',
    Slot.returned
      (generateDailyWorkout constructor user plannedWorkout feedbackA historyA) 0
    = Some ex'
    /\ Slot.multipleOfStep (weight ex')
    /\ (100 * 1.025 - 1.25 <= weight ex')%Q
    /\ (weight ex' <= 100 * 1.025 + 1.25)%Q.
Proof.
  destruct (adjusted_weight_rounded constructor user plannedWorkout feedbackA historyA
              [] 0
              (mkExercise "sq" "Barbell Squat" (Some "compound") (Some ["quads"])
                          100 3 5 (Some 8%Q)) eq_refl eq_refl)
    as (ex' & Hret & Hmatch).
  exists ex'. split; [exact Hret|].
  apply Hmatch. discriminate.
Defined.

End RoundingProps.

(** ** Input validation *)

Module ValidationProps.

Import Reading PipelineProps SlotProps PartialProps.

(** An absent reading meets no threshold: the score is the one of a reading
    that triggers no rule (a sleep quality of 7, a soreness of 0, a stress
    level "Low"). *)
Lemma calculateReadiness_absent (this : Engine) (sleep sore : option Q)
    (stress : option string) (flags : option (list string)) :
  calculateReadiness this (mkFeedback None sore stress flags)
  = calculateReadiness this (mkFeedback (Some 7%Q) sore stress flags)
  /\ calculateReadiness this (mkFeedback sleep None stress flags)
     = calculateReadiness this (mkFeedback sleep (Some 0%Q) stress flags)
  /\ calculateReadiness this (mkFeedback sleep sore None flags)
     = calculateReadiness this (mkFeedback sleep sore (Some "Low") flags).
Proof. repeat split. Qed.

(** C1, as stated, fails: the engine validates nothing.  On the plan of the
    test script,
    (1) feedback with no sleepQuality is accepted, and the Squat comes back
        adjusted to 102.5;
    (2) a sleep quality of 8 and a soreness of 0, outside the documented
        1-5 scale, are accepted, with the bonus for [sleepQuality >= 8]
        applied (readiness 85);
    (3) a workout with no exercises is accepted, a volume reduction is
        explained, and an empty workout is returned. *)
Lemma invalid_input_counterexample :
  (exists d,
     generateDailyWorkout constructor user plannedWorkout
       (mkFeedback None (Some 2%Q) (Some "Low") (Some [])) historyA = Ok d
     /\ readinessScore d = 80
     /\ map weight (exercises (decision_workout d)) = [102.5%Q; 80%Q; 60%Q])
  /\ (exists d,
        generateDailyWorkout constructor user plannedWorkout
          (mkFeedback (Some 8%Q) (Some 0%Q) (Some "Low") (Some [])) historyA = Ok d
        /\ readinessScore d = 85
        /\ map weight (exercises (decision_workout d)) = [102.5%Q; 80%Q; 60%Q])
  /\ (exists d,
        generateDailyWorkout constructor user (set_exercises [] plannedWorkout)
          feedbackB historyA = Ok d
        /\ exercises (decision_workout d) = []
        /\ map template (explanations d) = [EnergySaver]).
Proof.
  split; [| split]; eexists; (split; [reflexivity|]); split; reflexivity.
Qed.

(** C1, amended.  [generateDailyWorkout] validates neither the feedback
    values nor the workout: it fails only where it reads a property of a
    missing object.  Take feedback whose fields are each absent or of their
    type, and a workout whose [exercises] is absent or a list of exercises
    whose [name] is absent or a string.  The call throws (a [TypeError])
    exactly when the feedback has no painFlags, or the workout has no
    [exercises], or some pain flag is recognised (lower-cased it contains
    "knee", "shoulder" or "back") while some exercise has no name.  In every
    other case it returns a decision: the readiness is computed from the fields
    as they are (an absent sleepQuality, soreness or stressLevel meets no
    threshold and scores like a reading that triggers no rule; a value outside
    1-5 is compared like any other), and the returned workout has one slot per
    planned slot, none for a workout with an empty list.  On a workout whose
    exercises all have a name the decision is that of
    [TrainingEngine.generateDailyWorkout]. *)
Theorem fails_on_missing_objects_only (this : Engine) (userProfile : User)
    (plannedWorkout' : Partial.Workout) (dailyFeedback : Feedback)
    (lastPerformances : list ExercisePerformance) :
  let call := Partial.generateDailyWorkout this userProfile plannedWorkout'
                dailyFeedback lastPerformances in
  ((exists message, call = Throw message)
   <-> (painFlags dailyFeedback = None
        \/ Partial.exercises plannedWorkout' = None
        \/ exists flags exs,
             painFlags dailyFeedback = Some flags
             /\ Partial.exercises plannedWorkout' = Some exs
             /\ existsb recognised flags = true
             /\ existsb Complete.nameless exs = true))
  /\ (forall d, call = Ok d ->
        Partial.readinessScore d = calculateReadiness this dailyFeedback
        /\ exists exs exs',
             Partial.exercises plannedWorkout' = Some exs
             /\ Partial.exercises (Partial.decision_workout d) = Some exs'
             /\ length exs' = length exs)
  /\ (forall complete : Workout,
        Partial.generateDailyWorkout this userProfile (Complete.workout complete)
          dailyFeedback lastPerformances
        = Complete.outcome
            (generateDailyWorkout this userProfile complete dailyFeedback
               lastPerformances))
  /\ calculateReadiness this
       (mkFeedback None (soreness dailyFeedback) (stressLevel dailyFeedback)
                   (painFlags dailyFeedback))
     = calculateReadiness this
         (mkFeedback (Some 7%Q) (soreness dailyFeedback) (stressLevel dailyFeedback)
                     (painFlags dailyFeedback))
  /\ calculateReadiness this
       (mkFeedback (sleepQuality dailyFeedback) None (stressLevel dailyFeedback)
                   (painFlags dailyFeedback))
     = calculateReadiness this
         (mkFeedback (sleepQuality dailyFeedback) (Some 0%Q)
                     (stressLevel dailyFeedback) (painFlags dailyFeedback))
  /\ calculateReadiness this
       (mkFeedback (sleepQuality dailyFeedback) (soreness dailyFeedback) None
                   (painFlags dailyFeedback))
     = calculateReadiness this
         (mkFeedback (sleepQuality dailyFeedback) (soreness dailyFeedback)
                     (Some "Low") (painFlags dailyFeedback)).
Proof.
  cbv zeta.
  pose proof (generateDailyWorkout_outcome this userProfile plannedWorkout'
                dailyFeedback lastPerformances) as Hout.
  cbv zeta in Hout.
  split; [| split; [| split; [intros complete; apply agrees
                             | apply calculateReadiness_absent]]].
  - destruct (painFlags dailyFeedback) as [flags |];
      [| split; [intros _; left; reflexivity | intros _; exact Hout]].
    destruct (Partial.exercises plannedWorkout') as [exs |];
      [| split; [intros _; right; left; reflexivity | intros _; exact Hout]].
    destruct (existsb recognised flags) eqn:Hflags,
      (existsb Complete.nameless exs) eqn:Hnameless; cbn [andb] in Hout.
    1: { split; [intros _ | intros _; exact Hout].
         right. right. exists flags, exs. repeat split; assumption. }
    all: destruct Hout as (exs' & pushed & Hcall & _); rewrite Hcall; split;
      [intros [message H]; discriminate H
      | intros [H | [H | (flags' & exs0 & Hf & He & Hr & Hn)]];
        try discriminate H;
        injection Hf as <-; injection He as <-; congruence].
  - intros d Hd.
    destruct (painFlags dailyFeedback) as [flags |];
      [| destruct Hout as [message Hthrow]; congruence].
    destruct (Partial.exercises plannedWorkout') as [exs |] eqn:Hexs;
      [| destruct Hout as [message Hthrow]; congruence].
    destruct (existsb recognised flags && existsb Complete.nameless exs)%bool;
      [destruct Hout as [message Hthrow]; congruence|].
    destruct Hout as (exs' & pushed & Hcall & Hlen).
    rewrite Hcall in Hd. injection Hd as <-.
    split; [reflexivity|]. exists exs, exs'. repeat split; assumption.
Qed.

(** [fails_on_missing_objects_only] at the plan of the test script: with
    feedback that has no painFlags the call throws; with the Squat's name
    taken away it throws under the flag "left_knee" and returns under the
    flag "elbow"; with the plan as it is it returns in the recovery scenario,
    with a readiness of 55. *)
Lemma fails_on_missing_objects_only_witness :
  let nameless :=
    Partial.mkWorkout "w1" "u1" "Full Body A"
      (Some [Partial.mkExercise "sq" None (Some "compound") (Some ["quads"])
                                100 3 5 (Some 8%Q)])
      "2024-01-01T00:00:00.000Z" in
  (exists message,
     Partial.generateDailyWorkout constructor user (Complete.workout plannedWorkout)
       (mkFeedback (Some 5%Q) (Some 3%Q) (Some "High") None) historyA
     = Throw message)
  /\ (exists message,
        Partial.generateDailyWorkout constructor user nameless feedbackC historyA
        = Throw message)
  /\ (exists d,
        Partial.generateDailyWorkout constructor user nameless
          (mkFeedback (Some 7%Q) (Some 2%Q) (Some "Low") (Some ["elbow"])) historyA
        = Ok d)
  /\ (exists d,
        Partial.generateDailyWorkout constructor user (Complete.workout plannedWorkout)
          feedbackB historyA = Ok d
        /\ Partial.readinessScore d = 55).
Proof.
  cbv zeta. split; [| split; [| split]].
  - destruct (fails_on_missing_objects_only constructor user
                (Complete.workout plannedWorkout)
                (mkFeedback (Some 5%Q) (Some 3%Q) (Some "High") None) historyA)
      as ([_ Hthrow] & _).
    apply Hthrow. left. reflexivity.
  - destruct (fails_on_missing_objects_only constructor user
                (Partial.mkWorkout "w1" "u1" "Full Body A"
                   (Some [Partial.mkExercise "sq" None (Some "compound")
                            (Some ["quads"]) 100 3 5 (Some 8%Q)])
                   "2024-01-01T00:00:00.000Z")
                feedbackC historyA) as ([_ Hthrow] & _).
    apply Hthrow. right. right. do 2 eexists. repeat split; reflexivity.
  - eexists. reflexivity.
  - destruct (fails_on_missing_objects_only constructor user
                (Complete.workout plannedWorkout) feedbackB historyA)
      as (_ & Hok & _).
    eexists. split; [reflexivity|].
    destruct (Hok _ eq_refl) as [Hready _]. rewrite Hready. reflexivity.
Defined.

End ValidationProps.

(** ** The engine over the store *)

Module StoreProps.

Import Store StoreView PipelineProps SlotProps.

Local Open Scope nat_scope.

(** *** Running computations *)

Lemma bind_ok {A B} (m : M A) (k : A -> M B) (s s' : store) (a : A) :
  m s = (Ok a, s') -> bind m k s = k a s'.
Proof. unfold bind. intros ->. reflexivity. Qed.

Lemma bind_throw {A B} (m : M A) (k : A -> M B) (s s' : store) (message : string) :
  m s = (Throw message, s') -> bind m k s = (Throw message, s').
Proof. unfold bind. intros ->. reflexivity. Qed.

(** Run the first computation of a [bind] whose outcome [H] gives. *)
Tactic Notation "run" uconstr(H) := rewrite (bind_ok _ _ _ _ _ H).

Lemma getExercise_ok (s : store) (l : loc) (ex : Exercise) :
  s !! l = Some (ExerciseObject ex) -> getExercise l s = (Ok ex, s).
Proof. intros H. unfold getExercise, bind, deref. rewrite H. reflexivity. Qed.

Lemma getArray_ok (s : store) (l : loc) (elements : list loc) :
  s !! l = Some (ArrayObject elements) -> getArray l s = (Ok elements, s).
Proof. intros H. unfold getArray, bind, deref. rewrite H. reflexivity. Qed.

Lemma getWorkout_ok (s : store) (l : loc) (o : WorkoutObject) :
  s !! l = Some (WorkoutObj o) -> getWorkout l s = (Ok o, s).
Proof. intros H. unfold getWorkout, bind, deref. rewrite H. reflexivity. Qed.

(** *** Reading leaves the store alone, and is stable under allocation *)

Lemma reads_ret {A} (a : A) : reads (ret a).
Proof. intros s. split; [reflexivity | intros a' t H; exact H]. Qed.

Lemma reads_throw {A} (message : string) : reads (@throw A message).
Proof. intros s. split; [reflexivity | intros a t H; discriminate H]. Qed.

Lemma reads_bind {A B} (m : M A) (k : A -> M B) :
  reads m -> (forall a, reads (k a)) -> reads (bind m k).
Proof.
  intros Hm Hk s. destruct (Hm s) as [Hs Hext]. unfold bind.
  destruct (m s) as [[a | message] s1] eqn:Hrun; cbn in Hs; subst s1.
  - destruct (Hk a s) as [Hs' Hext']. split; [exact Hs'|].
    intros b t Hb. specialize (Hext a t eq_refl).
    destruct (Hm (s ++ t)) as [Hst _].
    destruct (m (s ++ t)) as [r st] eqn:Hrun'. cbn in Hext, Hst. subst r st.
    apply Hext', Hb.
  - split; [reflexivity | intros b t Hb; discriminate Hb].
Qed.

Lemma reads_deref (l : loc) : reads (deref l).
Proof.
  intros s. unfold deref. split.
  - destruct (s !! l); reflexivity.
  - intros o t. destruct (s !! l) as [o' |] eqn:Hl; [| intros H; discriminate H].
    rewrite (lookup_app_l_Some _ _ _ _ Hl). intros H; exact H.
Qed.

Lemma reads_getExercise (l : loc) : reads (getExercise l).
Proof.
  apply reads_bind; [apply reads_deref|].
  intros [ex | elements | w]; first [apply reads_ret | apply reads_throw].
Qed.

Lemma reads_getArray (l : loc) : reads (getArray l).
Proof.
  apply reads_bind; [apply reads_deref|].
  intros [ex | elements | w]; first [apply reads_ret | apply reads_throw].
Qed.

Lemma reads_getWorkout (l : loc) : reads (getWorkout l).
Proof.
  apply reads_bind; [apply reads_deref|].
  intros [ex | elements | w]; first [apply reads_ret | apply reads_throw].
Qed.

Lemma reads_getExercises (ls : list loc) : reads (getExercises ls).
Proof.
  induction ls as [| l ls IH]; cbn [getExercises]; [apply reads_ret|].
  apply reads_bind; [apply reads_getExercise|]. intros ex.
  apply reads_bind; [exact IH|]. intros exs. apply reads_ret.
Qed.

Lemma reads_JSON_stringify (w : loc) : reads (JSON_stringify w).
Proof.
  unfold JSON_stringify.
  apply reads_bind; [apply reads_getWorkout|]. intros o.
  apply reads_bind; [apply reads_getArray|]. intros elements.
  apply reads_bind; [apply reads_getExercises|]. intros exs. apply reads_ret.
Qed.

(** *** Writing above a mark keeps what is below it *)

Lemma prefix_assign (s0 s : store) (l : loc) (o : object) :
  s0 `prefix_of` s -> length s0 <= l -> s0 `prefix_of` <[l := o]> s.
Proof.
  intros [t ->] Hl. rewrite insert_app_r_alt by exact Hl.
  apply prefix_app_r. reflexivity.
Qed.

Lemma prefix_alloc (s0 s t : store) : s0 `prefix_of` s -> s0 `prefix_of` s ++ t.
Proof. apply prefix_app_r. Qed.

(** *** The working copy as a value *)

Lemma set_exercises_same (v : Workout) : set_exercises (exercises v) v = v.
Proof. destruct v. reflexivity. Qed.

Lemma owned_length mark s elements exs :
  owned mark s elements exs -> length elements = length exs.
Proof. intros [_ H]. exact (Forall2_length _ _ _ H). Qed.

Lemma owned_lookup mark s elements exs index l :
  owned mark s elements exs -> elements !! index = Some l ->
  exists ex, exs !! index = Some ex /\ mark <= l /\ s !! l = Some (ExerciseObject ex).
Proof. intros [_ H] Hl. exact (Forall2_lookup_l _ _ _ _ _ H Hl). Qed.

Lemma represents_alloc mark s t w arr v :
  represents mark s w arr v -> represents mark (s ++ t) w arr v.
Proof.
  intros (Hw & Harr & Hsw & elements & Hsa & Hnd & Hall).
  repeat split; try assumption.
  - apply lookup_app_l_Some, Hsw.
  - exists elements. split; [apply lookup_app_l_Some, Hsa|]. split; [exact Hnd|].
    eapply Forall2_impl; [exact Hall|]. cbn. intros l ex [Hm Hl].
    split; [exact Hm | apply lookup_app_l_Some, Hl].
Qed.

(** Assigning a field of the exercise object in slot [index]. *)
Lemma represents_assign_exercise mark s w arr v elements index l ex' :
  represents mark s w arr v ->
  s !! arr = Some (ArrayObject elements) ->
  elements !! index = Some l ->
  represents mark (<[l := ExerciseObject ex']> s) w arr
             (set_exercises (<[index := ex']> (exercises v)) v).
Proof.
  intros (Hw & Harr & Hsw & elements' & Hsa & Hown) Hsa' Hl.
  rewrite Hsa in Hsa'. injection Hsa' as ->.
  destruct (owned_lookup _ _ _ _ _ _ Hown Hl) as (ex & Hex & Hml & Hsl).
  assert (Hlw : l <> w) by (intros ->; congruence).
  assert (Hla : l <> arr) by (intros ->; congruence).
  destruct Hown as [Hnd Hall].
  repeat split; try assumption.
  - rewrite list_lookup_insert_ne by exact Hlw. exact Hsw.
  - exists elements. split; [rewrite list_lookup_insert_ne by exact Hla; exact Hsa|].
    split; [exact Hnd|]. cbn [exercises set_exercises].
    apply Forall2_same_length_lookup_2.
    + rewrite length_insert. exact (Forall2_length _ _ _ Hall).
    + intros j lj exj Hlj Hexj.
      destruct (decide (j = index)) as [-> | Hne].
      * rewrite Hl in Hlj. injection Hlj as <-.
        rewrite list_lookup_insert_eq in Hexj
          by (apply lookup_lt_Some in Hex; exact Hex).
        injection Hexj as <-. split; [exact Hml|].
        apply list_lookup_insert_eq. apply lookup_lt_Some in Hsl. exact Hsl.
      * rewrite list_lookup_insert_ne in Hexj by (intros ->; apply Hne; reflexivity).
        destruct (Forall2_lookup_lr _ _ _ _ _ _ Hall Hlj Hexj) as [Hm Hs].
        split; [exact Hm|].
        rewrite list_lookup_insert_ne; [exact Hs|].
        intros ->. apply Hne. symmetry. exact (NoDup_lookup _ _ _ _ Hnd Hl Hlj).
Qed.

(** Replacing slot [index] of the array by a newly allocated object. *)
Lemma represents_assign_slot mark s w arr v elements index sub :
  represents mark s w arr v ->
  s !! arr = Some (ArrayObject elements) ->
  index < length elements ->
  mark <= length s ->
  represents mark
    (<[arr := ArrayObject (<[index := length s]> elements)]> (s ++ [ExerciseObject sub]))
    w arr (set_exercises (<[index := sub]> (exercises v)) v).
Proof.
  intros (Hw & Harr & Hsw & elements' & Hsa & Hown) Hsa' Hindex Hmark.
  rewrite Hsa in Hsa'. injection Hsa' as ->.
  assert (Hwa : arr <> w) by (intros ->; congruence).
  destruct Hown as [Hnd Hall].
  assert (Hbelow : forall j lj, elements !! j = Some lj -> lj < length s /\ lj <> arr).
  { intros j lj Hlj.
    destruct (Forall2_lookup_l _ _ _ _ _ Hall Hlj) as (exj & _ & _ & Hs).
    split; [apply lookup_lt_Some in Hs; exact Hs | intros ->; congruence]. }
  repeat split; try assumption.
  - rewrite list_lookup_insert_ne by exact Hwa. apply lookup_app_l_Some, Hsw.
  - exists (<[index := length s]> elements). split; [| split].
    + apply list_lookup_insert_eq. rewrite length_app. apply lookup_lt_Some in Hsa. lia.
    + apply NoDup_alt. intros i j x Hi Hj.
      destruct (decide (i = index)) as [-> | Hi'], (decide (j = index)) as [-> | Hj'];
        [reflexivity | | |].
      * rewrite list_lookup_insert_eq in Hi by exact Hindex. injection Hi as <-.
        rewrite list_lookup_insert_ne in Hj by (intros ->; apply Hj'; reflexivity).
        destruct (Hbelow _ _ Hj). lia.
      * rewrite list_lookup_insert_eq in Hj by exact Hindex. injection Hj as <-.
        rewrite list_lookup_insert_ne in Hi by (intros ->; apply Hi'; reflexivity).
        destruct (Hbelow _ _ Hi). lia.
      * rewrite list_lookup_insert_ne in Hi by (intros ->; apply Hi'; reflexivity).
        rewrite list_lookup_insert_ne in Hj by (intros ->; apply Hj'; reflexivity).
        exact (NoDup_lookup _ _ _ _ Hnd Hi Hj).
    + cbn [exercises set_exercises]. apply Forall2_same_length_lookup_2.
      * rewrite !length_insert. exact (Forall2_length _ _ _ Hall).
      * intros j lj exj Hlj Hexj.
        destruct (decide (j = index)) as [-> | Hne].
        -- rewrite list_lookup_insert_eq in Hlj by exact Hindex. injection Hlj as <-.
           rewrite list_lookup_insert_eq in Hexj
             by (rewrite <- (Forall2_length _ _ _ Hall); exact Hindex).
           injection Hexj as <-. split; [exact Hmark|].
           rewrite list_lookup_insert_ne
             by (apply lookup_lt_Some in Hsa; lia).
           apply list_lookup_middle. reflexivity.
        -- rewrite list_lookup_insert_ne in Hlj by (intros ->; apply Hne; reflexivity).
           rewrite list_lookup_insert_ne in Hexj by (intros ->; apply Hne; reflexivity).
           destruct (Forall2_lookup_lr _ _ _ _ _ _ Hall Hlj Hexj) as [Hm Hs].
           destruct (Hbelow _ _ Hlj) as [_ Hna].
           split; [exact Hm|].
           rewrite list_lookup_insert_ne by (intros ->; apply Hna; reflexivity).
           apply lookup_app_l_Some, Hs.
Qed.

(** Reading the working copy as a value. *)
Lemma getExercises_owned mark s elements exs :
  owned mark s elements exs -> getExercises elements s = (Ok exs, s).
Proof.
  intros [_ Hall]. induction Hall as [| l ex elements exs [_ Hl] _ IH]; [reflexivity|].
  cbn [getExercises].
  rewrite (bind_ok _ _ _ _ _ (getExercise_ok _ _ _ Hl)).
  rewrite (bind_ok _ _ _ _ _ IH). reflexivity.
Qed.

Lemma JSON_stringify_represents mark s w arr v :
  represents mark s w arr v -> JSON_stringify w s = (Ok v, s).
Proof.
  intros (_ & _ & Hsw & elements & Hsa & Hown). unfold JSON_stringify.
  rewrite (bind_ok _ _ _ _ _ (getWorkout_ok _ _ _ Hsw)). cbn [o_exercises].
  rewrite (bind_ok _ _ _ _ _ (getArray_ok _ _ _ Hsa)).
  rewrite (bind_ok _ _ _ _ _ (getExercises_owned _ _ _ _ Hown)).
  unfold ret. cbn. destruct v; reflexivity.
Qed.

(** [JSON.parse] builds a working copy above everything allocated so far. *)
Lemma allocExercises_run (exs : list Exercise) (s : store) :
  allocExercises exs s
  = (Ok (seq (length s) (length exs)), s ++ map ExerciseObject exs).
Proof.
  revert s. induction exs as [| ex exs IH]; intros s; cbn [allocExercises].
  - unfold ret. cbn. rewrite app_nil_r. reflexivity.
  - unfold bind at 1. unfold alloc at 1.
    rewrite (bind_ok _ _ _ _ _ (IH (s ++ [ExerciseObject ex]))).
    unfold ret. rewrite length_app, Nat.add_1_r. cbn.
    rewrite <- app_assoc. reflexivity.
Qed.

Lemma JSON_parse_represents (mark : nat) (v : Workout) (s : store) :
  mark <= length s ->
  exists t w arr,
    JSON_parse v s = (Ok w, s ++ t) /\ represents mark (s ++ t) w arr v.
Proof.
  intros Hmark. unfold JSON_parse.
  rewrite (bind_ok _ _ _ _ _ (allocExercises_run (exercises v) s)).
  unfold bind, alloc.
  set (n := length (exercises v)).
  exists (map ExerciseObject (exercises v)
          ++ [ArrayObject (seq (length s) n)]
          ++ [WorkoutObj (mkWorkoutObject (workout_id v) (userId v) (workout_name v)
                            (length (s ++ map ExerciseObject (exercises v))) (date v))]).
  eexists. exists (length (s ++ map ExerciseObject (exercises v))).
  split.
  - rewrite !app_assoc. reflexivity.
  - rewrite !length_app, !length_map. fold n.
    repeat split.
    + cbn. lia.
    + lia.
    + rewrite !app_assoc. apply list_lookup_middle.
      rewrite !length_app, length_map. cbn. fold n. lia.
    + exists (seq (length s) n). split; [| split].
      * rewrite (app_assoc s). apply list_lookup_middle.
        rewrite length_app, length_map. reflexivity.
      * apply NoDup_seq.
      * apply Forall2_same_length_lookup_2; [apply length_seq|].
        intros j lj exj Hlj Hexj.
        apply lookup_seq in Hlj. destruct Hlj as [-> Hj].
        split; [lia|].
        rewrite app_assoc, lookup_app_l
          by (rewrite length_app, length_map; fold n; lia).
        rewrite lookup_app_r by lia.
        replace (length s + j - length s) with j by lia.
        rewrite list_lookup_fmap, Hexj. reflexivity.
Qed.

(** *** Loops over the exercise array *)

Lemma set_exercises_twice (a b : list Exercise) (v : Workout) :
  set_exercises a (set_exercises b v) = set_exercises a v.
Proof. reflexivity. Qed.

Section Call.

(** The store the call was started in. *)
Variable s0 : store.

Section WorkingCopy.

(** The workout object of the working copy and its exercise array. *)
Variables w arr : loc.

Lemma working_getWorkout s v :
  working s0 s w arr v ->
  getWorkout w s
  = (Ok (mkWorkoutObject (workout_id v) (userId v) (workout_name v) arr (date v)), s).
Proof. intros (_ & _ & _ & Hsw & _). apply getWorkout_ok, Hsw. Qed.

(** The object in a slot, read through the invariant. *)
Lemma working_slot s v elements index l ex :
  working s0 s w arr v ->
  s !! arr = Some (ArrayObject elements) ->
  elements !! index = Some l ->
  exercises v !! index = Some ex ->
  length s0 <= l /\ s !! l = Some (ExerciseObject ex).
Proof.
  intros (_ & _ & _ & _ & elements' & Hsa & Hown) Hsa' Hl Hex.
  rewrite Hsa in Hsa'. injection Hsa' as ->.
  destruct (owned_lookup _ _ _ _ _ _ Hown Hl) as (ex' & Hex' & Hm & Hs).
  rewrite Hex in Hex'. injection Hex' as <-. split; assumption.
Qed.

Lemma working_assign_exercise s v elements index l ex ex' :
  working s0 s w arr v ->
  s !! arr = Some (ArrayObject elements) ->
  elements !! index = Some l ->
  exercises v !! index = Some ex ->
  working s0 (<[l := ExerciseObject ex']> s) w arr
          (set_exercises (<[index := ex']> (exercises v)) v).
Proof.
  intros Hwork Hsa Hl Hex.
  destruct (working_slot _ _ _ _ _ _ Hwork Hsa Hl Hex) as [Hm _].
  destruct Hwork as [Hpre Hrep]. split.
  - apply prefix_assign; assumption.
  - eapply represents_assign_exercise; eassumption.
Qed.

Lemma working_same_slot s v index ex :
  working s0 s w arr v ->
  exercises v !! index = Some ex ->
  working s0 s w arr (set_exercises (<[index := ex]> (exercises v)) v).
Proof.
  intros Hwork Hex. rewrite (list_insert_id _ _ _ Hex), set_exercises_same.
  exact Hwork.
Qed.

Section Loop.

Context {S : Type}.
Variable body : loc -> nat -> S -> M S.
Variable f : Exercise -> Exercise.
Variable g : S -> Exercise -> S.
Hypothesis Hbody : slot_body s0 w arr body f g.

(** The loop from index [length done] on, the slots before it done. *)
Lemma forEach_slots (todo done : list Exercise) (acc : S) (s : store) (v : Workout) :
  exercises v = done ++ todo ->
  working s0 s w arr v ->
  exists s',
    forEach
      (fun index acc =>
         current <- getArray arr ;;
         match current !! index with
         | Some element => body element index acc
         | None => ret acc
         end)
      (seq (length done) (length todo)) acc s
    = (Ok (fold_left g todo acc), s')
    /\ working s0 s' w arr (set_exercises (done ++ map f todo) v).
Proof.
  revert done acc s v.
  induction todo as [| ex todo IH]; intros done acc s v Hexs Hwork.
  - exists s. split; [reflexivity|].
    cbn [map]. rewrite <- Hexs, set_exercises_same. exact Hwork.
  - cbn [length seq forEach fold_left map].
    pose proof Hwork as (_ & _ & _ & _ & elements & Hsa & Hown).
    assert (Hex : exercises v !! length done = Some ex)
      by (rewrite Hexs; apply list_lookup_middle; reflexivity).
    destruct (Forall2_lookup_r _ _ _ _ _ (proj2 Hown) Hex) as (l & Hl & _).
    destruct (Hbody s v elements (length done) l ex acc Hwork Hsa Hl Hex)
      as (s1 & Hrun & Hwork1).
    rewrite Hexs, insert_middle in Hwork1.
    destruct (IH (done ++ [f ex]) (g acc ex) s1
                 (set_exercises (done ++ f ex :: todo) v)) as (s2 & Hrun2 & Hwork2).
    + cbn [exercises set_exercises]. rewrite <- app_assoc. reflexivity.
    + exact Hwork1.
    + exists s2. split.
      * rewrite length_app in Hrun2. cbn [length] in Hrun2.
        rewrite Nat.add_1_r in Hrun2.
        erewrite bind_ok; [exact Hrun2 |].
        run (getArray_ok _ _ _ Hsa). rewrite Hl. exact Hrun.
      * rewrite set_exercises_twice, <- app_assoc in Hwork2. exact Hwork2.
Qed.

(** [forEachElement] with such a body maps [f] over the slots and folds [g]
    over them. *)
Lemma forEachElement_slots (s : store) (v : Workout) (acc : S) :
  working s0 s w arr v ->
  exists s',
    forEachElement arr body acc s = (Ok (fold_left g (exercises v) acc), s')
    /\ working s0 s' w arr (set_exercises (map f (exercises v)) v).
Proof.
  intros Hwork.
  pose proof Hwork as (_ & _ & _ & _ & elements & Hsa & Hown).
  unfold forEachElement. run (getArray_ok _ _ _ Hsa).
  rewrite (owned_length _ _ _ _ Hown).
  exact (forEach_slots (exercises v) [] acc s v eq_refl Hwork).
Qed.

End Loop.

(** The bodies of the two volume loops. *)
Lemma deloadSets_body :
  slot_body s0 w arr (fun ex (_ : nat) (_ : unit) => deloadSets ex)
            Autoregulator.deloadSets (fun acc _ => acc).
Proof.
  intros s v elements index l ex [] Hwork Hsa Hl Hex.
  destruct (working_slot _ _ _ _ _ _ Hwork Hsa Hl Hex) as [Hm Hs].
  eexists. split.
  - unfold deloadSets. run (getExercise_ok _ _ _ Hs). reflexivity.
  - eapply working_assign_exercise; eassumption.
Qed.

Lemma reduceSets_body :
  slot_body s0 w arr (fun ex (_ : nat) (_ : unit) => reduceSets ex)
            Autoregulator.reduceSets (fun acc _ => acc).
Proof.
  intros s v elements index l ex [] Hwork Hsa Hl Hex.
  destruct (working_slot _ _ _ _ _ _ Hwork Hsa Hl Hex) as [Hm Hs].
  unfold reduceSets, Autoregulator.reduceSets.
  run (getExercise_ok _ _ _ Hs).
  destruct (1 <? sets ex)%Z.
  - eexists. split; [reflexivity|].
    eapply working_assign_exercise; eassumption.
  - exists s. split; [reflexivity|]. apply working_same_slot; assumption.
Qed.

(** The body of the load-progression loop. *)
Lemma progressLoad_body (lastPerformances : list ExercisePerformance) :
  slot_body s0 w arr
    (fun currentEx (_ : nat) explanations =>
       progressLoad lastPerformances currentEx explanations)
    (fun ex => fst (TrainingEngine.progressLoad lastPerformances ex))
    (fun acc ex => acc ++ snd (TrainingEngine.progressLoad lastPerformances ex)).
Proof.
  intros s v elements index l ex acc Hwork Hsa Hl Hex.
  destruct (working_slot _ _ _ _ _ _ Hwork Hsa Hl Hex) as [Hm Hs].
  unfold progressLoad, TrainingEngine.progressLoad.
  run (getExercise_ok _ _ _ Hs).
  destruct (find _ lastPerformances) as [lastPerf |].
  - cbv zeta. destruct (negb _).
    + eexists. split.
      * unfold bind at 1. unfold assign at 1.
        erewrite bind_ok by
          (apply getExercise_ok, list_lookup_insert_eq;
           apply lookup_lt_Some in Hs; exact Hs).
        reflexivity.
      * cbn [fst]. eapply working_assign_exercise; eassumption.
    + eexists. split.
      * unfold bind, assign, ret. cbn [fst snd]. rewrite app_nil_r. reflexivity.
      * cbn [fst]. eapply working_assign_exercise; eassumption.
  - exists s. split.
    + unfold ret. cbn [snd]. rewrite app_nil_r. reflexivity.
    + cbn [fst]. apply working_same_slot; assumption.
Qed.

(** The body of the inner loop of the safety check. *)
Lemma substituteAt_body (painArea : string) :
  slot_body s0 w arr (substituteAt w painArea) (Slot.substitute painArea)
            (Slot.explainSubstitute painArea).
Proof.
  intros s v elements index l ex acc Hwork Hsa Hl Hex.
  destruct (working_slot _ _ _ _ _ _ Hwork Hsa Hl Hex) as [Hm Hs].
  unfold substituteAt, isExerciseRisky, Slot.substitute, Slot.explainSubstitute.
  run (bind_ok _ _ _ _ _ (getExercise_ok _ _ _ Hs)).
  destruct (TrainingEngine.isExerciseRisky ex painArea).
  - set (sub := TrainingEngine.getSafeSubstitution ex painArea).
    set (s1 := s ++ [ExerciseObject sub]).
    destruct Hwork as [Hpre Hrep].
    pose proof Hrep as (_ & Harr & Hsw & _).
    assert (Hrun1 : getSafeSubstitution l painArea s = (Ok (length s), s1)).
    { unfold getSafeSubstitution. run (getExercise_ok _ _ _ Hs). reflexivity. }
    run Hrun1.
    run (getExercise_ok s1 _ _ (lookup_app_l_Some _ _ _ _ Hs)).
    run (getExercise_ok s1 (length s) sub (list_lookup_middle s [] _ _ eq_refl)).
    run (getWorkout_ok s1 _ _ (lookup_app_l_Some _ _ _ _ Hsw)).
    cbn [o_exercises].
    run (getArray_ok s1 _ _ (lookup_app_l_Some _ _ _ _ Hsa)).
    eexists. split; [reflexivity|]. split.
    + apply prefix_assign; [apply prefix_alloc, Hpre | exact Harr].
    + apply represents_assign_slot; try assumption.
      * apply lookup_lt_Some in Hl. exact Hl.
      * apply prefix_length, Hpre.
  - exists s. split; [reflexivity|]. apply working_same_slot; assumption.
Qed.

(** *** The stages on a working copy *)

Lemma safety_flags_run (flags : list string) :
  forall (s : store) (v : Workout) (pushed : list Explanation),
    working s0 s w arr v ->
    exists s',
      forEach
        (fun painArea explanations =>
           o <- getWorkout w ;;
           forEachElement (o_exercises o) (substituteAt w painArea) explanations)
        flags pushed s
      = (Ok (snd (fold_left TrainingEngine.substituteForPainArea flags
                            (exercises v, pushed))), s')
      /\ working s0 s' w arr
           (set_exercises
              (fst (fold_left TrainingEngine.substituteForPainArea flags
                              (exercises v, pushed))) v).
Proof.
  induction flags as [| painArea flags IH]; intros s v pushed Hwork.
  - exists s. split; [reflexivity|]. cbn. rewrite set_exercises_same. exact Hwork.
  - cbn [forEach fold_left].
    destruct (forEachElement_slots _ _ _ (substituteAt_body painArea) s v pushed Hwork)
      as (s1 & Hrun1 & Hwork1).
    destruct (IH s1 _ (fold_left (Slot.explainSubstitute painArea) (exercises v) pushed)
                 Hwork1) as (s2 & Hrun2 & Hwork2).
    exists s2. rewrite substituteForPainArea_run. cbn [fst snd].
    cbn [exercises set_exercises] in Hrun2, Hwork2.
    split; [| exact Hwork2].
    erewrite bind_ok; [exact Hrun2|].
    run (working_getWorkout _ _ Hwork). exact Hrun1.
Qed.

Lemma safetyCheck_run (s : store) (v : Workout) (flags : list string)
    (pushed : list Explanation) :
  working s0 s w arr v ->
  exists s',
    safetyCheck w flags pushed s
    = (Ok (snd (TrainingEngine.safetyCheck flags (exercises v, pushed))), s')
    /\ working s0 s' w arr
         (set_exercises (fst (TrainingEngine.safetyCheck flags (exercises v, pushed))) v).
Proof.
  intros Hwork. unfold safetyCheck, TrainingEngine.safetyCheck.
  destruct (0 <? length flags).
  - apply safety_flags_run, Hwork.
  - exists s. split; [reflexivity|]. cbn. rewrite set_exercises_same. exact Hwork.
Qed.

Lemma loadProgression_run (s : store) (v : Workout)
    (lastPerformances : list ExercisePerformance) (pushed : list Explanation) :
  working s0 s w arr v ->
  exists s',
    (o <- getWorkout w ;;
     forEachElement (o_exercises o)
       (fun currentEx (_ : nat) explanations =>
          progressLoad lastPerformances currentEx explanations) pushed) s
    = (Ok (pushed ++ snd (TrainingEngine.loadProgression lastPerformances (exercises v))),
       s')
    /\ working s0 s' w arr
         (set_exercises
            (fst (TrainingEngine.loadProgression lastPerformances (exercises v))) v).
Proof.
  intros Hwork.
  destruct (forEachElement_slots _ _ _ (progressLoad_body lastPerformances) s v pushed
              Hwork) as (s1 & Hrun & Hwork1).
  exists s1. rewrite loadProgression_fst, <- loadProgression_snd.
  split; [| exact Hwork1].
  run (working_getWorkout _ _ Hwork). exact Hrun.
Qed.

(** The clone of a working copy is a second working copy; the first one
    stays what it was. *)
Lemma JSON_clone_run (s : store) (v : Workout) :
  working s0 s w arr v ->
  exists s' w' arr',
    JSON_clone w s = (Ok w', s')
    /\ working s0 s' w' arr' v /\ working s0 s' w arr v.
Proof.
  intros Hwork. pose proof Hwork as [Hpre Hrep]. unfold JSON_clone.
  run (JSON_stringify_represents _ _ _ _ _ Hrep).
  destruct (JSON_parse_represents (length s0) v s (prefix_length _ _ Hpre))
    as (t & w' & arr' & Hrun & Hrep').
  exists (s ++ t), w', arr'. split; [exact Hrun|]. split; split.
  - apply prefix_alloc, Hpre.
  - exact Hrep'.
  - apply prefix_alloc, Hpre.
  - apply represents_alloc, Hrep.
Qed.

End WorkingCopy.

(** The volume loops on a working copy [w']. *)
Lemma volume_loops_run (w' arr' : loc) (s : store) (v : Workout) (readiness : Z) :
  working s0 s w' arr' v ->
  exists s',
    (if (readiness <? 40)%Z then
       o <- getWorkout w' ;;
       _ <- forEachElement (o_exercises o) (fun ex _ acc => deloadSets ex) tt ;;
       ret (w', DELOAD)
     else if (readiness <? 60)%Z then
       o <- getWorkout w' ;;
       _ <- forEachElement (o_exercises o) (fun ex _ acc => reduceSets ex) tt ;;
       ret (w', VOLUME_REDUCTION)
     else ret (w', MAINTENANCE)) s
    = (Ok (w', Autoregulator.volume_type (Autoregulator.adjustVolume v readiness)), s')
    /\ working s0 s' w' arr'
         (Autoregulator.workout (Autoregulator.adjustVolume v readiness))
    /\ (Autoregulator.volume_type (Autoregulator.adjustVolume v readiness) = MAINTENANCE ->
        s' = s).
Proof.
  intros Hwork. unfold Autoregulator.adjustVolume, Autoregulator.JSON_clone.
  destruct (readiness <? 40)%Z; [| destruct (readiness <? 60)%Z].
  - destruct (forEachElement_slots w' arr' _ _ _ (deloadSets_body w' arr') s v tt Hwork)
      as (s2 & Hrun & Hwork2).
    exists s2. split; [| split; [exact Hwork2 | discriminate]].
    run (working_getWorkout _ _ _ _ Hwork). cbn [o_exercises]. run Hrun. reflexivity.
  - destruct (forEachElement_slots w' arr' _ _ _ (reduceSets_body w' arr') s v tt Hwork)
      as (s2 & Hrun & Hwork2).
    exists s2. split; [| split; [exact Hwork2 | discriminate]].
    run (working_getWorkout _ _ _ _ Hwork). cbn [o_exercises]. run Hrun. reflexivity.
  - exists s. split; [reflexivity|]. split; [exact Hwork | reflexivity].
Qed.

Lemma adjustVolume_run (w arr : loc) (s : store) (v : Workout) (readiness : Z) :
  working s0 s w arr v ->
  exists s' w' arr',
    adjustVolume w readiness s
    = (Ok (w', Autoregulator.volume_type (Autoregulator.adjustVolume v readiness)), s')
    /\ working s0 s' w' arr'
         (Autoregulator.workout (Autoregulator.adjustVolume v readiness))
    /\ (Autoregulator.volume_type (Autoregulator.adjustVolume v readiness) = MAINTENANCE ->
        working s0 s' w arr v).
Proof.
  intros Hwork.
  destruct (JSON_clone_run _ _ _ _ Hwork) as (s1 & w' & arr' & Hclone & Hwork' & Hold).
  destruct (volume_loops_run w' arr' s1 v readiness Hwork')
    as (s2 & Hrun & Hwork2 & Hsame).
  exists s2, w', arr'. unfold adjustVolume. run Hclone.
  split; [exact Hrun|]. split; [exact Hwork2|].
  intros Htype. rewrite (Hsame Htype). exact Hold.
Qed.

End Call.

(** *** The whole call *)

(** Started in a store where the plan reads as the value [v], the call
    leaves a store that extends it, and returns what the engine on values
    returns for [v]: the same exception, or the same readiness and
    explanations with a working copy that reads as the same workout. *)
Lemma generateDailyWorkout_run (this : TrainingEngine.Engine) (userProfile : User)
    (plannedWorkout : loc) (dailyFeedback : Feedback)
    (lastPerformances : list ExercisePerformance) (s0 : store) (v : Workout) :
  fst (JSON_stringify plannedWorkout s0) = Ok v ->
  exists s',
    s0 `prefix_of` s'
    /\ match TrainingEngine.generateDailyWorkout this userProfile v dailyFeedback
               lastPerformances with
       | Throw message =>
           generateDailyWorkout this userProfile plannedWorkout dailyFeedback
             lastPerformances s0 = (Throw message, s')
       | Ok d =>
           exists w' arr',
             generateDailyWorkout this userProfile plannedWorkout dailyFeedback
               lastPerformances s0
             = (Ok (mkDecision (TrainingEngine.readinessScore d) w'
                               (TrainingEngine.explanations d)), s')
             /\ working s0 s' w' arr' (TrainingEngine.decision_workout d)
       end.
Proof.
  intros Hplan.
  assert (Hstr : JSON_stringify plannedWorkout s0 = (Ok v, s0)).
  { destruct (reads_JSON_stringify plannedWorkout s0) as [Hs _].
    destruct (JSON_stringify plannedWorkout s0) as [r s]. cbn in *. subst. reflexivity. }
  destruct (JSON_parse_represents (length s0) v s0 (le_n _))
    as (t & w & arr & Hparse & Hrep).
  assert (Hwork : working s0 (s0 ++ t) w arr v)
    by (split; [apply prefix_app_r; reflexivity | exact Hrep]).
  assert (Hclone : JSON_clone plannedWorkout s0 = (Ok w, s0 ++ t)).
  { unfold JSON_clone. run Hstr. exact Hparse. }
  unfold generateDailyWorkout, TrainingEngine.generateDailyWorkout.
  cbv zeta. run Hclone.
  unfold Autoregulator.JSON_clone.
  destruct (painFlags dailyFeedback) as [flags |].
  2: { exists (s0 ++ t). split; [apply Hwork | reflexivity]. }
  destruct (safetyCheck_run s0 w arr _ v flags [] Hwork) as (s1 & Hrun1 & Hwork1).
  run Hrun1.
  destruct (TrainingEngine.safetyCheck flags (exercises v, [])) as [exs1 pushed1].
  cbn [fst snd] in *.
  set (readiness := TrainingEngine.calculateReadiness this dailyFeedback).
  destruct (adjustVolume_run s0 w arr s1 _ readiness Hwork1)
    as (s2 & w2 & arr2 & Hrun2 & Hwork2 & Hkeep).
  run Hrun2. cbn [fst snd].
  set (volume := Autoregulator.adjustVolume (set_exercises exs1 v) readiness) in *.
  assert (Hstage2 : exists w3 arr3 v3 pushed3,
    (if negb (AdjustmentType_eqb (Autoregulator.volume_type volume) MAINTENANCE)
     then (w2, pushed1 ++
                 [explainAdjustment (Autoregulator.volume_type volume)
                    (mkContext None None None (sleepQuality dailyFeedback)
                       (Some (if AdjustmentType_eqb (Autoregulator.volume_type volume)
                                   DELOAD then "50%" else "20%")) None None)])
     else (w, pushed1)) = (w3, pushed3)
    /\ (if negb (AdjustmentType_eqb (Autoregulator.volume_type volume) MAINTENANCE)
        then (Autoregulator.workout volume,
              pushed1 ++
                 [explainAdjustment (Autoregulator.volume_type volume)
                    (mkContext None None None (sleepQuality dailyFeedback)
                       (Some (if AdjustmentType_eqb (Autoregulator.volume_type volume)
                                   DELOAD then "50%" else "20%")) None None)])
        else (set_exercises exs1 v, pushed1)) = (v3, pushed3)
    /\ working s0 s2 w3 arr3 v3).
  { destruct (Autoregulator.volume_type volume) eqn:Htype; cbn [negb AdjustmentType_eqb];
      try (do 4 eexists; split; [reflexivity | split; [reflexivity | exact Hwork2]]).
    do 4 eexists. split; [reflexivity | split; [reflexivity | apply Hkeep; reflexivity]]. }
  destruct Hstage2 as (w3 & arr3 & v3 & pushed3 & -> & -> & Hwork3).
  destruct (40 <=? readiness)%Z.
  - destruct (loadProgression_run s0 w3 arr3 s2 v3 lastPerformances pushed3 Hwork3)
      as (s3 & Hrun3 & Hwork4).
    run Hrun3.
    destruct (TrainingEngine.loadProgression lastPerformances (exercises v3))
      as [exs4 pushed4]. cbn [fst snd] in *.
    exists s3. split; [apply Hwork4|]. exists w3, arr3. split; [reflexivity | exact Hwork4].
  - exists s2. split; [apply Hwork3|]. exists w3, arr3. split; [reflexivity | exact Hwork3].
Qed.

Lemma JSON_stringify_run (w : loc) (s : store) :
  JSON_stringify w s = (fst (JSON_stringify w s), s).
Proof.
  destruct (reads_JSON_stringify w s) as [Hs _].
  destruct (JSON_stringify w s) as [r s1]. cbn in *. subst s1. reflexivity.
Qed.

Lemma JSON_clone_throw (w : loc) (s : store) (message : string) :
  fst (JSON_stringify w s) = Throw message -> JSON_clone w s = (Throw message, s).
Proof.
  intros H. unfold JSON_clone. apply bind_throw.
  rewrite JSON_stringify_run, H. reflexivity.
Qed.

(** The store a call leaves extends the store it was started in, whether
    the call returns or throws and whatever the plan reference holds. *)
Lemma generateDailyWorkout_extends (this : TrainingEngine.Engine) (userProfile : User)
    (plannedWorkout : loc) (dailyFeedback : Feedback)
    (lastPerformances : list ExercisePerformance) (s0 : store) :
  s0 `prefix_of`
     snd (generateDailyWorkout this userProfile plannedWorkout dailyFeedback
            lastPerformances s0).
Proof.
  destruct (fst (JSON_stringify plannedWorkout s0)) as [v | message] eqn:Hplan.
  - destruct (generateDailyWorkout_run this userProfile plannedWorkout dailyFeedback
                lastPerformances s0 v Hplan) as (s' & Hpre & Hrun).
    destruct (TrainingEngine.generateDailyWorkout _ _ _ _ _) as [d | message].
    + destruct Hrun as (w' & arr' & -> & _). exact Hpre.
    + rewrite Hrun. exact Hpre.
  - unfold generateDailyWorkout. cbv zeta.
    rewrite (bind_throw _ _ _ _ _ (JSON_clone_throw _ _ _ Hplan)). reflexivity.
Qed.

(** The same for [adjustVolume] called on any workout reference. *)
Lemma adjustVolume_extends (plannedWorkout : loc) (readinessScore : Z) (s0 : store) :
  s0 `prefix_of` snd (adjustVolume plannedWorkout readinessScore s0).
Proof.
  destruct (fst (JSON_stringify plannedWorkout s0)) as [v | message] eqn:Hplan.
  - destruct (JSON_parse_represents (length s0) v s0 (le_n _))
      as (t & w & arr & Hparse & Hrep).
    assert (Hwork : working s0 (s0 ++ t) w arr v)
      by (split; [apply prefix_app_r; reflexivity | exact Hrep]).
    assert (Hclone : JSON_clone plannedWorkout s0 = (Ok w, s0 ++ t)).
    { unfold JSON_clone. erewrite bind_ok; [exact Hparse|].
      rewrite JSON_stringify_run, Hplan. reflexivity. }
    destruct (volume_loops_run s0 w arr _ v readinessScore Hwork)
      as (s2 & Hrun & Hwork2 & _).
    unfold adjustVolume. run Hclone. rewrite Hrun. apply Hwork2.
  - unfold adjustVolume.
    rewrite (bind_throw _ _ _ _ _ (JSON_clone_throw _ _ _ Hplan)). reflexivity.
Qed.

(** A snapshot of a workout is the same in every extension of the store. *)
Lemma snapshot_stable (w : loc) (s s' : store) (v : Workout) :
  s `prefix_of` s' ->
  fst (JSON_stringify w s) = Ok v -> fst (JSON_stringify w s') = Ok v.
Proof.
  intros [t ->] H. destruct (reads_JSON_stringify w s) as [_ Hext].
  apply Hext, H.
Qed.

(** The engine over the store computes what the engine on values computes:
    when the plan reads as [v], the call throws exactly when the engine on
    values throws for [v], and otherwise returns the same readiness and
    explanations and a workout object that reads as the same workout. *)
Theorem generateDailyWorkout_refines (this : TrainingEngine.Engine)
    (userProfile : User) (plannedWorkout : loc) (dailyFeedback : Feedback)
    (lastPerformances : list ExercisePerformance) (s0 : store) (v : Workout) :
  fst (JSON_stringify plannedWorkout s0) = Ok v ->
  let run := generateDailyWorkout this userProfile plannedWorkout dailyFeedback
               lastPerformances s0 in
  match TrainingEngine.generateDailyWorkout this userProfile v dailyFeedback
          lastPerformances with
  | Throw message => fst run = Throw message
  | Ok d =>
      exists w',
        fst run = Ok (mkDecision (TrainingEngine.readinessScore d) w'
                                 (TrainingEngine.explanations d))
        /\ fst (JSON_stringify w' (snd run)) = Ok (TrainingEngine.decision_workout d)
  end.
Proof.
  intros Hplan run. subst run.
  destruct (generateDailyWorkout_run this userProfile plannedWorkout dailyFeedback
              lastPerformances s0 v Hplan) as (s' & _ & Hrun).
  destruct (TrainingEngine.generateDailyWorkout _ _ _ _ _) as [d | message].
  - destruct Hrun as (w' & arr' & -> & [_ Hrep]). exists w'. split; [reflexivity|].
    cbn [snd]. rewrite (JSON_stringify_represents _ _ _ _ _ Hrep). reflexivity.
  - rewrite Hrun. reflexivity.
Qed.

(** C4. For every user, plan reference, feedback and history, and every
    store the call is started in: every object of that store is the same
    after the call, so [generateDailyWorkout] mutates neither the planned
    workout, nor its exercise array, nor any exercise object in it; a
    snapshot of the planned workout taken before the call is deep-equal to
    one taken after it, whichever rules fired and whether the call returned
    or threw.  The same holds for [Autoregulator.adjustVolume]. *)
Theorem plannedWorkout_not_mutated (this : TrainingEngine.Engine)
    (userProfile : User) (plannedWorkout : loc) (dailyFeedback : Feedback)
    (lastPerformances : list ExercisePerformance) (readinessScore : Z) (s0 : store) :
  let after := snd (generateDailyWorkout this userProfile plannedWorkout dailyFeedback
                      lastPerformances s0) in
  let afterVolume := snd (adjustVolume plannedWorkout readinessScore s0) in
  (forall l o, s0 !! l = Some o -> after !! l = Some o)
  /\ (forall snapshot,
        fst (JSON_stringify plannedWorkout s0) = Ok snapshot ->
        fst (JSON_stringify plannedWorkout after) = Ok snapshot)
  /\ (forall l o, s0 !! l = Some o -> afterVolume !! l = Some o)
  /\ (forall snapshot,
        fst (JSON_stringify plannedWorkout s0) = Ok snapshot ->
        fst (JSON_stringify plannedWorkout afterVolume) = Ok snapshot).
Proof.
  cbv zeta.
  pose proof (generateDailyWorkout_extends this userProfile plannedWorkout
                dailyFeedback lastPerformances s0) as Hext.
  pose proof (adjustVolume_extends plannedWorkout readinessScore s0) as HextV.
  split; [| split; [| split]].
  - intros l o Hl. destruct Hext as [t ->]. apply lookup_app_l_Some, Hl.
  - intros snapshot. apply snapshot_stable, Hext.
  - intros l o Hl. destruct HextV as [t ->]. apply lookup_app_l_Some, Hl.
  - intros snapshot. apply snapshot_stable, HextV.
Qed.

(** [plannedWorkout_not_mutated] on the store of the test script, for a call
    in which a substitution, a volume reduction and a load change all fire:
    the plan at reference 4 still reads as the planned workout. *)
Lemma plannedWorkout_not_mutated_witness :
  let feedback := mkFeedback (Some 5%Q) (Some 3%Q) (Some "High") (Some ["left_knee"]) in
  let after := snd (generateDailyWorkout TrainingEngine.constructor TrainingEngine.user
                      4 feedback TrainingEngine.historyA testStore) in
  fst (JSON_stringify 4 after) = Ok TrainingEngine.plannedWorkout
  /\ after !! 0 = testStore !! 0
  /\ length after = 16.
Proof.
  cbv zeta.
  destruct (plannedWorkout_not_mutated TrainingEngine.constructor TrainingEngine.user
              4 (mkFeedback (Some 5%Q) (Some 3%Q) (Some "High") (Some ["left_knee"]))
              TrainingEngine.historyA 55 testStore) as (Hobj & Hsnap & _).
  split; [| split].
  - apply Hsnap. reflexivity.
  - apply Hobj. reflexivity.
  - reflexivity.
Defined.

End StoreProps.

(** * Further properties of the engine *)

(** ** Readiness: what the score can be *)

Module ReadinessExtra.

Import Reading.

Lemma eq5_ge4 (v : option Q) : eq_num v 5 = true -> ge_num v 4 = true.
Proof.
  destruct v as [x |]; cbn; [| discriminate].
  intros H. apply Qeq_bool_iff in H. apply Qle_bool_iff. rewrite H. discriminate.
Qed.

Lemma le4_le6 (v : option Q) : le_num v 4 = true -> le_num v 6 = true.
Proof.
  destruct v as [x |]; cbn; [| discriminate].
  intros H. apply Qle_bool_iff in H. apply Qle_bool_iff.
  eapply Qle_trans; [exact H | discriminate].
Qed.

Lemma le6_not_ge8 (v : option Q) : le_num v 6 = true -> ge_num v 8 = false.
Proof.
  destruct v as [x |]; cbn; [| discriminate].
  intros H. apply Qle_bool_iff in H.
  destruct (Qle_bool 8 x) eqn:H8; [| reflexivity].
  apply Qle_bool_iff in H8. exfalso.
  assert (H86 : (8 <= 6)%Q) by (eapply Qle_trans; eassumption).
  apply H86. reflexivity.
Qed.

(** X1. With the baseline of 80 that the constructor sets, the readiness
    score always lies between 15 and 85, and both ends are reached: the
    clamp to 0..100 never changes the score of a constructed engine. *)
Theorem default_readiness_between_15_and_85 (feedback : Feedback) :
  15 <= calculateReadiness constructor feedback <= 85
  /\ calculateReadiness constructor
       (mkFeedback (Some 4%Q) (Some 5%Q) (Some "High") (painFlags feedback)) = 15
  /\ calculateReadiness constructor
       (mkFeedback (Some 8%Q) (Some 1%Q) (Some "Low") (painFlags feedback)) = 85.
Proof.
  split; [| split; reflexivity].
  unfold calculateReadiness, constructor, baselineReadiness.
  destruct (le_num (sleepQuality feedback) 4), (le_num (sleepQuality feedback) 6),
    (ge_num (sleepQuality feedback) 8), (ge_num (soreness feedback) 4),
    (eq_num (soreness feedback) 5), (eq_str (stressLevel feedback) "High"); lia.
Qed.

(** X2. With the baseline of 80, one adverse signal alone never takes the
    readiness below 40: a score below 40 (the deload tier, in which load
    progression is skipped) needs at least two of poor sleep (at most 6),
    soreness (at least 4) and high stress.  A score below 60 (a volume cut)
    needs at least one of them, and with none of them the score is 80 or 85. *)
Theorem deload_needs_two_signals (feedback : Feedback) :
  let score := calculateReadiness constructor feedback in
  (score < 40 ->
     (poorSleep feedback = true /\ sore feedback = true)
     \/ (poorSleep feedback = true /\ stressed feedback = true)
     \/ (sore feedback = true /\ stressed feedback = true))
  /\ (score < 60 ->
     poorSleep feedback = true \/ sore feedback = true \/ stressed feedback = true)
  /\ (poorSleep feedback = false -> sore feedback = false ->
      stressed feedback = false -> score = 80 \/ score = 85).
Proof.
  cbv zeta. unfold poorSleep, sore, stressed.
  pose proof (eq5_ge4 (soreness feedback)) as H54.
  pose proof (le4_le6 (sleepQuality feedback)) as H46.
  unfold calculateReadiness, constructor, baselineReadiness.
  destruct (le_num (sleepQuality feedback) 4), (le_num (sleepQuality feedback) 6),
    (ge_num (sleepQuality feedback) 8), (ge_num (soreness feedback) 4),
    (eq_num (soreness feedback) 5), (eq_str (stressLevel feedback) "High");
    try (specialize (H54 eq_refl)); try (specialize (H46 eq_refl));
    try discriminate;
    (split; [intros Hs; try lia; tauto | split; [intros Hs; try lia; tauto |]]);
    intros; try discriminate; lia.
Qed.

(** [deload_needs_two_signals] at poor sleep, soreness and high stress (35)
    and at feedback with no adverse signal (80). *)
Lemma deload_needs_two_signals_witness :
  let tired := mkFeedback (Some 3%Q) (Some 4%Q) (Some "High") (Some []) in
  let fresh := mkFeedback (Some 7%Q) (Some 2%Q) (Some "Low") (Some []) in
  calculateReadiness constructor tired = 35
  /\ ((poorSleep tired = true /\ sore tired = true)
      \/ (poorSleep tired = true /\ stressed tired = true)
      \/ (sore tired = true /\ stressed tired = true))
  /\ (calculateReadiness constructor fresh = 80
      \/ calculateReadiness constructor fresh = 85).
Proof.
  cbv zeta.
  destruct (deload_needs_two_signals
              (mkFeedback (Some 3%Q) (Some 4%Q) (Some "High") (Some [])))
    as (Htwo & _ & _).
  destruct (deload_needs_two_signals
              (mkFeedback (Some 7%Q) (Some 2%Q) (Some "Low") (Some [])))
    as (_ & _ & Hnone).
  split; [reflexivity|]. split.
  - apply Htwo. vm_compute. reflexivity.
  - apply Hnone; reflexivity.
Defined.

End ReadinessExtra.

(** ** Load autoregulation: the size of a step *)

Module LoadExtra.

Import RoundingProps.

(** X3. [adjustLoad] returns one of three kinds, each with its own weight,
    and the kind tells which rule fired: LOAD_INCREASE means no missed reps
    and an RPE at least one below target, with 1.025 times the weight;
    MAINTENANCE means no missed reps and an RPE above target - 1 and below
    9.5, with the weight untouched; LOAD_DECREASE means missed reps or an RPE
    of 9.5 or more, with 0.95 times the weight.  For a weight that is not
    negative the new weight stays between 0.95 and 1.025 times the weight. *)
Theorem adjustLoad_rules (currentWeight rpe : Q) (targetRpe : option Q)
    (missedReps : option bool) :
  let adjustment := adjustLoad currentWeight rpe targetRpe missedReps in
  let target := default 8%Q targetRpe in
  let missed := default false missedReps in
  (adjustmentType adjustment = LOAD_INCREASE
     /\ newWeight adjustment = (currentWeight * 1.025)%Q
     /\ missed = false /\ (rpe <= target - 1)%Q
   \/ adjustmentType adjustment = MAINTENANCE
     /\ newWeight adjustment = currentWeight
     /\ missed = false /\ (target - 1 < rpe)%Q /\ (rpe < 9.5)%Q
   \/ adjustmentType adjustment = LOAD_DECREASE
     /\ newWeight adjustment = (currentWeight * 0.95)%Q
     /\ (missed = true \/ (target - 1 < rpe)%Q /\ (9.5 <= rpe)%Q))
  /\ ((0 <= currentWeight)%Q ->
      (currentWeight * 0.95 <= newWeight adjustment)%Q
      /\ (newWeight adjustment <= currentWeight * 1.025)%Q).
Proof.
  cbv zeta. unfold adjustLoad.
  destruct (default false missedReps).
  - split; [right; right; repeat split; left; reflexivity|].
    intros Hw. cbn. split; lra.
  - destruct (Qle_bool rpe (default 8%Q targetRpe - 1)) eqn:Hlow.
    + apply Qle_bool_iff in Hlow.
      split; [left; repeat split; exact Hlow|].
      intros Hw. cbn. split; lra.
    + assert (Hhigh : (default 8%Q targetRpe - 1 < rpe)%Q).
      { apply Qnot_le_lt. intros H. apply Qle_bool_iff in H. congruence. }
      destruct (Qle_bool 9.5 rpe) eqn:Hmax.
      * apply Qle_bool_iff in Hmax.
        split; [right; right; repeat split; right; split; assumption|].
        intros Hw. cbn. split; lra.
      * assert (Hlt : (rpe < 9.5)%Q).
        { apply Qnot_le_lt. intros H. apply Qle_bool_iff in H. congruence. }
        split; [right; left; repeat split; assumption|].
        intros Hw. cbn. split; lra.
Qed.

(** [adjustLoad_rules] at a weight of 100: the new weight stays between 95
    and 102.5. *)
Lemma adjustLoad_rules_witness :
  (95 <= newWeight (adjustLoad 100 7 (Some 8%Q) (Some false)))%Q
  /\ (newWeight (adjustLoad 100 7 (Some 8%Q) (Some false)) <= 102.5)%Q.
Proof.
  destruct (adjustLoad_rules 100 7 (Some 8%Q) (Some false)) as [_ Hbounds].
  destruct Hbounds as [Hlo Hhi]; [discriminate|].
  split.
  - eapply Qle_trans; [| exact Hlo]. discriminate.
  - eapply Qle_trans; [exact Hhi|]. discriminate.
Defined.

(** The new weight that goes with each kind. *)
Lemma adjustLoad_newWeight (currentWeight rpe : Q) (targetRpe : option Q)
    (missedReps : option bool) :
  let adjustment := adjustLoad currentWeight rpe targetRpe missedReps in
  (adjustmentType adjustment = LOAD_INCREASE ->
     newWeight adjustment = (currentWeight * 1.025)%Q)
  /\ (adjustmentType adjustment = LOAD_DECREASE ->
     newWeight adjustment = (currentWeight * 0.95)%Q).
Proof.
  cbv zeta. unfold adjustLoad.
  destruct (default false missedReps); [split; [discriminate | reflexivity]|].
  destruct (Qle_bool rpe _); [split; [reflexivity | discriminate]|].
  destruct (Qle_bool 9.5 rpe); split; try discriminate; reflexivity.
Qed.

(** Rounding 1.025 times and 0.95 times a whole number of plate steps. *)
Lemma round_increase (w : Q) (k : Z) :
  (w == inject_Z k * 2.5)%Q ->
  Math_round (w * 1.025 / 2.5) = (k + (k + 20) / 40)%Z.
Proof.
  intros Hw. unfold Math_round.
  rewrite (Qfloor_comp _ ((41 * k + 20) # 40)).
  - unfold Qfloor. replace (41 * k + 20)%Z with (k * 40 + (k + 20))%Z by lia.
    rewrite Z.div_add_l by lia. reflexivity.
  - rewrite Hw. unfold Qeq, Qplus, Qmult, Qdiv, Qinv, inject_Z. cbn. lia.
Qed.

Lemma round_decrease (w : Q) (k : Z) :
  (w == inject_Z k * 2.5)%Q ->
  Math_round (w * 0.95 / 2.5) = ((19 * k + 10) / 20)%Z.
Proof.
  intros Hw. unfold Math_round.
  rewrite (Qfloor_comp _ ((19 * k + 10) # 20)).
  - reflexivity.
  - rewrite Hw. unfold Qeq, Qplus, Qmult, Qdiv, Qinv, inject_Z. cbn. lia.
Qed.

(** X4. What the rounding does to a step.  Let the matched performance
    record hold a weight of [k] plate steps of 2.5.  On LOAD_INCREASE the
    increase is explained, yet for every weight below 50 the exercise gets
    the same weight (the 2.5% is rounded away); above 50 it gets at least one
    step more.  On LOAD_DECREASE the exercise gets the same weight up to 25
    and at least one step less above.  (At exactly 50 the scaled weight
    51.25 is a tie of the rounding: see [steps_on_doubles].) *)
Theorem rounded_step (lastPerformances : list ExercisePerformance)
    (currentEx : Exercise) (lastPerf : ExercisePerformance) (k : Z) :
  Slot.lookupPerformance lastPerformances (id currentEx) = Some lastPerf ->
  (perf_weight lastPerf == inject_Z k * 2.5)%Q ->
  let adjustment :=
    adjustLoad (perf_weight lastPerf) (rpe lastPerf) (rpeTarget currentEx)
               (Some (lt (completedReps lastPerf) (inject_Z (reps currentEx)))) in
  let result := progressLoad lastPerformances currentEx in
  (adjustmentType adjustment = LOAD_INCREASE ->
     map template (snd result) = [GoMode]
     /\ (0 <= k < 20 -> (weight (fst result) == perf_weight lastPerf)%Q)
     /\ (20 < k -> (perf_weight lastPerf + 2.5 <= weight (fst result))%Q))
  /\ (adjustmentType adjustment = LOAD_DECREASE ->
     map template (snd result) = [Reset]
     /\ (0 <= k <= 10 -> (weight (fst result) == perf_weight lastPerf)%Q)
     /\ (10 < k -> (weight (fst result) + 2.5 <= perf_weight lastPerf)%Q)).
Proof.
  intros Hfind Hw adjustment result. subst result.
  unfold progressLoad. unfold Slot.lookupPerformance in Hfind. rewrite Hfind.
  fold adjustment.
  destruct (adjustLoad_newWeight (perf_weight lastPerf) (rpe lastPerf)
              (rpeTarget currentEx)
              (Some (lt (completedReps lastPerf) (inject_Z (reps currentEx)))))
    as [Hincrease Hdecrease].
  fold adjustment in Hincrease, Hdecrease.
  split; intros Htype;
    [rewrite (Hincrease Htype) | rewrite (Hdecrease Htype)];
    rewrite Htype; cbn [negb AdjustmentType_eqb fst snd];
    cbn [weight set_weight explainAdjustment map template].
  - rewrite (round_increase _ k Hw).
    split; [reflexivity|]. split.
    + intros Hk. rewrite Z.div_small by lia. rewrite Z.add_0_r. symmetry. exact Hw.
    + intros Hk. rewrite Hw.
      assert (Hq : (1 <= (k + 20) / 40)%Z)
        by (apply Z.div_le_lower_bound; lia).
      rewrite inject_Z_plus.
      assert (Hq' : (1 <= inject_Z ((k + 20) / 40))%Q)
        by (rewrite Zle_Qle in Hq; exact Hq).
      set (q := inject_Z ((k + 20) / 40)) in *. set (x := inject_Z k) in *.
      clearbody q x. lra.
  - rewrite (round_decrease _ k Hw).
    split; [reflexivity|]. split.
    + intros Hk. replace ((19 * k + 10) / 20)%Z with k; [symmetry; exact Hw|].
      apply Z.div_unique with (r := (10 - k)%Z); lia.
    + intros Hk. rewrite Hw.
      assert (Hq : ((19 * k + 10) / 20 + 1 <= k)%Z).
      { assert (Hlt : ((19 * k + 10) / 20 < k)%Z)
          by (apply Z.div_lt_upper_bound; lia).
        lia. }
      rewrite Zle_Qle in Hq. rewrite inject_Z_plus in Hq.
      change (inject_Z 1) with 1%Q in Hq.
      set (q := inject_Z ((19 * k + 10) / 20)) in *. set (x := inject_Z k) in *.
      clearbody q x. lra.
Qed.

(** [rounded_step] at a record of 20 (8 steps) moved at RPE 6: an increase
    is explained and the weight stays 20. *)
Lemma rounded_step_witness :
  let light := mkExercise "curl" "Biceps Curl" (Some "isolation") (Some ["biceps"])
                          20 3 10 (Some 8%Q) in
  let history := [mkExercisePerformance "curl" 20 10 3 6] in
  (weight (fst (progressLoad history light)) == 20)%Q
  /\ map template (snd (progressLoad history light)) = [GoMode].
Proof.
  cbv zeta.
  destruct (rounded_step [mkExercisePerformance "curl" 20 10 3 6]
              (mkExercise "curl" "Biceps Curl" (Some "isolation") (Some ["biceps"])
                          20 3 10 (Some 8%Q))
              (mkExercisePerformance "curl" 20 10 3 6) 8 eq_refl eq_refl)
    as [Hinc _].
  destruct (Hinc eq_refl) as (Hexpl & Hsame & _).
  split; [apply Hsame; lia | exact Hexpl].
Defined.

Section OnDoubles.

Import PrimFloat.

#[local] Set Warnings "-inexact-float".

(** The same steps on doubles: an increase leaves each of the weights 0,
    2.5, ..., 47.5 as it is and adds a step to 52.5, ..., 250; a decrease
    leaves 0, 2.5, ..., 25 as they are and takes at least a step from 27.5,
    ..., 250.  At 50 the product 50 x 1.025 falls short of the tie 51.25 on
    doubles, so the weight stays 50, where the exact product rounds up to
    52.5. *)
Lemma steps_on_doubles :
  let onDoubles (factor : float) (k : nat) :=
    Double.roundToStep (Double.scale (Double.ofZ (Z.of_nat k) * 2.5)%float factor) in
  let steps (k : nat) := (Double.ofZ (Z.of_nat k) * 2.5)%float in
  forallb (fun k => eqb (onDoubles 1.025%float k) (steps k)) (seq 0 20) = true
  /\ forallb (fun k => leb (steps (S k)) (onDoubles 1.025%float k)) (seq 21 80) = true
  /\ forallb (fun k => eqb (onDoubles 0.95%float k) (steps k)) (seq 0 11) = true
  /\ forallb (fun k => leb (onDoubles 0.95%float (S k)) (steps k)) (seq 10 90) = true
  /\ onDoubles 1.025%float 20%nat = 50%float
  /\ (inject_Z (Math_round (50 * 1.025 / 2.5)) * 2.5 == 52.5)%Q.
Proof. vm_compute. repeat split. Qed.

End OnDoubles.

End LoadExtra.

(** ** Volume autoregulation: what a cut can do to a set count *)

Module VolumeExtra.

Import VolumeProps PipelineProps.

(** X5. [adjustVolume] keeps the number of exercises and changes, slot by
    slot, nothing but the set count.  It never adds a set to an exercise
    that has at least one, and never takes the last one; below a readiness
    of 60 an exercise with two sets or more loses at least one; from 40 on it
    loses at most one.  Below 40 an exercise with no sets (the rest
    placeholder of [getSafeSubstitution] has 0) comes out with one set. *)
Theorem adjustVolume_set_counts (plannedWorkout : Workout) (readinessScore : Z) :
  let adjusted := exercises (workout (adjustVolume plannedWorkout readinessScore)) in
  length adjusted = length (exercises plannedWorkout)
  /\ forall (index : nat) (ex : Exercise),
       exercises plannedWorkout !! index = Some ex ->
       exists ex',
         adjusted !! index = Some ex'
         /\ ex' = set_sets (sets ex') ex
         /\ (1 <= sets ex -> 1 <= sets ex' <= sets ex)
         /\ (2 <= sets ex -> readinessScore < 60 -> sets ex' < sets ex)
         /\ (40 <= readinessScore -> sets ex - 1 <= sets ex' <= sets ex)
         /\ (sets ex <= 1 -> readinessScore < 40 -> sets ex' = 1).
Proof.
  cbv zeta. rewrite adjustVolume_exercises. cbn [exercises set_exercises].
  split; [apply length_map|].
  intros index ex Hex. exists (Slot.volume readinessScore ex).
  split; [rewrite list_lookup_fmap, Hex; reflexivity|].
  unfold Slot.volume.
  destruct (Z.ltb_spec readinessScore 40) as [H40 | H40];
    [rewrite deloadSets_spec
    | destruct (Z.ltb_spec readinessScore 60) as [H60 | H60];
      [rewrite reduceSets_spec; destruct (Z.ltb_spec 1 (sets ex)) |]];
    cbn [sets set_sets];
    (split; [destruct ex; reflexivity |]); repeat split; intros; try lia;
    pose proof (Z.mul_div_le (sets ex) 2 eq_refl);
    pose proof (Z.mul_succ_div_gt (sets ex) 2 eq_refl); lia.
Qed.

(** [adjustVolume_set_counts] at a deload (readiness 35) of a workout that
    holds a rest placeholder and a five-set exercise: the placeholder comes
    out with one set, the exercise with fewer than five. *)
Lemma adjustVolume_set_counts_witness :
  let rest := getSafeSubstitution (mkExercise "sq" "Squat" None None 100 3 5 None) "Knee" in
  let heavy := mkExercise "dl" "Deadlift" None None 140 5 5 None in
  let adjusted :=
    exercises (workout (adjustVolume (mkWorkout "w" "u" "Day" [rest; heavy] "d") 35)) in
  sets rest = 0
  /\ (exists ex', adjusted !! 0%nat = Some ex' /\ sets ex' = 1)
  /\ (exists ex', adjusted !! 1%nat = Some ex' /\ sets ex' < 5).
Proof.
  cbv zeta.
  destruct (adjustVolume_set_counts
              (mkWorkout "w" "u" "Day"
                 [getSafeSubstitution (mkExercise "sq" "Squat" None None 100 3 5 None)
                    "Knee";
                  mkExercise "dl" "Deadlift" None None 140 5 5 None] "d") 35)
    as [_ Hslots].
  split; [reflexivity|]. split.
  - destruct (Hslots 0%nat _ eq_refl) as (ex' & Hex' & _ & _ & _ & _ & Hone).
    exists ex'. split; [exact Hex' | apply Hone; [cbn; lia | lia]].
  - destruct (Hslots 1%nat _ eq_refl) as (ex' & Hex' & _ & _ & Hless & _).
    exists ex'. split; [exact Hex' | apply Hless; cbn; lia].
Defined.

End VolumeExtra.

(** ** The safety check: which flags and which exercises it acts on *)

Module SafetyExtra.

Import Reading StringProps PipelineProps SlotProps.

(** The risk test in terms of [recognised] and [listed]. *)
Lemma unrecognised_not_risky (ex : Exercise) (painArea : string) :
  recognised painArea = false -> isExerciseRisky ex painArea = false.
Proof.
  unfold recognised, riskMap. cbn [existsb fst]. rewrite orb_false_r.
  intros H. apply orb_false_elim in H as [Hknee H].
  apply orb_false_elim in H as [Hshoulder Hback].
  rewrite isExerciseRisky_spec, Hknee, Hshoulder, Hback. reflexivity.
Qed.

Lemma unlisted_not_risky (ex : Exercise) (painArea : string) :
  listed ex = false -> isExerciseRisky ex painArea = false.
Proof.
  unfold listed, riskyNames, riskMap. cbn [map snd concat app existsb].
  rewrite orb_false_r. intros H.
  repeat (apply orb_false_elim in H as [?H H]).
  rewrite isExerciseRisky_spec. cbn [existsb].
  repeat match goal with Hn : includes _ _ = false |- _ => rewrite Hn; clear Hn end.
  rewrite !andb_false_r. reflexivity.
Qed.

(** One flag that finds no exercise risky leaves the working state as it is. *)
Lemma substituteForPainArea_idle (st : Working) (painArea : string) :
  Forall (fun ex => isExerciseRisky ex painArea = false) (fst st) ->
  substituteForPainArea st painArea = st.
Proof.
  destruct st as [exs pushed]. cbn [fst]. intros Hall.
  rewrite substituteForPainArea_run. cbn [fst snd]. f_equal.
  - induction Hall as [| ex exs Hex _ IH]; cbn; [reflexivity|].
    unfold Slot.substitute at 1. rewrite Hex, IH. reflexivity.
  - revert pushed. induction Hall as [| ex exs Hex _ IH]; intros pushed; cbn;
      [reflexivity|].
    unfold Slot.explainSubstitute at 2. rewrite Hex. apply IH.
Qed.

Lemma safety_fold_filter (flags : list string) (st : Working) :
  fold_left substituteForPainArea flags st
  = fold_left substituteForPainArea (List.filter recognised flags) st.
Proof.
  revert st. induction flags as [| painArea flags IH]; intros st; [reflexivity|].
  cbn [fold_left]. rewrite IH.
  destruct (recognised painArea) eqn:Hrec.
  - cbn [List.filter]. rewrite Hrec. reflexivity.
  - cbn [List.filter]. rewrite Hrec.
    rewrite substituteForPainArea_idle; [reflexivity|].
    apply Forall_forall. intros ex _. apply unrecognised_not_risky, Hrec.
Qed.

Lemma safetyCheck_filter (flags : list string) (st : Working) :
  safetyCheck flags st = safetyCheck (List.filter recognised flags) st.
Proof.
  unfold safetyCheck.
  destruct flags as [| painArea flags]; [reflexivity|].
  cbn [length Nat.ltb Nat.leb]. rewrite safety_fold_filter.
  destruct (List.filter recognised (painArea :: flags)); reflexivity.
Qed.

(** X6. Pain flags whose lower-casing ([painArea.toLowerCase()], the text
    that [isExerciseRisky] searches) contains none of "knee", "shoulder" and
    "back" are ignored: the engine returns for a list of flags what it
    returns for the recognised flags among them, in their order.  In
    particular feedback whose flags are all unrecognised is treated as
    feedback without pain.  (A flag is recognised in any letter case, also
    when its "k" is written as the Kelvin sign U+212A, which lower-cases to
    "k": see [kelvin_sign_flag].) *)
Theorem unrecognised_flags_ignored (this : Engine) (userProfile : User)
    (plannedWorkout : Workout) (dailyFeedback : Feedback)
    (lastPerformances : list ExercisePerformance) (flags : list string) :
  painFlags dailyFeedback = Some flags ->
  generateDailyWorkout this userProfile plannedWorkout dailyFeedback lastPerformances
  = generateDailyWorkout this userProfile plannedWorkout
      (mkFeedback (sleepQuality dailyFeedback) (soreness dailyFeedback)
                  (stressLevel dailyFeedback) (Some (List.filter recognised flags)))
      lastPerformances.
Proof.
  intros Hflags. unfold generateDailyWorkout. rewrite Hflags. cbn [painFlags].
  rewrite safetyCheck_filter. reflexivity.
Qed.

(** [unrecognised_flags_ignored] at the plan of the test script with an
    elbow and a knee flag: the result is that of the knee flag alone. *)
Lemma unrecognised_flags_ignored_witness :
  generateDailyWorkout constructor user plannedWorkout
    (mkFeedback (Some 7%Q) (Some 2%Q) (Some "Low") (Some ["elbow"; "left_knee"])) []
  = generateDailyWorkout constructor user plannedWorkout
      (mkFeedback (Some 7%Q) (Some 2%Q) (Some "Low") (Some ["left_knee"])) [].
Proof.
  exact (unrecognised_flags_ignored constructor user plannedWorkout
           (mkFeedback (Some 7%Q) (Some 2%Q) (Some "Low") (Some ["elbow"; "left_knee"]))
           [] ["elbow"; "left_knee"] eq_refl).
Defined.

(** A flag that spells "knee" with the Kelvin sign (U+212A, the bytes 226
    132 170) is recognised, since its lower-casing is "knee"; it does not
    contain "knee" as written, so the Squat it finds risky is replaced by the
    rest placeholder. *)
Lemma kelvin_sign_flag :
  let flag := (Text.utf8 [226; 132; 170]%nat ++ "nee")%string in
  let squat := mkExercise "sq" "Barbell Squat" (Some "compound") (Some ["quads"])
                          100 3 5 (Some 8%Q) in
  toLowerCase flag = "knee"
  /\ recognised flag = true
  /\ List.filter recognised ["elbow"; flag] = [flag]
  /\ isExerciseRisky squat flag = true
  /\ id (getSafeSubstitution squat flag) = "rest".
Proof. repeat split. Qed.

(** X7. A flag written in lower case never yields the rest placeholder: an
    exercise it finds risky is replaced by a Glute Bridge, a Push-up
    (Neutral Grip) or a Chest Supported Row, with three sets and the id of
    the exercise followed by "_sub".  Which of the three is decided by the
    flag alone, knee before shoulder before back, not by the risk list that
    the exercise was found in. *)
Theorem lowercase_flag_substitute (exercise : Exercise) (painArea : string) :
  toLowerCase painArea = painArea ->
  isExerciseRisky exercise painArea = true ->
  let sub := getSafeSubstitution exercise painArea in
  id sub = (id exercise ++ "_sub")%string
  /\ sets sub = 3
  /\ (name sub = "Glute Bridge" /\ includes painArea "knee" = true
      \/ name sub = "Push-up (Neutral Grip)" /\ includes painArea "knee" = false
         /\ includes painArea "shoulder" = true
      \/ name sub = "Chest Supported Row" /\ includes painArea "knee" = false
         /\ includes painArea "shoulder" = false /\ includes painArea "back" = true).
Proof.
  intros Hlower Hrisky. cbv zeta.
  rewrite isExerciseRisky_spec, Hlower in Hrisky.
  unfold getSafeSubstitution.
  destruct (includes painArea "knee") eqn:Hknee;
    [cbn; split; [| split; [| left]]; repeat split|].
  destruct (includes painArea "shoulder") eqn:Hshoulder;
    [cbn; split; [| split; [| right; left]]; repeat split|].
  destruct (includes painArea "back") eqn:Hback;
    [cbn; split; [| split; [| right; right]]; repeat split|].
  discriminate Hrisky.
Qed.

(** [lowercase_flag_substitute] at a Barbell Row under the flag
    "knee_and_back": the row is risky for the back and is replaced by the
    knee substitute. *)
Lemma lowercase_flag_substitute_witness :
  let row := mkExercise "row" "Barbell Row" (Some "compound") (Some ["back"])
                        60 3 10 (Some 8%Q) in
  id (getSafeSubstitution row "knee_and_back") = "row_sub"
  /\ sets (getSafeSubstitution row "knee_and_back") = 3
  /\ name (getSafeSubstitution row "knee_and_back") = "Glute Bridge".
Proof.
  cbv zeta.
  destruct (lowercase_flag_substitute
              (mkExercise "row" "Barbell Row" (Some "compound") (Some ["back"])
                          60 3 10 (Some 8%Q))
              "knee_and_back" eq_refl eq_refl) as (Hid & Hsets & Hname).
  split; [exact Hid|]. split; [exact Hsets|].
  destruct Hname as [[Hname _] | [(_ & Hknee & _) | (_ & Hknee & _)]];
    [exact Hname | discriminate Hknee | discriminate Hknee].
Defined.

(** X8. An exercise whose name contains none of the nine names of the risk
    lists is never substituted, whatever the pain flags: the slot comes back
    with its id, name, type, muscle groups, reps and target RPE, and its set
    count is the planned one after the volume cut. *)
Theorem unlisted_exercise_is_kept (this : Engine) (userProfile : User)
    (plannedWorkout : Workout) (dailyFeedback : Feedback)
    (lastPerformances : list ExercisePerformance) (flags : list string)
    (index : nat) (ex : Exercise) :
  painFlags dailyFeedback = Some flags ->
  exercises plannedWorkout !! index = Some ex ->
  listed ex = false ->
  exists ex',
    Slot.returned
      (generateDailyWorkout this userProfile plannedWorkout dailyFeedback
         lastPerformances) index = Some ex'
    /\ id ex' = id ex /\ name ex' = name ex /\ reps ex' = reps ex
    /\ sets ex' = sets (Slot.volume (calculateReadiness this dailyFeedback) ex).
Proof.
  intros Hflags Hex Hlisted.
  rewrite (returned_slot _ _ _ _ _ flags index Hflags), Hex. cbn [fmap option_fmap option_map].
  eexists. split; [reflexivity|].
  unfold Slot.adjust.
  rewrite (safety_not_risky ex flags)
    by (apply Forall_forall; intros painArea _; apply unlisted_not_risky, Hlisted).
  set (readiness := calculateReadiness this dailyFeedback).
  destruct (load_keeps readiness lastPerformances (Slot.volume readiness ex))
    as (-> & -> & -> & ->).
  destruct (volume_keeps readiness ex) as (-> & -> & _ & -> & _).
  repeat split.
Qed.

(** [unlisted_exercise_is_kept] at a plan with a Plank under a knee, a
    shoulder and a back flag. *)
Lemma unlisted_exercise_is_kept_witness :
  let plank := mkExercise "pl" "Plank" (Some "isolation") (Some ["core"])
                          0 3 1 (Some 8%Q) in
  exists ex',
    Slot.returned
      (generateDailyWorkout constructor user
         (mkWorkout "w2" "u1" "Core" [plank] "2024-01-01T00:00:00.000Z")
         (mkFeedback (Some 7%Q) (Some 2%Q) (Some "Low")
                     (Some ["knee"; "shoulder"; "lower_back"]))
         []) 0%nat = Some ex'
    /\ id ex' = "pl" /\ name ex' = "Plank".
Proof.
  cbv zeta.
  destruct (unlisted_exercise_is_kept constructor user
              (mkWorkout "w2" "u1" "Core"
                 [mkExercise "pl" "Plank" (Some "isolation") (Some ["core"])
                             0 3 1 (Some 8%Q)] "2024-01-01T00:00:00.000Z")
              (mkFeedback (Some 7%Q) (Some 2%Q) (Some "Low")
                          (Some ["knee"; "shoulder"; "lower_back"]))
              [] ["knee"; "shoulder"; "lower_back"] 0%nat
              (mkExercise "pl" "Plank" (Some "isolation") (Some ["core"])
                          0 3 1 (Some 8%Q))
              eq_refl eq_refl eq_refl) as (ex' & Hret & Hid & Hname & _).
  exists ex'. split; [exact Hret|]. split; [exact Hid | exact Hname].
Defined.

End SafetyExtra.

(** ** The whole call: its explanations, its slots, its history *)

Module PipelineExtra.

Import Reading PipelineProps SlotProps LoadProps SafetyExtra.

(** *** The explanations, stage by stage *)

Lemma volume_deload (readiness : Z) (exs : list Exercise) :
  readiness < 40 -> map (Slot.volume readiness) exs = map deloadSets exs.
Proof.
  intros H. apply map_ext. intros ex. unfold Slot.volume.
  destruct (Z.ltb_spec readiness 40); [reflexivity | lia].
Qed.

Lemma volume_reduce (readiness : Z) (exs : list Exercise) :
  40 <= readiness < 60 -> map (Slot.volume readiness) exs = map reduceSets exs.
Proof.
  intros H. apply map_ext. intros ex. unfold Slot.volume.
  destruct (Z.ltb_spec readiness 40); [lia|].
  destruct (Z.ltb_spec readiness 60); [reflexivity | lia].
Qed.

Lemma volume_keep (readiness : Z) (exs : list Exercise) :
  60 <= readiness -> map (Slot.volume readiness) exs = exs.
Proof.
  intros H. rewrite <- (map_id exs) at 2. apply map_ext. intros ex.
  apply volume_maintenance, H.
Qed.

(** The explanations of a returned decision are those of the safety check,
    then that of the volume stage, then those of the load stage. *)
Lemma generateDailyWorkout_explanations (this : Engine) (userProfile : User)
    (plannedWorkout : Workout) (dailyFeedback : Feedback)
    (lastPerformances : list ExercisePerformance) (flags : list string) :
  painFlags dailyFeedback = Some flags ->
  let readiness := calculateReadiness this dailyFeedback in
  Slot.returnedExplanations
    (generateDailyWorkout this userProfile plannedWorkout dailyFeedback lastPerformances)
  = snd (safetyCheck flags (exercises plannedWorkout, []))
    ++ volumeExplanations readiness dailyFeedback
    ++ loadExplanations readiness lastPerformances
         (map (Slot.volume readiness)
              (map (Slot.safety flags) (exercises plannedWorkout))).
Proof.
  intros Hflags readiness. unfold generateDailyWorkout, JSON_clone. rewrite Hflags.
  pose proof (safetyCheck_fst flags (exercises plannedWorkout, [])) as Hsafe.
  destruct (safetyCheck flags (exercises plannedWorkout, [])) as [exs1 pushed1].
  cbn [fst snd] in *. subst exs1. fold readiness.
  unfold adjustVolume, JSON_clone, volumeExplanations, loadExplanations.
  destruct (Z.ltb_spec readiness 40) as [H40 | H40];
    [| destruct (Z.ltb_spec readiness 60) as [H60 | H60]];
    cbn [volume_type workout negb AdjustmentType_eqb exercises set_exercises];
    destruct (Z.leb_spec 40 readiness) as [Hload | Hload]; try lia.
  - cbn. rewrite ?app_nil_r. reflexivity.
  - rewrite (volume_reduce readiness) by lia.
    destruct (loadProgression lastPerformances _) as [exs3 pushed3].
    cbn. rewrite <- app_assoc. reflexivity.
  - rewrite (volume_keep readiness) by lia.
    destruct (loadProgression lastPerformances _) as [exs3 pushed3].
    cbn. reflexivity.
Qed.

(** Each flag pushes at most one explanation per slot, all of them injury
    explanations. *)
Lemma explainSubstitute_fold (painArea : string) (exs : list Exercise)
    (pushed : list Explanation) :
  fold_left (Slot.explainSubstitute painArea) exs pushed
  = pushed ++ map (injuryExplanation painArea)
                  (List.filter (fun ex => isExerciseRisky ex painArea) exs).
Proof.
  revert pushed. induction exs as [| ex exs IH]; intros pushed; cbn [fold_left].
  - cbn. rewrite app_nil_r. reflexivity.
  - rewrite IH. unfold Slot.explainSubstitute. cbn [List.filter].
    destruct (isExerciseRisky ex painArea); [| reflexivity].
    cbn [map]. rewrite <- app_assoc. reflexivity.
Qed.

Lemma safety_fold_snd (flags : list string) (exs : list Exercise)
    (pushed : list Explanation) :
  exists injury,
    snd (fold_left substituteForPainArea flags (exs, pushed)) = pushed ++ injury
    /\ Forall (fun e => template e = InjuryPrevention) injury
    /\ (length injury <= length flags * length exs)%nat
    /\ (injury = [] -> fst (fold_left substituteForPainArea flags (exs, pushed)) = exs).
Proof.
  revert exs pushed. induction flags as [| painArea flags IH]; intros exs pushed.
  - exists []. cbn. rewrite app_nil_r. repeat split; auto.
  - cbn [fold_left]. rewrite substituteForPainArea_run. cbn [fst snd].
    rewrite explainSubstitute_fold.
    destruct (IH (map (Slot.substitute painArea) exs)
                 (pushed ++ map (injuryExplanation painArea)
                                (List.filter (fun ex => isExerciseRisky ex painArea) exs)))
      as (injury & Hsnd & Hall & Hlen & Hnone).
    exists (map (injuryExplanation painArea)
                (List.filter (fun ex => isExerciseRisky ex painArea) exs) ++ injury).
    split; [rewrite Hsnd, <- app_assoc; reflexivity|]. split; [| split].
    + apply Forall_app. split; [| exact Hall].
      apply List.Forall_forall. intros e He. apply in_map_iff in He as (ex & <- & _).
      reflexivity.
    + rewrite length_app. rewrite !length_map in *.
      pose proof (List.filter_length_le (fun ex => isExerciseRisky ex painArea) exs).
      cbn [length]. lia.
    + intros Hnil. apply app_eq_nil in Hnil as [Hhere Hrest].
      rewrite (Hnone Hrest).
      assert (Hnot : Forall (fun ex => isExerciseRisky ex painArea = false) exs).
      { apply List.Forall_forall. intros ex Hin.
        destruct (isExerciseRisky ex painArea) eqn:Hrisky; [| reflexivity].
        assert (Hf : In ex (List.filter (fun ex => isExerciseRisky ex painArea) exs))
          by (apply filter_In; split; [exact Hin | exact Hrisky]).
        apply map_eq_nil in Hhere. rewrite Hhere in Hf. destruct Hf. }
      clear -Hnot. induction Hnot as [| ex exs Hex _ IH]; cbn; [reflexivity|].
      unfold Slot.substitute at 1. rewrite Hex, IH. reflexivity.
Qed.

Lemma safetyCheck_snd (flags : list string) (exs : list Exercise) :
  exists injury,
    snd (safetyCheck flags (exs, [])) = injury
    /\ Forall (fun e => template e = InjuryPrevention) injury
    /\ (length injury <= length flags * length exs)%nat
    /\ (injury = [] -> map (Slot.safety flags) exs = exs).
Proof.
  destruct (safety_fold_snd flags exs []) as (injury & Hsnd & Hall & Hlen & Hnone).
  exists injury. pose proof (safetyCheck_fst flags (exs, [])) as Hfst.
  cbn [fst] in Hfst. rewrite <- Hfst. clear Hfst.
  unfold safetyCheck. destruct flags as [| painArea flags].
  - cbn in *. subst injury. repeat split; auto.
  - cbn [length Nat.ltb Nat.leb]. rewrite Hsnd. repeat split; auto.
Qed.

(** The load stage pushes at most one explanation per slot, a Go Mode or a
    Reset. *)
Lemma progressLoad_snd (lastPerformances : list ExercisePerformance) (ex : Exercise) :
  Forall (fun e => template e = GoMode \/ template e = Reset)
         (snd (progressLoad lastPerformances ex))
  /\ (length (snd (progressLoad lastPerformances ex)) <= 1)%nat.
Proof.
  unfold progressLoad.
  destruct (find _ lastPerformances) as [lastPerf |]; [| cbn; auto].
  destruct (adjustLoad_type (perf_weight lastPerf) (rpe lastPerf) (rpeTarget ex)
              (Some (lt (completedReps lastPerf) (inject_Z (reps ex)))))
    as [-> | [-> | ->]]; cbn; auto.
Qed.

Lemma loadProgression_kinds (lastPerformances : list ExercisePerformance)
    (exs : list Exercise) :
  Forall (fun e => template e = GoMode \/ template e = Reset)
         (snd (loadProgression lastPerformances exs))
  /\ (length (snd (loadProgression lastPerformances exs)) <= length exs)%nat.
Proof.
  induction exs as [| ex exs [IHall IHlen]]; cbn; [auto|].
  destruct (progressLoad_snd lastPerformances ex) as [Hall Hlen].
  destruct (progressLoad lastPerformances ex) as [ex' pushed].
  destruct (loadProgression lastPerformances exs) as [rest' pushed'].
  cbn [fst snd] in *. split.
  - apply Forall_app. split; assumption.
  - rewrite length_app. lia.
Qed.

(** X9. The explanations come in the order of the stages: first the injury
    explanations, at most one per flag and slot; then one Deload Week
    explanation when the readiness is below 40, one Energy Saver explanation
    when it is from 40 to below 60, none from 60 on; then the Go Mode and
    Reset explanations of the load stage, at most one per slot and none at
    all when the readiness is below 40.  A Steady State explanation is never
    pushed. *)
Theorem explanations_in_stage_order (this : Engine) (userProfile : User)
    (plannedWorkout : Workout) (dailyFeedback : Feedback)
    (lastPerformances : list ExercisePerformance) (flags : list string) :
  painFlags dailyFeedback = Some flags ->
  let readiness := calculateReadiness this dailyFeedback in
  let slots := length (exercises plannedWorkout) in
  exists injury volume load,
    Slot.returnedExplanations
      (generateDailyWorkout this userProfile plannedWorkout dailyFeedback
         lastPerformances)
    = injury ++ volume ++ load
    /\ Forall (fun e => template e = InjuryPrevention) injury
    /\ (length injury <= length flags * slots)%nat
    /\ map template volume
       = (if readiness <? 40 then [DeloadWeek]
          else if readiness <? 60 then [EnergySaver] else [])
    /\ Forall (fun e => template e = GoMode \/ template e = Reset) load
    /\ (length load <= slots)%nat
    /\ (readiness < 40 -> load = [])
    /\ Forall (fun e => template e <> SteadyState) (injury ++ volume ++ load).
Proof.
  intros Hflags readiness slots.
  rewrite (generateDailyWorkout_explanations _ _ _ _ _ flags Hflags). fold readiness.
  destruct (safetyCheck_snd flags (exercises plannedWorkout))
    as (injury & -> & Hinjury & Hlen & _).
  set (exs := map (Slot.volume readiness)
                  (map (Slot.safety flags) (exercises plannedWorkout))).
  assert (Hload : Forall (fun e => template e = GoMode \/ template e = Reset)
                         (loadExplanations readiness lastPerformances exs)
                  /\ (length (loadExplanations readiness lastPerformances exs)
                      <= slots)%nat).
  { unfold loadExplanations. destruct (40 <=? readiness); [| cbn; split; [auto | lia]].
    destruct (loadProgression_kinds lastPerformances exs) as [Hall Hle].
    split; [exact Hall|]. subst exs slots. rewrite !length_map in Hle. exact Hle. }
  destruct Hload as [Hkinds Hcount].
  assert (Hvolume : map template (volumeExplanations readiness dailyFeedback)
                    = (if readiness <? 40 then [DeloadWeek]
                       else if readiness <? 60 then [EnergySaver] else [])).
  { unfold volumeExplanations.
    destruct (readiness <? 40); [reflexivity|].
    destruct (readiness <? 60); reflexivity. }
  exists injury, (volumeExplanations readiness dailyFeedback),
    (loadExplanations readiness lastPerformances exs).
  split; [reflexivity|]. split; [exact Hinjury|]. split; [exact Hlen|].
  split; [exact Hvolume|]. split; [exact Hkinds|]. split; [exact Hcount|]. split.
  - intros H40. unfold loadExplanations.
    destruct (Z.leb_spec 40 readiness); [lia | reflexivity].
  - apply Forall_app. split; [| apply Forall_app; split].
    + eapply Forall_impl; [exact Hinjury|]. cbn. intros e ->. discriminate.
    + unfold volumeExplanations.
      destruct (readiness <? 40); [repeat constructor; discriminate|].
      destruct (readiness <? 60); repeat constructor; discriminate.
    + eapply Forall_impl; [exact Hkinds|]. cbn. intros e [-> | ->]; discriminate.
Qed.

(** [explanations_in_stage_order] at the test script's plan with a knee
    flag, a readiness of 55, a bench press record at RPE 10 and a row record
    at RPE 6: an injury explanation, an Energy Saver, a Reset and a Go Mode. *)
Lemma explanations_in_stage_order_witness :
  let feedback := mkFeedback (Some 5%Q) (Some 3%Q) (Some "High") (Some ["left_knee"]) in
  let history := [mkExercisePerformance "bp" 80 5 3 10;
                  mkExercisePerformance "row" 60 10 3 6] in
  map template
      (Slot.returnedExplanations
         (generateDailyWorkout constructor user plannedWorkout feedback history))
  = [InjuryPrevention; EnergySaver; Reset; GoMode]
  /\ Forall (fun e => template e <> SteadyState)
            (Slot.returnedExplanations
               (generateDailyWorkout constructor user plannedWorkout feedback history)).
Proof.
  cbv zeta. split; [reflexivity|].
  destruct (explanations_in_stage_order constructor user plannedWorkout
              (mkFeedback (Some 5%Q) (Some 3%Q) (Some "High") (Some ["left_knee"]))
              [mkExercisePerformance "bp" 80 5 3 10;
               mkExercisePerformance "row" 60 10 3 6] ["left_knee"] eq_refl)
    as (injury & volume & load & -> & _ & _ & _ & _ & _ & _ & Hnever).
  exact Hnever.
Defined.

(** The whole decision for feedback that has a [painFlags] list. *)
Lemma generateDailyWorkout_result (this : Engine) (userProfile : User)
    (plannedWorkout : Workout) (dailyFeedback : Feedback)
    (lastPerformances : list ExercisePerformance) (flags : list string) :
  painFlags dailyFeedback = Some flags ->
  let readiness := calculateReadiness this dailyFeedback in
  generateDailyWorkout this userProfile plannedWorkout dailyFeedback lastPerformances
  = Ok (mkDecision readiness
          (set_exercises
             (map (Slot.adjust readiness flags lastPerformances)
                  (exercises plannedWorkout))
             plannedWorkout)
          (snd (safetyCheck flags (exercises plannedWorkout, []))
           ++ volumeExplanations readiness dailyFeedback
           ++ loadExplanations readiness lastPerformances
                (map (Slot.volume readiness)
                     (map (Slot.safety flags) (exercises plannedWorkout))))).
Proof.
  intros Hflags. cbv zeta.
  pose proof (generateDailyWorkout_explanations this userProfile plannedWorkout
                dailyFeedback lastPerformances flags Hflags) as Hexpl.
  destruct (generateDailyWorkout_slots this userProfile plannedWorkout dailyFeedback
              lastPerformances flags Hflags) as [pushed Hrun].
  rewrite Hrun in Hexpl. cbn [Slot.returnedExplanations explanations] in Hexpl.
  cbv zeta in Hexpl. rewrite <- Hexpl. exact Hrun.
Qed.

Lemma later_stages_kinds (readiness : Z) (dailyFeedback : Feedback)
    (lastPerformances : list ExercisePerformance) (exs : list Exercise) :
  Forall (fun e => template e <> InjuryPrevention)
         (volumeExplanations readiness dailyFeedback
          ++ loadExplanations readiness lastPerformances exs).
Proof.
  apply Forall_app. split.
  - unfold volumeExplanations.
    destruct (readiness <? 40); [repeat constructor; discriminate|].
    destruct (readiness <? 60); repeat constructor; discriminate.
  - unfold loadExplanations. destruct (40 <=? readiness); [| constructor].
    destruct (loadProgression_kinds lastPerformances exs) as [Hall _].
    eapply Forall_impl; [exact Hall|]. cbn. intros e [-> | ->]; discriminate.
Qed.

Lemma map_fixed {A} (f : A -> A) (l : list A) :
  map f l = l -> Forall (fun x => f x = x) l.
Proof.
  induction l as [| x l IH]; cbn; intros H; constructor.
  - congruence.
  - apply IH. congruence.
Qed.

(** X10. No substitution goes unexplained: when the explanations of the
    result hold no injury explanation, no slot was replaced, so every
    returned exercise has the id, the name and the reps of the planned one.
    (Read the other way: a slot whose id or name differs from the plan comes
    with an injury explanation.) *)
Theorem substitutions_are_explained (this : Engine) (userProfile : User)
    (plannedWorkout : Workout) (dailyFeedback : Feedback)
    (lastPerformances : list ExercisePerformance) (flags : list string) :
  painFlags dailyFeedback = Some flags ->
  Forall (fun e => template e <> InjuryPrevention)
         (Slot.returnedExplanations
            (generateDailyWorkout this userProfile plannedWorkout dailyFeedback
               lastPerformances)) ->
  Forall2 (fun ex ex' => id ex' = id ex /\ name ex' = name ex /\ reps ex' = reps ex)
          (exercises plannedWorkout)
          (Slot.returnedExercises
             (generateDailyWorkout this userProfile plannedWorkout dailyFeedback
                lastPerformances)).
Proof.
  intros Hflags.
  rewrite (generateDailyWorkout_result _ _ _ _ _ flags Hflags).
  cbn [Slot.returnedExplanations Slot.returnedExercises explanations decision_workout
       exercises set_exercises].
  destruct (safetyCheck_snd flags (exercises plannedWorkout))
    as (injury & -> & Hinjury & _ & Hnone).
  intros Hsilent. apply Forall_app in Hsilent as [Hsilent _].
  assert (Hnil : injury = []).
  { destruct injury as [| e injury]; [reflexivity|].
    apply Forall_cons in Hinjury as [He _]. apply Forall_cons in Hsilent as [Hne _].
    contradiction. }
  pose proof (map_fixed _ _ (Hnone Hnil)) as Hkept.
  apply Forall2_fmap_r, Forall_Forall2_diag.
  eapply Forall_impl; [exact Hkept|]. cbn. intros ex Hex.
  unfold Slot.adjust. rewrite Hex.
  set (readiness := calculateReadiness this dailyFeedback).
  destruct (load_keeps readiness lastPerformances (Slot.volume readiness ex))
    as (-> & -> & _ & ->).
  destruct (volume_keeps readiness ex) as (-> & -> & _ & -> & _).
  repeat split.
Qed.

(** [substitutions_are_explained] at the test script's plan with a shoulder
    flag spelt "sholder" and a readiness of 55: no injury explanation, and
    the three planned names come back. *)
Lemma substitutions_are_explained_witness :
  let feedback := mkFeedback (Some 5%Q) (Some 3%Q) (Some "High") (Some ["sholder"]) in
  Forall2 (fun ex ex' => id ex' = id ex /\ name ex' = name ex /\ reps ex' = reps ex)
          (exercises plannedWorkout)
          (Slot.returnedExercises
             (generateDailyWorkout constructor user plannedWorkout feedback historyA)).
Proof.
  cbv zeta.
  apply (substitutions_are_explained constructor user plannedWorkout
           (mkFeedback (Some 5%Q) (Some 3%Q) (Some "High") (Some ["sholder"]))
           historyA ["sholder"] eq_refl).
  vm_compute. repeat constructor; discriminate.
Defined.

(** X11. With a single pain flag the injury explanations are exactly one per
    planned exercise that [isExerciseRisky] finds risky, in the order of the
    slots, each holding the flag, the name of the planned exercise and the
    name of its substitute; no later explanation is an injury explanation. *)
Theorem one_explanation_per_risky_exercise (this : Engine) (userProfile : User)
    (plannedWorkout : Workout) (dailyFeedback : Feedback)
    (lastPerformances : list ExercisePerformance) (painArea : string) :
  painFlags dailyFeedback = Some [painArea] ->
  exists later,
    Slot.returnedExplanations
      (generateDailyWorkout this userProfile plannedWorkout dailyFeedback
         lastPerformances)
    = map (fun ex =>
             mkExplanation InjuryPrevention
               (mkContext (Some painArea) (Some (name ex))
                          (Some (name (getSafeSubstitution ex painArea)))
                          None None None None))
          (List.filter (fun ex => isExerciseRisky ex painArea)
                       (exercises plannedWorkout))
      ++ later
    /\ Forall (fun e => template e <> InjuryPrevention) later.
Proof.
  intros Hflags.
  rewrite (generateDailyWorkout_explanations _ _ _ _ _ [painArea] Hflags). cbv zeta.
  eexists. split; [| apply later_stages_kinds].
  f_equal. unfold safetyCheck. cbn [length Nat.ltb Nat.leb fold_left].
  rewrite substituteForPainArea_run. cbn [fst snd].
  rewrite explainSubstitute_fold. reflexivity.
Qed.

(** [one_explanation_per_risky_exercise] at the test script's plan under the
    flag "lower_back": the Barbell Row is the one risky exercise. *)
Lemma one_explanation_per_risky_exercise_witness :
  exists later,
    Slot.returnedExplanations
      (generateDailyWorkout constructor user plannedWorkout
         (mkFeedback (Some 7%Q) (Some 2%Q) (Some "Low") (Some ["lower_back"])) [])
    = [mkExplanation InjuryPrevention
         (mkContext (Some "lower_back") (Some "Barbell Row")
                    (Some "Chest Supported Row") None None None None)]
      ++ later
    /\ Forall (fun e => template e <> InjuryPrevention) later.
Proof.
  exact (one_explanation_per_risky_exercise constructor user plannedWorkout
           (mkFeedback (Some 7%Q) (Some 2%Q) (Some "Low") (Some ["lower_back"])) []
           "lower_back" eq_refl).
Defined.

(** *** The slots *)

(** X12. The slots are adjusted independently.  When the call returns a
    decision, the decision holds the readiness of [calculateReadiness], its
    workout differs from the plan in its exercises only and has as many of
    them, and the exercise returned in a slot depends on the plan through the
    exercise planned in that slot only: another plan with the same exercise
    in that slot, if the call returns for it, gets the same exercise there,
    whatever its other slots hold. *)
Theorem slots_are_independent (this : Engine) (userProfile : User)
    (plannedWorkout : Workout) (dailyFeedback : Feedback)
    (lastPerformances : list ExercisePerformance) (d : Decision) :
  generateDailyWorkout this userProfile plannedWorkout dailyFeedback lastPerformances
    = Ok d ->
  readinessScore d = calculateReadiness this dailyFeedback
  /\ set_exercises (exercises plannedWorkout) (decision_workout d) = plannedWorkout
  /\ length (exercises (decision_workout d)) = length (exercises plannedWorkout)
  /\ (forall (otherPlan : Workout) (d' : Decision) (index : nat),
        generateDailyWorkout this userProfile otherPlan dailyFeedback lastPerformances
          = Ok d' ->
        exercises otherPlan !! index = exercises plannedWorkout !! index ->
        exercises (decision_workout d') !! index
        = exercises (decision_workout d) !! index).
Proof.
  intros Hd.
  destruct (painFlags dailyFeedback) as [flags |] eqn:Hflags.
  2: { destruct (generateDailyWorkout_no_painFlags this userProfile plannedWorkout
                   dailyFeedback lastPerformances Hflags) as [message Hthrow].
       congruence. }
  pose proof (generateDailyWorkout_result this userProfile plannedWorkout
                dailyFeedback lastPerformances flags Hflags) as Hrun.
  cbv zeta in Hrun. rewrite Hrun in Hd. injection Hd as <-.
  cbn [readinessScore decision_workout exercises set_exercises].
  split; [reflexivity|]. split; [destruct plannedWorkout; reflexivity|].
  split; [apply length_map|].
  intros otherPlan d' index Hd' Hsame.
  pose proof (generateDailyWorkout_result this userProfile otherPlan
                dailyFeedback lastPerformances flags Hflags) as Hrun'.
  cbv zeta in Hrun'. rewrite Hrun' in Hd'. injection Hd' as <-.
  cbn [decision_workout exercises set_exercises].
  rewrite !list_lookup_fmap, Hsame. reflexivity.
Qed.

(** [slots_are_independent] at the test script's plan and a plan that
    shares its first slot only: slot 0 comes back the same. *)
Lemma slots_are_independent_witness :
  let otherPlan :=
    mkWorkout "w9" "u1" "Other"
      [ mkExercise "sq" "Barbell Squat" (Some "compound") (Some ["quads"]) 100 3 5
                   (Some 8%Q);
        mkExercise "pl" "Plank" None None 0 3 1 None ] "2024-02-02" in
  Slot.returned (generateDailyWorkout constructor user otherPlan feedbackC historyA) 0%nat
  = Slot.returned (generateDailyWorkout constructor user plannedWorkout feedbackC historyA)
                  0%nat.
Proof.
  cbv zeta.
  destruct (generateDailyWorkout constructor user plannedWorkout feedbackC historyA)
    as [d | message] eqn:Hd; [| discriminate Hd].
  destruct (generateDailyWorkout constructor user
              (mkWorkout "w9" "u1" "Other"
                 [ mkExercise "sq" "Barbell Squat" (Some "compound") (Some ["quads"])
                              100 3 5 (Some 8%Q);
                   mkExercise "pl" "Plank" None None 0 3 1 None ] "2024-02-02")
              feedbackC historyA) as [d' | message] eqn:Hd'; [| discriminate Hd'].
  destruct (slots_are_independent constructor user plannedWorkout feedbackC historyA
              d Hd) as (_ & _ & _ & Hslot).
  cbn [Slot.returned]. exact (Hslot _ d' 0%nat Hd' eq_refl).
Defined.

(** *** The history *)

Lemma progressLoad_lookup (history history' : list ExercisePerformance)
    (ex : Exercise) :
  Slot.lookupPerformance history (id ex) = Slot.lookupPerformance history' (id ex) ->
  progressLoad history ex = progressLoad history' ex.
Proof. unfold Slot.lookupPerformance, progressLoad. intros ->. reflexivity. Qed.

Lemma loadProgression_lookup (history history' : list ExercisePerformance)
    (exs : list Exercise) :
  (forall key, Slot.lookupPerformance history key = Slot.lookupPerformance history' key) ->
  loadProgression history exs = loadProgression history' exs.
Proof.
  intros Hsame. induction exs as [| ex exs IH]; cbn; [reflexivity|].
  rewrite (progressLoad_lookup history history' ex (Hsame _)), IH. reflexivity.
Qed.

(** The engine reads the history through [find] only. *)
Lemma generateDailyWorkout_lookup (this : Engine) (userProfile : User)
    (plannedWorkout : Workout) (dailyFeedback : Feedback)
    (history history' : list ExercisePerformance) :
  (forall key, Slot.lookupPerformance history key = Slot.lookupPerformance history' key) ->
  generateDailyWorkout this userProfile plannedWorkout dailyFeedback history
  = generateDailyWorkout this userProfile plannedWorkout dailyFeedback history'.
Proof.
  intros Hsame. unfold generateDailyWorkout.
  destruct (painFlags dailyFeedback) as [flags |]; [| reflexivity].
  destruct (safetyCheck flags _) as [exs pushed].
  destruct (negb _); destruct (40 <=? _); try reflexivity;
    rewrite (loadProgression_lookup history history' _ Hsame); reflexivity.
Qed.

Lemma lookup_later (pre mid post : list ExercisePerformance)
    (first later : ExercisePerformance) (key : string) :
  exerciseId later = exerciseId first ->
  Slot.lookupPerformance (pre ++ first :: mid ++ later :: post) key
  = Slot.lookupPerformance (pre ++ first :: mid ++ post) key.
Proof.
  intros Hid. unfold Slot.lookupPerformance.
  induction pre as [| p pre IH]; cbn [app find].
  - destruct (String.eqb (exerciseId first) key) eqn:Hfirst; [reflexivity|].
    induction mid as [| m mid IHm]; cbn [app find].
    + rewrite Hid, Hfirst. reflexivity.
    + destruct (String.eqb (exerciseId m) key); [reflexivity | exact IHm].
  - destruct (String.eqb (exerciseId p) key); [reflexivity | exact IH].
Qed.

(** X13. Of the performance records of one exercise only the first in the
    list is used: a later record with the same [exerciseId] changes nothing,
    whatever it holds and whether the call returns or throws. *)
Theorem later_records_ignored (this : Engine) (userProfile : User)
    (plannedWorkout : Workout) (dailyFeedback : Feedback)
    (pre mid post : list ExercisePerformance) (first later : ExercisePerformance) :
  exerciseId later = exerciseId first ->
  generateDailyWorkout this userProfile plannedWorkout dailyFeedback
    (pre ++ first :: mid ++ later :: post)
  = generateDailyWorkout this userProfile plannedWorkout dailyFeedback
      (pre ++ first :: mid ++ post).
Proof.
  intros Hid. apply generateDailyWorkout_lookup. intros key.
  apply lookup_later, Hid.
Qed.

(** [later_records_ignored] at the test script's history followed by a
    second, harder squat record. *)
Lemma later_records_ignored_witness :
  generateDailyWorkout constructor user plannedWorkout feedbackA
    (historyA ++ [mkExercisePerformance "sq" 120 3 3 10])
  = generateDailyWorkout constructor user plannedWorkout feedbackA historyA.
Proof.
  exact (later_records_ignored constructor user plannedWorkout feedbackA []
           [mkExercisePerformance "bp" 80 5 3 8; mkExercisePerformance "row" 60 10 3 9]
           [] (mkExercisePerformance "sq" 100 5 3 7)
           (mkExercisePerformance "sq" 120 3 3 10) eq_refl).
Defined.

(** X14. Below a readiness of 40 the history is not read: the call returns
    what it returns for an empty history, so no weight is changed and no
    weight of the last session is carried over. *)
Theorem low_readiness_ignores_history (this : Engine) (userProfile : User)
    (plannedWorkout : Workout) (dailyFeedback : Feedback)
    (lastPerformances : list ExercisePerformance) :
  calculateReadiness this dailyFeedback < 40 ->
  generateDailyWorkout this userProfile plannedWorkout dailyFeedback lastPerformances
  = generateDailyWorkout this userProfile plannedWorkout dailyFeedback [].
Proof.
  intros Hlow. unfold generateDailyWorkout.
  destruct (painFlags dailyFeedback) as [flags |]; [| reflexivity].
  destruct (safetyCheck flags _) as [exs pushed].
  destruct (Z.leb_spec 40 (calculateReadiness this dailyFeedback)); [lia|].
  reflexivity.
Qed.

(** [low_readiness_ignores_history] at a readiness of 35. *)
Lemma low_readiness_ignores_history_witness :
  let tired := mkFeedback (Some 3%Q) (Some 4%Q) (Some "High") (Some []) in
  calculateReadiness constructor tired = 35
  /\ generateDailyWorkout constructor user plannedWorkout tired historyA
     = generateDailyWorkout constructor user plannedWorkout tired [].
Proof.
  cbv zeta. split; [reflexivity|].
  apply (low_readiness_ignores_history constructor user plannedWorkout
           (mkFeedback (Some 3%Q) (Some 4%Q) (Some "High") (Some [])) historyA).
  vm_compute. reflexivity.
Defined.

(** X15. Nothing to adjust: with no recognised pain flag, a readiness of 60
    or more and no performance record for any planned exercise, the call
    returns the plan as it is, with no explanation. *)
Theorem nothing_to_adjust (this : Engine) (userProfile : User)
    (plannedWorkout : Workout) (dailyFeedback : Feedback)
    (lastPerformances : list ExercisePerformance) (flags : list string) :
  painFlags dailyFeedback = Some flags ->
  Forall (fun painArea => recognised painArea = false) flags ->
  60 <= calculateReadiness this dailyFeedback ->
  Forall (fun ex => Slot.lookupPerformance lastPerformances (id ex) = None)
         (exercises plannedWorkout) ->
  generateDailyWorkout this userProfile plannedWorkout dailyFeedback lastPerformances
  = Ok (mkDecision (calculateReadiness this dailyFeedback) plannedWorkout []).
Proof.
  intros Hflags Hunrecognised Hready Hnone.
  rewrite (generateDailyWorkout_result _ _ _ _ _ flags Hflags). cbv zeta.
  set (readiness := calculateReadiness this dailyFeedback) in *.
  assert (Hsafe : forall ex, Slot.safety flags ex = ex).
  { intros ex. apply safety_not_risky.
    eapply Forall_impl; [exact Hunrecognised|]. cbn. intros painArea.
    apply unrecognised_not_risky. }
  assert (Hmap : map (Slot.safety flags) (exercises plannedWorkout)
                 = exercises plannedWorkout).
  { rewrite <- (map_id (exercises plannedWorkout)) at 2. apply map_ext, Hsafe. }
  rewrite Hmap, (volume_keep readiness) by exact Hready.
  f_equal. f_equal.
  - replace (map (Slot.adjust readiness flags lastPerformances)
                 (exercises plannedWorkout))
      with (exercises plannedWorkout); [destruct plannedWorkout; reflexivity|].
    rewrite <- (map_id (exercises plannedWorkout)) at 1.
    apply List.map_ext_Forall.
    eapply Forall_impl; [exact Hnone|]. cbn. intros ex Hex.
    unfold Slot.adjust. rewrite Hsafe, volume_maintenance by exact Hready.
    symmetry. apply load_unmatched, Hex.
  - assert (Hidle : snd (safetyCheck flags (exercises plannedWorkout, [])) = []).
    { rewrite safetyCheck_filter.
      replace (List.filter recognised flags) with (@nil string); [reflexivity|].
      clear -Hunrecognised.
      induction Hunrecognised as [| painArea flags Hp _ IH]; cbn [List.filter];
        [reflexivity|].
      rewrite Hp. exact IH. }
    rewrite Hidle. unfold volumeExplanations, loadExplanations.
    destruct (Z.ltb_spec readiness 40); [lia|].
    destruct (Z.ltb_spec readiness 60); [lia|].
    destruct (40 <=? readiness); [| reflexivity]. cbn [app].
    clear -Hnone. induction Hnone as [| ex exs Hex _ IH]; cbn; [reflexivity|].
    rewrite (progressLoad_unmatched _ _ Hex).
    destruct (loadProgression lastPerformances exs) as [rest' pushed'].
    cbn in *. exact IH.
Qed.

(** [nothing_to_adjust] at the test script's plan on a good day with an
    elbow flag and the record of another exercise. *)
Lemma nothing_to_adjust_witness :
  generateDailyWorkout constructor user plannedWorkout
    (mkFeedback (Some 8%Q) (Some 2%Q) (Some "Low") (Some ["elbow"]))
    [mkExercisePerformance "curl" 20 10 3 6]
  = Ok (mkDecision 85 plannedWorkout []).
Proof.
  apply (nothing_to_adjust constructor user plannedWorkout
           (mkFeedback (Some 8%Q) (Some 2%Q) (Some "Low") (Some ["elbow"]))
           [mkExercisePerformance "curl" 20 10 3 6] ["elbow"] eq_refl).
  - repeat constructor.
  - vm_compute. discriminate.
  - repeat constructor.
Defined.

End PipelineExtra.

(** ** The engine over the store: fresh copies *)

Module StoreExtra.

Import Store StoreView StoreProps.

Local Open Scope nat_scope.

(** A reference that reads as a workout is a reference of the store. *)
Lemma JSON_stringify_allocated (w : loc) (s : store) (v : Workout) :
  fst (JSON_stringify w s) = Ok v -> w < length s.
Proof.
  unfold JSON_stringify, bind, getWorkout, bind, deref.
  destruct (s !! w) as [o |] eqn:Hw; [| intros H; discriminate H].
  intros _. apply lookup_lt_Some in Hw. exact Hw.
Qed.

(** What [represents] says about the objects of a working copy. *)
Lemma represents_fresh (mark : nat) (s : store) (w arr : loc) (v : Workout) :
  represents mark s w arr v ->
  mark <= w /\ mark <= arr
  /\ (exists o, s !! w = Some (WorkoutObj o) /\ o_exercises o = arr)
  /\ exists elements,
       s !! arr = Some (ArrayObject elements)
       /\ NoDup elements /\ Forall (fun l => mark <= l) elements
       /\ length elements = length (exercises v).
Proof.
  intros (Hw & Harr & Hsw & elements & Hsa & Hnd & Hall).
  split; [exact Hw|]. split; [exact Harr|]. split; [eexists; split; [exact Hsw | reflexivity]|].
  exists elements. split; [exact Hsa|]. split; [exact Hnd|]. split.
  - clear -Hall. induction Hall as [| l ex ls exs [Hl _] _ IH]; constructor; assumption.
  - eapply Forall2_length, Hall.
Qed.

(** X16. The clone [JSON.parse(JSON.stringify(plannedWorkout))] round-trips:
    for a reference that reads as the workout [v], the clone is a reference
    allocated by the call, different from the original, that reads as [v];
    the original still reads as [v], and every object of the store the call
    was started in is unchanged. *)
Theorem JSON_clone_round_trip (plannedWorkout : loc) (s : store) (v : Workout) :
  fst (JSON_stringify plannedWorkout s) = Ok v ->
  exists w' s',
    JSON_clone plannedWorkout s = (Ok w', s')
    /\ JSON_stringify w' s' = (Ok v, s')
    /\ fst (JSON_stringify plannedWorkout s') = Ok v
    /\ s `prefix_of` s'
    /\ length s <= w' /\ w' <> plannedWorkout.
Proof.
  intros Hplan.
  destruct (JSON_parse_represents (length s) v s (le_n _))
    as (t & w' & arr' & Hparse & Hrep).
  exists w', (s ++ t).
  assert (Hpre : s `prefix_of` s ++ t) by (apply prefix_app_r; reflexivity).
  split.
  { unfold JSON_clone. erewrite bind_ok; [exact Hparse|].
    rewrite JSON_stringify_run, Hplan. reflexivity. }
  split; [exact (JSON_stringify_represents _ _ _ _ _ Hrep)|].
  split; [exact (snapshot_stable _ _ _ _ Hpre Hplan)|].
  split; [exact Hpre|].
  pose proof (JSON_stringify_allocated _ _ _ Hplan) as Hlt.
  destruct Hrep as (Hw & _). split; [exact Hw | lia].
Qed.

(** [JSON_clone_round_trip] on the store of the test script: the clone of
    the plan at reference 4 is at reference 9. *)
Lemma JSON_clone_round_trip_witness :
  exists w' s',
    JSON_clone 4 testStore = (Ok w', s')
    /\ JSON_stringify w' s' = (Ok TrainingEngine.plannedWorkout, s')
    /\ w' <> 4.
Proof.
  destruct (JSON_clone_round_trip 4 testStore TrainingEngine.plannedWorkout eq_refl)
    as (w' & s' & Hclone & Hread & _ & _ & _ & Hne).
  exists w', s'. split; [exact Hclone|]. split; [exact Hread | exact Hne].
Defined.

(** X17. The workout of a returned decision is a fresh object graph: the
    workout object, its exercise array and every exercise object in the
    array were allocated by the call (none is an object of the store the
    call was started in, so none is shared with the plan), the array holds
    no object twice, and read as a value the workout is the one the engine
    on values returns; the readiness and the explanations are the same.  The
    plan still reads as it did. *)
Theorem returned_workout_is_fresh (this : TrainingEngine.Engine) (userProfile : User)
    (plannedWorkout : loc) (dailyFeedback : Feedback)
    (lastPerformances : list ExercisePerformance) (s0 : store) (v : Workout)
    (d : TrainingEngine.Decision) :
  fst (JSON_stringify plannedWorkout s0) = Ok v ->
  TrainingEngine.generateDailyWorkout this userProfile v dailyFeedback lastPerformances
    = Ok d ->
  exists w' arr' elements s',
    generateDailyWorkout this userProfile plannedWorkout dailyFeedback
      lastPerformances s0
    = (Ok (mkDecision (TrainingEngine.readinessScore d) w'
                      (TrainingEngine.explanations d)), s')
    /\ JSON_stringify w' s' = (Ok (TrainingEngine.decision_workout d), s')
    /\ fst (JSON_stringify plannedWorkout s') = Ok v
    /\ (exists o, s' !! w' = Some (WorkoutObj o) /\ o_exercises o = arr')
    /\ s' !! arr' = Some (ArrayObject elements)
    /\ length s0 <= w' /\ length s0 <= arr'
    /\ Forall (fun l => length s0 <= l) elements
    /\ NoDup elements.
Proof.
  intros Hplan Hd.
  destruct (generateDailyWorkout_run this userProfile plannedWorkout dailyFeedback
              lastPerformances s0 v Hplan) as (s' & Hpre & Hrun).
  rewrite Hd in Hrun. destruct Hrun as (w' & arr' & Hrun & [_ Hrep]).
  destruct (represents_fresh _ _ _ _ _ Hrep)
    as (Hw & Harr & Hobj & elements & Hsa & Hnd & Hall & _).
  exists w', arr', elements, s'.
  split; [exact Hrun|].
  split; [exact (JSON_stringify_represents _ _ _ _ _ Hrep)|].
  split; [exact (snapshot_stable _ _ _ _ Hpre Hplan)|].
  repeat split; assumption.
Qed.

(** [returned_workout_is_fresh] on the store of the test script (5 objects)
    for the knee scenario: the returned workout is above reference 4. *)
Lemma returned_workout_is_fresh_witness :
  exists w' s',
    fst (generateDailyWorkout TrainingEngine.constructor TrainingEngine.user 4
           TrainingEngine.feedbackC TrainingEngine.historyA testStore)
    = Ok (mkDecision 80 w'
            (Slot.returnedExplanations
               (TrainingEngine.generateDailyWorkout TrainingEngine.constructor
                  TrainingEngine.user TrainingEngine.plannedWorkout
                  TrainingEngine.feedbackC TrainingEngine.historyA)))
    /\ 5 <= w'
    /\ fst (JSON_stringify 4 s') = Ok TrainingEngine.plannedWorkout.
Proof.
  destruct (TrainingEngine.generateDailyWorkout TrainingEngine.constructor
              TrainingEngine.user TrainingEngine.plannedWorkout
              TrainingEngine.feedbackC TrainingEngine.historyA) as [d | message] eqn:Hd;
    [| discriminate Hd].
  destruct (returned_workout_is_fresh TrainingEngine.constructor TrainingEngine.user 4
              TrainingEngine.feedbackC TrainingEngine.historyA testStore
              TrainingEngine.plannedWorkout d eq_refl Hd)
    as (w' & arr' & elements & s' & Hrun & _ & Hplan & _ & _ & Hw & _).
  exists w', s'. rewrite Hrun. cbn [fst Slot.returnedExplanations].
  injection Hd as <-. split; [reflexivity|]. split; [exact Hw | exact Hplan].
Defined.

(** X18. [Autoregulator.adjustVolume] always works on a clone, in the
    MAINTENANCE tier too: for a reference that reads as the workout [v] it
    returns a workout object allocated by the call, different from the one
    it was given, that reads as the workout [adjustVolume] on values returns
    for [v], with the same kind; the workout it was given still reads as
    [v]. *)
Theorem adjustVolume_returns_a_clone (plannedWorkout : loc) (readinessScore : Z)
    (s0 : store) (v : Workout) :
  fst (JSON_stringify plannedWorkout s0) = Ok v ->
  exists w' s',
    adjustVolume plannedWorkout readinessScore s0
    = (Ok (w', Autoregulator.volume_type (Autoregulator.adjustVolume v readinessScore)),
       s')
    /\ JSON_stringify w' s'
       = (Ok (Autoregulator.workout (Autoregulator.adjustVolume v readinessScore)), s')
    /\ fst (JSON_stringify plannedWorkout s') = Ok v
    /\ length s0 <= w' /\ w' <> plannedWorkout.
Proof.
  intros Hplan.
  destruct (JSON_parse_represents (length s0) v s0 (le_n _))
    as (t & w & arr & Hparse & Hrep).
  assert (Hwork : working s0 (s0 ++ t) w arr v)
    by (split; [apply prefix_app_r; reflexivity | exact Hrep]).
  assert (Hclone : JSON_clone plannedWorkout s0 = (Ok w, s0 ++ t)).
  { unfold JSON_clone. erewrite bind_ok; [exact Hparse|].
    rewrite JSON_stringify_run, Hplan. reflexivity. }
  destruct (volume_loops_run s0 w arr _ v readinessScore Hwork)
    as (s2 & Hrun & [Hpre Hrep2] & _).
  exists w, s2. unfold adjustVolume. run Hclone.
  split; [exact Hrun|].
  split; [exact (JSON_stringify_represents _ _ _ _ _ Hrep2)|].
  split; [exact (snapshot_stable _ _ _ _ Hpre Hplan)|].
  pose proof (JSON_stringify_allocated _ _ _ Hplan) as Hlt.
  destruct Hrep2 as (Hw & _). split; [exact Hw | lia].
Qed.

(** [adjustVolume_returns_a_clone] on the store of the test script at a
    readiness of 80: MAINTENANCE, and a workout object other than the plan. *)
Lemma adjustVolume_returns_a_clone_witness :
  exists w' s',
    adjustVolume 4 80 testStore = (Ok (w', MAINTENANCE), s')
    /\ JSON_stringify w' s' = (Ok TrainingEngine.plannedWorkout, s')
    /\ w' <> 4.
Proof.
  destruct (adjustVolume_returns_a_clone 4 80 testStore TrainingEngine.plannedWorkout
              eq_refl) as (w' & s' & Hrun & Hread & _ & _ & Hne).
  exists w', s'. split; [exact Hrun|]. split; [exact Hread | exact Hne].
Defined.

End StoreExtra.

(** ** The request handler *)

Module ServerExtra.

Import Reading Models Server PartialProps.

(** The exercise objects the handler builds have a name exactly when the
    payload's have. *)
Lemma new_Exercise_nameless (exs : list Partial.Exercise) :
  existsb Complete.nameless
    (map (fun e =>
            new_Exercise (Partial.id e) (Partial.name e) (Partial.type e)
              (Partial.muscleGroups e) (Partial.weight e) (Partial.sets e)
              (Partial.reps e) (Partial.rpeTarget e)) exs)
  = existsb Complete.nameless exs.
Proof.
  induction exs as [| e exs IH]; [reflexivity|].
  cbn [map existsb]. rewrite IH. reflexivity.
Qed.

(** The pain flags the engine is handed for a [painFlags] property. *)
Lemma new_Feedback_painFlags (feedback : PayloadFeedback) :
  painFlags (new_Feedback (payload_sleepQuality feedback) (payload_soreness feedback)
                          (payload_stressLevel feedback) (payload_painFlags feedback))
  = match payload_painFlags feedback with
    | Absent => Some []
    | Null => None
    | Value flags => Some flags
    end.
Proof. reflexivity. Qed.

(** The answer for a payload that has the four objects: what the engine
    does with the objects built from them. *)
Lemma handle_outcome (now : string) (body : Payload) (user' : User)
    (feedback : PayloadFeedback) (planned : PayloadWorkout)
    (exercises' : list Partial.Exercise) :
  payload_user body = Some user' ->
  payload_feedback body = Some feedback ->
  payload_plannedWorkout body = Some planned ->
  payload_exercises planned = Some exercises' ->
  let feedbackObj :=
    new_Feedback (payload_sleepQuality feedback) (payload_soreness feedback)
                 (payload_stressLevel feedback) (payload_painFlags feedback) in
  match painFlags feedbackObj with
  | None => exists message, handle now body = ServerError message
  | Some flags =>
      if (existsb recognised flags && existsb Complete.nameless exercises')%bool then
        exists message, handle now body = ServerError message
      else
        exists exs' pushed,
          handle now body
          = Success
              (Partial.mkDecision (calculateReadiness engine feedbackObj)
                 (Partial.mkWorkout (payload_id planned) (payload_userId planned)
                                    (payload_name planned) (Some exs') now)
                 pushed)
          /\ length exs' = length exercises'
  end.
Proof.
  intros Huser Hfeedback Hplanned Hexercises. cbv zeta.
  unfold handle. rewrite Hfeedback, Hplanned, Hexercises, Huser.
  match goal with
  | |- context [Partial.generateDailyWorkout ?e ?u ?w ?f ?h] =>
      pose proof (generateDailyWorkout_outcome e u w f h) as Hout;
      cbv zeta in Hout;
      destruct (painFlags f) as [flags |]
  end.
  2: { destruct Hout as [message ->]. exists message. reflexivity. }
  cbn [new_Workout Partial.exercises default from_option] in Hout.
  unfold Datatypes.id in Hout.
  rewrite new_Exercise_nameless in Hout.
  destruct (existsb recognised flags && existsb Complete.nameless exercises')%bool.
  - destruct Hout as [message ->]. exists message. reflexivity.
  - destruct Hout as (exs' & pushed & -> & Hlen).
    exists exs', pushed. split; [reflexivity|].
    rewrite Hlen. apply length_map.
Qed.

(** X19. A payload that has [user], [feedback], [plannedWorkout] and
    [plannedWorkout.exercises], whose [painFlags] is a list or absent, and in
    which no pain flag is recognised or every exercise has a name, is
    answered with status success.  The decision holds the readiness of the
    feedback and a workout with the id, user id and name of the planned one,
    the date of the request and as many exercises as planned.  An absent
    [painFlags] is answered as the empty list (the [Feedback] constructor
    fills it in, so the engine's read of [painFlags.length] does not throw)
    and a missing [history] as the empty history.  (The properties of the
    payload hold values of their type where they are present.) *)
Theorem handle_succeeds (now : string) (body : Payload) (user' : User)
    (feedback : PayloadFeedback) (planned : PayloadWorkout)
    (exercises' : list Partial.Exercise) (flags : list string) :
  payload_user body = Some user' ->
  payload_feedback body = Some feedback ->
  payload_plannedWorkout body = Some planned ->
  payload_exercises planned = Some exercises' ->
  (payload_painFlags feedback = Absent /\ flags = []
   \/ payload_painFlags feedback = Value flags) ->
  (existsb recognised flags = false \/ existsb Complete.nameless exercises' = false) ->
  (exists d exs',
     handle now body = Success d
     /\ Partial.readinessScore d
        = calculateReadiness engine
            (mkFeedback (payload_sleepQuality feedback) (payload_soreness feedback)
                        (payload_stressLevel feedback) (Some flags))
     /\ Partial.decision_workout d
        = Partial.mkWorkout (payload_id planned) (payload_userId planned)
                            (payload_name planned) (Some exs') now
     /\ length exs' = length exercises')
  /\ handle now body
     = handle now
         (mkPayload (Some user') (Some planned)
            (Some (mkPayloadFeedback (payload_sleepQuality feedback)
                                     (payload_soreness feedback)
                                     (payload_stressLevel feedback) (Value flags)))
            (Some (default [] (payload_history body)))).
Proof.
  intros Huser Hfeedback Hplanned Hexercises Hflags Hcase. split.
  - pose proof (handle_outcome now body user' feedback planned exercises'
                  Huser Hfeedback Hplanned Hexercises) as Hout.
    cbv zeta in Hout. rewrite new_Feedback_painFlags in Hout.
    assert (Hif : (existsb recognised flags && existsb Complete.nameless exercises')%bool
                  = false)
      by (apply andb_false_iff; exact Hcase).
    unfold new_Feedback in Hout.
    destruct Hflags as [[Habsent ->] | Hvalue];
      [rewrite Habsent in Hout | rewrite Hvalue in Hout];
      rewrite Hif in Hout; destruct Hout as (exs' & pushed & Hrun & Hlen);
      eexists; exists exs'; (split; [exact Hrun|]); repeat split; exact Hlen.
  - unfold handle.
    cbn [payload_user payload_feedback payload_plannedWorkout payload_history
         payload_sleepQuality payload_soreness payload_stressLevel payload_painFlags].
    rewrite Hfeedback, Hplanned, Hexercises, Huser.
    destruct Hflags as [[Habsent ->] | Hvalue];
      [rewrite Habsent | rewrite Hvalue];
      destruct (payload_history body); reflexivity.
Qed.

(** [handle_succeeds] at a payload with the test script's plan, the Squat
    without its name, and feedback that has neither [painFlags] nor a
    history. *)
Lemma handle_succeeds_witness :
  let body :=
    mkPayload (Some user)
      (Some (mkPayloadWorkout "w1" "u1" "Full Body A"
               (Some [Partial.mkExercise "sq" None (Some "compound") (Some ["quads"])
                                         100 3 5 (Some 8%Q);
                      Complete.exercise
                        (mkExercise "bp" "Bench Press" (Some "compound")
                                    (Some ["chest"]) 80 3 5 (Some 8%Q))])))
      (Some (mkPayloadFeedback (Some 8%Q) (Some 2%Q) (Some "Low") Absent))
      None in
  exists d exs',
    handle "2024-03-03T10:00:00.000Z" body = Success d
    /\ Partial.readinessScore d = 85
    /\ Partial.date (Partial.decision_workout d) = "2024-03-03T10:00:00.000Z"
    /\ Partial.exercises (Partial.decision_workout d) = Some exs'
    /\ length exs' = 2%nat.
Proof.
  cbv zeta.
  destruct (handle_succeeds "2024-03-03T10:00:00.000Z"
              (mkPayload (Some user)
                 (Some (mkPayloadWorkout "w1" "u1" "Full Body A"
                          (Some [Partial.mkExercise "sq" None (Some "compound")
                                   (Some ["quads"]) 100 3 5 (Some 8%Q);
                                 Complete.exercise
                                   (mkExercise "bp" "Bench Press" (Some "compound")
                                      (Some ["chest"]) 80 3 5 (Some 8%Q))])))
                 (Some (mkPayloadFeedback (Some 8%Q) (Some 2%Q) (Some "Low") Absent))
                 None)
              user (mkPayloadFeedback (Some 8%Q) (Some 2%Q) (Some "Low") Absent)
              (mkPayloadWorkout "w1" "u1" "Full Body A"
                 (Some [Partial.mkExercise "sq" None (Some "compound")
                          (Some ["quads"]) 100 3 5 (Some 8%Q);
                        Complete.exercise
                          (mkExercise "bp" "Bench Press" (Some "compound")
                             (Some ["chest"]) 80 3 5 (Some 8%Q))]))
              _ [] eq_refl eq_refl eq_refl eq_refl
              (or_introl (conj eq_refl eq_refl)) (or_introl eq_refl))
    as [(d & exs' & Hd & Hready & Hworkout & Hlen) _].
  exists d, exs'. split; [exact Hd|]. split; [exact Hready|].
  rewrite Hworkout. split; [reflexivity|]. split; [reflexivity | exact Hlen].
Defined.

(** X20. The handler answers with status error exactly when the payload
    lacks [user], [feedback], [plannedWorkout] or [plannedWorkout.exercises],
    or its [painFlags] is [null], or one of its pain flags is recognised
    while one of its exercises has no name (the [TypeError] of
    [exercise.name.includes], which the handler catches).  (The properties of
    the payload hold values of their type where they are present.) *)
Theorem handle_fails_iff (now : string) (body : Payload) :
  (exists message, handle now body = ServerError message)
  <-> (payload_user body = None
       \/ payload_feedback body = None
       \/ payload_plannedWorkout body = None
       \/ (exists planned,
             payload_plannedWorkout body = Some planned
             /\ payload_exercises planned = None)
       \/ (exists feedback,
             payload_feedback body = Some feedback
             /\ payload_painFlags feedback = Null)
       \/ (exists feedback planned flags exercises',
             payload_feedback body = Some feedback
             /\ payload_plannedWorkout body = Some planned
             /\ payload_painFlags feedback = Value flags
             /\ payload_exercises planned = Some exercises'
             /\ existsb recognised flags = true
             /\ existsb Complete.nameless exercises' = true)).
Proof.
  destruct (payload_user body) as [user' |] eqn:Huser,
    (payload_feedback body) as [feedback |] eqn:Hfeedback,
    (payload_plannedWorkout body) as [planned |] eqn:Hplanned;
    try (destruct (payload_exercises planned) as [exercises' |] eqn:Hexercises).
  1: { pose proof (handle_outcome now body user' feedback planned exercises'
                     Huser Hfeedback Hplanned Hexercises) as Hout.
       cbv zeta in Hout. rewrite new_Feedback_painFlags in Hout.
       destruct (payload_painFlags feedback) as [| | flags] eqn:Hflags.
       - cbn [existsb andb] in Hout. destruct Hout as (exs' & pushed & Hrun & _).
         rewrite Hrun. split; [intros [message H]; discriminate H|].
         intros [H | [H | [H | [(p & H & Hn) | [(f & H & Hn) | H]]]]];
           try discriminate H.
         + injection H as <-. congruence.
         + injection H as <-. congruence.
         + destruct H as (f & p & fl & ex & Hf & _ & Hv & _).
           injection Hf as <-. congruence.
       - split; [intros _ | intros _; exact Hout].
         right. right. right. right. left. exists feedback. split; reflexivity || assumption.
       - destruct (existsb recognised flags) eqn:Hrec,
           (existsb Complete.nameless exercises') eqn:Hname; cbn [andb] in Hout.
         1: { split; [intros _ | intros _; exact Hout].
              do 5 right. exists feedback, planned, flags, exercises'.
              repeat split; assumption. }
         all: destruct Hout as (exs' & pushed & Hrun & _); rewrite Hrun;
           (split; [intros [message H]; discriminate H|]);
           intros [H | [H | [H | [(p & H & Hn) | [(f & H & Hn) | H]]]]];
           try discriminate H;
           try (injection H as <-; congruence);
           destruct H as (f & p & fl & ex & Hf & Hp & Hv & He & Hr & Hn);
           injection Hf as <-; injection Hp as <-;
           rewrite Hflags in Hv; injection Hv as <-;
           rewrite Hexercises in He; injection He as <-; congruence. }
  all: split; [intros _ | intros _; unfold handle;
                          rewrite ?Hfeedback, ?Hplanned, ?Hexercises, ?Huser;
                          eexists; reflexivity].
  all: eauto 8.
Qed.

(** [handle_fails_iff] at the empty payload, at a payload whose [painFlags]
    is [null], and at a payload with the flag "knee" and an exercise
    without a name. *)
Lemma handle_fails_iff_witness :
  let nameless :=
    mkPayloadWorkout "w1" "u1" "Full Body A"
      (Some [Partial.mkExercise "sq" None (Some "compound") (Some ["quads"])
                                100 3 5 (Some 8%Q)]) in
  (exists message, handle "now" (mkPayload None None None None) = ServerError message)
  /\ (exists message,
        handle "now"
          (mkPayload (Some user) (Some nameless)
             (Some (mkPayloadFeedback (Some 8%Q) (Some 2%Q) (Some "Low") Null))
             (Some historyA))
        = ServerError message)
  /\ (exists message,
        handle "now"
          (mkPayload (Some user) (Some nameless)
             (Some (mkPayloadFeedback (Some 8%Q) (Some 2%Q) (Some "Low")
                                      (Value ["knee"])))
             (Some historyA))
        = ServerError message).
Proof.
  cbv zeta. split; [| split].
  - destruct (handle_fails_iff "now" (mkPayload None None None None)) as [_ Hfail].
    apply Hfail. left. reflexivity.
  - match goal with
    | |- exists message, handle "now" ?body = _ =>
        destruct (handle_fails_iff "now" body) as [_ Hfail]
    end.
    apply Hfail. do 4 right. left. eexists. split; reflexivity.
  - match goal with
    | |- exists message, handle "now" ?body = _ =>
        destruct (handle_fails_iff "now" body) as [_ Hfail]
    end.
    apply Hfail. do 5 right. do 4 eexists. repeat split; reflexivity.
Defined.

End ServerExtra.

(** ** The text of an explanation *)

Module TextExtra.

Import Text.

(** The names the engine and the autoregulator pass are the labels of the
    switch. *)
Lemma kindOf_kindName (kind : AdjustmentType) : kindOf (kindName kind) = Some kind.
Proof. destruct kind; reflexivity. Qed.

(** X21. The text tells the kind: two calls of [explainAdjustment] that
    return the same text were made with the same label of the switch, or
    both with a string that is no label, whatever the contexts hold and
    however the numbers are printed.  A string that is no label (the labels
    are matched exactly, so "load_increase" is none) always yields the
    generic sentence. *)
Theorem text_tells_the_kind (numberToString toFixed1 : Q -> string)
    (adjustmentType adjustmentType' : string) (context context' : Context) :
  explainAdjustment numberToString toFixed1 adjustmentType context
  = explainAdjustment numberToString toFixed1 adjustmentType' context' ->
  kindOf adjustmentType = kindOf adjustmentType'
  /\ (kindOf adjustmentType = None ->
      explainAdjustment numberToString toFixed1 adjustmentType context
      = "Adjusting your plan based on recent performance.").
Proof.
  unfold explainAdjustment.
  destruct (kindOf adjustmentType) as [[] |], (kindOf adjustmentType') as [[] |];
    intros Htext; (split; [try reflexivity | intros Hnone; try discriminate Hnone;
                                             try reflexivity]);
    exfalso; cbn in Htext; discriminate Htext.
Qed.

(** [text_tells_the_kind] at two unknown labels: the same generic text. *)
Lemma text_tells_the_kind_witness :
  explainAdjustment (fun _ => "7") (fun _ => "2.5") "load_increase" emptyContext
  = "Adjusting your plan based on recent performance.".
Proof.
  destruct (text_tells_the_kind (fun _ => "7") (fun _ => "2.5") "load_increase"
              "Load Increase" emptyContext emptyContext eq_refl) as [_ Hgeneric].
  apply Hgeneric. reflexivity.
Defined.

End TextExtra.
